(** * The FTP FileHandler session engine (handler.go), embedded in Rocq

    handler.go implements the command loop of one FTP control connection:
    [fileSession.Handle] reads commands, dispatches them through
    [handlePreAuth] / [handlePostAuth], and the transfer helpers [retrieve],
    [store], [list] and [stat] drive the data channel.

    The embedding is shallow.  The mutable [fileSession] is threaded through
    a small state monad that also records, in order, every call made to a
    collaborator (control channel, Authorizer, FileSystem, opened files, data
    channel).  What the collaborators answer during one command is an [Env]
    record; all theorems quantify over it. *)

From Stdlib Require Import String Ascii ZArith List Lia Bool DecimalString DecimalPos.
Import ListNotations.
Open Scope Z_scope.
Open Scope string_scope.

(** ** Go values used by the handler *)

(** How package [os] classifies an error ([os.IsPermission],
    [os.IsNotExist]). *)
Inductive errclass : Type := Permission | NotExist | Other.

(** An error made by a collaborator, with its [Error()] text. *)
Record oserror : Type := mkErr { eclass : errclass; emsg : string }.

(** A Go [error] as the handler sees it.  [errNoDataConn] is the package's
    private sentinel, built once by [errors.New]; no collaborator can return
    it, and the handler recognises it by identity ([err == errNoDataConn]). *)
Inductive error : Type :=
| errNoDataConn
| Ext (e : oserror).

Definition io_EOF : error := Ext (mkErr Other "EOF").

Definition is_errNoDataConn (err : option error) : bool :=
  match err with Some errNoDataConn => true | _ => false end.

(** Check if an error is a permission error. *)
Definition isPermission (err : option error) : bool :=
  match err with
  | Some (Ext {| eclass := Permission |}) => true
  | _ => false
  end.

(** Check if an error implies a file does not exist. *)
Definition isNotExist (err : option error) : bool :=
  match err with
  | Some (Ext {| eclass := NotExist |}) => true
  | _ => false
  end.

(** Check if an error implies a file already exists (the source tests
    [os.IsPermission] here; the helper has no caller in handler.go). *)
Definition isExist (err : option error) : bool := isPermission err.

Definition Error (err : error) : string :=
  match err with
  | errNoDataConn => "no data channel connection"
  | Ext e => emsg e
  end.

(** The error part of a Go result pair [(v, err)]. *)
Definition errOf {A : Type} (r : oserror + A) : option error :=
  match r with inl e => Some (Ext e) | inr _ => None end.

Definition liftErr (r : option oserror) : option error := option_map Ext r.

(** Broken-down wall-clock time, as [Time.Date] and [Time.Clock] give it. *)
Record Time : Type := mkTime {
  Year : Z; Month : Z; Day : Z; Hour : Z; Minute : Z; Second : Z
}.

(** [os.FileInfo]. *)
Record FileInfo : Type := mkFileInfo {
  Name : string; Size : Z; ModTime : Time; IsDir : bool
}.

(** An opened [File], named by the handle the FileSystem returned. *)
Definition File : Type := nat.

(** The session's data channel ([Session.Data]). *)
Record DataConn : Type := mkData { HostPort : string; Port : Z }.

(** A parsed [*Command]. *)
Record Command : Type := mkCommand { Cmd : string; Msg : string }.

(** [FileHandler]: only the presence of the Authorizer is read as a field;
    its answers, like the FileSystem's, come from the [Env]. *)
Record FileHandler : Type := mkHandler { hasAuthorizer : bool }.

(** The fields of [Session] that handler.go reads or writes.  [ServerTLS]
    stands for [s.Server.TLS], [AddrNetwork] for [s.Addr.Network()]; a TLS
    configuration is named by a number. *)
Record Session : Type := mkSession {
  User : string;
  Password : string;
  Dir : string;
  Data : option DataConn;
  TLS : option nat;
  ServerTLS : option nat;
  AddrNetwork : string
}.

(** A fileSession wraps session state for a FileHandler. *)
Record fileSession : Type := mkFS {
  handler : FileHandler;
  session : Session;
  authed : bool;      (* Whether we're done with auth. *)
  renaming : string;  (* The file we're renaming, if any. *)
  epsvOnly : bool;    (* Whether we saw "EPSV ALL". *)
  restart : Z         (* Restart offset (int64). *)
}.

Definition with_session (f : Session -> Session) (s : fileSession) : fileSession :=
  mkFS (handler s) (f (session s)) (authed s) (renaming s) (epsvOnly s) (restart s).
Definition set_User (u : string) : fileSession -> fileSession :=
  with_session (fun x => mkSession u (Password x) (Dir x) (Data x) (TLS x) (ServerTLS x) (AddrNetwork x)).
Definition set_Password (p : string) : fileSession -> fileSession :=
  with_session (fun x => mkSession (User x) p (Dir x) (Data x) (TLS x) (ServerTLS x) (AddrNetwork x)).
Definition set_Dir (d : string) : fileSession -> fileSession :=
  with_session (fun x => mkSession (User x) (Password x) d (Data x) (TLS x) (ServerTLS x) (AddrNetwork x)).
Definition set_Data (d : option DataConn) : fileSession -> fileSession :=
  with_session (fun x => mkSession (User x) (Password x) (Dir x) d (TLS x) (ServerTLS x) (AddrNetwork x)).
Definition set_TLS (t : option nat) : fileSession -> fileSession :=
  with_session (fun x => mkSession (User x) (Password x) (Dir x) (Data x) t (ServerTLS x) (AddrNetwork x)).
Definition set_authed (b : bool) (s : fileSession) : fileSession :=
  mkFS (handler s) (session s) b (renaming s) (epsvOnly s) (restart s).
Definition set_renaming (r : string) (s : fileSession) : fileSession :=
  mkFS (handler s) (session s) (authed s) r (epsvOnly s) (restart s).
Definition set_epsvOnly (b : bool) (s : fileSession) : fileSession :=
  mkFS (handler s) (session s) (authed s) (renaming s) b (restart s).
Definition set_restart (n : Z) (s : fileSession) : fileSession :=
  mkFS (handler s) (session s) (authed s) (renaming s) (epsvOnly s) n.

(** ** Collaborators *)

(** Every call the handler makes to a collaborator, in program order. *)
Inductive Event : Type :=
| EvReply (code : nat) (msg : string)
| EvAuthorize (user pass : string)
| EvSetType (msg : string)
| EvSetMode (msg : string)
| EvStat (path : string)
| EvMkdir (path : string)
| EvRemove (path : string)
| EvRename (old new : string)
| EvOpen (path : string)
| EvCreate (path : string)
| EvSeek (f : File) (offset : Z)
| EvReaddir (f : File)
| EvClose (f : File)
| EvCopyToData (f : File) (d : DataConn)
| EvCopyFromData (d : DataConn) (f : File)
| EvListWrite (f : File) (cmd : string) (d : DataConn)
| EvPassive (nw : string)
| EvActive (addr : string)
| EvCloseData
| EvPrintln (msg : string).

(** What the collaborators answer while one command is handled.  [None] is
    a nil error.  A failed negotiation also says what it left in
    [Session.Data]. *)
Record Env : Type := mkEnv {
  (* control channel and Session helpers *)
  env_Reply : nat -> string -> option oserror;
  env_Path : string -> string -> string;
  env_SetType : string -> option oserror;
  env_SetMode : string -> option oserror;
  env_Passive : string -> (oserror * option DataConn) + DataConn;
  env_Active : string -> (oserror * option DataConn) + DataConn;
  env_CloseData : option oserror;
  env_ParsePORT : string -> oserror + string;
  env_ParseEPRT : string -> oserror + string;
  env_listLines : list FileInfo -> list string;
  (* Authorizer *)
  env_Authorize : string -> string -> bool * option oserror;
  (* FileSystem *)
  env_Stat : string -> oserror + FileInfo;
  env_Mkdir : string -> option oserror;
  env_Remove : string -> option oserror;
  env_Rename : string -> string -> option oserror;
  env_Open : string -> oserror + File;
  env_Create : string -> oserror + File;
  (* File, io.Copy and Lister.WriteTo *)
  env_Seek : File -> Z -> option oserror;
  env_Readdir : File -> oserror + list FileInfo;
  env_Close : File -> option oserror;
  env_CopyToData : File -> DataConn -> option oserror;
  env_CopyFromData : DataConn -> File -> option oserror;
  env_ListWrite : File -> string -> DataConn -> option oserror
}.

(** ** The state-and-trace monad *)

Definition M (A : Type) : Type := fileSession -> A * fileSession * list Event.

Definition ret {A : Type} (a : A) : M A := fun s => (a, s, []).

Definition bind {A B : Type} (m : M A) (k : A -> M B) : M B :=
  fun s =>
    let '(a, s1, t1) := m s in
    let '(b, s2, t2) := k a s1 in
    (b, s2, (t1 ++ t2)%list).

Definition get : M fileSession := fun s => (s, s, []).
Definition modify (f : fileSession -> fileSession) : M unit := fun s => (tt, f s, []).
Definition emit (ev : Event) : M unit := fun s => (tt, s, [ev]).

Declare Scope ftp_scope.
Delimit Scope ftp_scope with ftp.
Notation "x <- m ;; k" := (bind m (fun x => k))
  (at level 61, m at next level, right associativity) : ftp_scope.
Notation "m ;; k" := (bind m (fun _ => k))
  (at level 61, right associativity) : ftp_scope.
Open Scope ftp_scope.

Definition result_of {A : Type} (r : A * fileSession * list Event) : A := fst (fst r).
Definition state_of {A : Type} (r : A * fileSession * list Event) : fileSession := snd (fst r).
Definition trace_of {A : Type} (r : A * fileSession * list Event) : list Event := snd r.

(** ** Library functions of Go the handler calls *)

(** [strings.ToUpper], on the ASCII letters.  The handler only compares the
    result with the ASCII words ALL and UTF8 ON; upper-casing a rune outside
    ASCII never yields one of their letters, so the comparison is unchanged. *)
Definition upper_ascii (c : ascii) : ascii :=
  let n := nat_of_ascii c in
  if ((97 <=? n) && (n <=? 122))%nat then ascii_of_nat (n - 32) else c.

Fixpoint ToUpper (s : string) : string :=
  match s with
  | EmptyString => EmptyString
  | String c r => String (upper_ascii c) (ToUpper r)
  end.

(** [strings.Join]. *)
Definition Join (l : list string) (sep : string) : string := String.concat sep l.

(** [strings.Split(s, " ")]: the empty string gives one empty field. *)
Fixpoint SplitSpace (s : string) : list string :=
  match s with
  | EmptyString => [EmptyString]
  | String c r =>
      if (c =? " ")%char then EmptyString :: SplitSpace r
      else match SplitSpace r with
           | w :: ws => String c w :: ws
           | [] => [String c EmptyString]
           end
  end.

(** [strings.HasPrefix]. *)
Definition HasPrefix (s p : string) : bool := String.prefix p s.

(** The scan that opens [stripListFlags]: [false] when it returns [s] as it
    is (a first character other than a space or a hyphen), [true] when it
    breaks at a hyphen or runs off the end.  The source ranges over runes;
    a rune outside ASCII is neither a space nor a hyphen, and neither is any
    of its bytes, so ranging over bytes decides the same. *)
Fixpoint flagScan (s : string) : bool :=
  match s with
  | EmptyString => true
  | String c r =>
      if (c =? "-")%char then true
      else if negb (c =? " ")%char then false
      else flagScan r
  end.

(** Some clients assume LIST accepts flags like ls. This removes those. *)
Definition stripListFlags (s : string) : string :=
  if flagScan s
  then Join (filter (fun w => negb (HasPrefix w "-")) (SplitSpace s)) " "
  else s.

Definition dquote : ascii := "034"%char.
Definition newline : string := String "010"%char EmptyString.

Fixpoint doubleQuotes (s : string) : string :=
  match s with
  | EmptyString => EmptyString
  | String c r =>
      if (c =? dquote)%char then String dquote (String dquote (doubleQuotes r))
      else String c (doubleQuotes r)
  end.

(** Quote returns a quoted string with double-escaped quotes. *)
Definition quote (s : string) : string :=
  String dquote (doubleQuotes s ++ String dquote EmptyString).

(** [sort.Strings], as an insertion sort on the byte order of strings. *)
Fixpoint insertString (x : string) (l : list string) : list string :=
  match l with
  | [] => [x]
  | y :: r => if x <=? y then x :: l else y :: insertString x r
  end.

Definition sortStrings (l : list string) : list string :=
  fold_right insertString [] l.

(** [strconv.FormatInt(n, 10)] and the verb [%d]. *)
Definition FormatInt (n : Z) : string := NilZero.string_of_int (Z.to_int n).

(** *** strconv.ParseInt(s, 10, 64) *)

Inductive numError : Type := ErrSyntax | ErrRange.

Definition maxUint64 : Z := 2 ^ 64 - 1.

Definition digitVal (c : ascii) : option Z :=
  let n := nat_of_ascii c in
  if ((48 <=? n) && (n <=? 57))%nat then Some (Z.of_nat n - 48) else None.

(** The loop of [ParseUint] over the bytes of [s], base 10 and 64 bits, with
    the accumulator [n]: a byte that is no digit is a syntax error, and an
    overflow of [n * 10] or of [n + d] is a range error with the value
    [maxUint64]. *)
Fixpoint parseUintLoop (s : string) (n : Z) : Z * option numError :=
  match s with
  | EmptyString => (n, None)
  | String c r =>
      match digitVal c with
      | None => (0, Some ErrSyntax)
      | Some d =>
          if (n >=? maxUint64 / 10 + 1)%Z then (maxUint64, Some ErrRange)
          else
            let n10 := (n * 10)%Z in
            let n1 := ((n10 + d) mod 2 ^ 64)%Z in
            if ((n1 <? n10) || (n1 >? maxUint64))%Z then (maxUint64, Some ErrRange)
            else parseUintLoop r n1
      end
  end.

Definition ParseUint (s : string) : Z * option numError :=
  match s with
  | EmptyString => (0, Some ErrSyntax)
  | _ => parseUintLoop s 0
  end.

Definition ParseInt (s : string) : Z * option numError :=
  match s with
  | EmptyString => (0, Some ErrSyntax)
  | String c r =>
      let neg := (c =? "-")%char in
      let s' := if ((c =? "+") || (c =? "-"))%char then r else s in
      let '(un, err) := ParseUint s' in
      match err with
      | Some ErrSyntax => (0, err)
      | _ =>
          let cutoff := (2 ^ 63)%Z in
          if (negb neg && (un >=? cutoff))%Z then (cutoff - 1, Some ErrRange)%Z
          else if (neg && (un >? cutoff))%Z then (- cutoff, Some ErrRange)%Z
          else (if neg then - un else un, None)%Z
      end
  end.

(** *** time.Time.Format *)

Definition mdtmFormat : string := "20060102150405".

(** The layout chunks of package [time] that occur in [mdtmFormat]. *)
Inductive stdChunk : Type :=
| stdLongYear | stdZeroMonth | stdZeroDay | stdHour | stdZeroMinute | stdZeroSecond.

(** [nextStdChunk] at the head of a layout, for those chunks: 2006, 01, 02,
    15, 04 and 05. *)
Definition nextStdChunk (layout : string) : option (stdChunk * string) :=
  match layout with
  | String "2" (String "0" (String "0" (String "6" r))) => Some (stdLongYear, r)
  | String "0" (String "1" r) => Some (stdZeroMonth, r)
  | String "0" (String "2" r) => Some (stdZeroDay, r)
  | String "1" (String "5" r) => Some (stdHour, r)
  | String "0" (String "4" r) => Some (stdZeroMinute, r)
  | String "0" (String "5" r) => Some (stdZeroSecond, r)
  | _ => None
  end.

Fixpoint zeros (n : nat) : string :=
  match n with O => EmptyString | S k => String "0" (zeros k) end.

(** [appendInt(b, x, width)]: a sign for a negative [x], then the decimal
    digits of its magnitude, padded with zeros on the left to [width]. *)
Definition appendInt (x : Z) (width : nat) : string :=
  let digits := NilZero.string_of_uint (N.to_uint (Z.to_N (Z.abs x))) in
  (if (x <? 0)%Z then "-" else "") ++ zeros (width - String.length digits) ++ digits.

Definition formatChunk (t : Time) (c : stdChunk) : string :=
  match c with
  | stdLongYear => appendInt (Year t) 4
  | stdZeroMonth => appendInt (Month t) 2
  | stdZeroDay => appendInt (Day t) 2
  | stdHour => appendInt (Hour t) 2
  | stdZeroMinute => appendInt (Minute t) 2
  | stdZeroSecond => appendInt (Second t) 2
  end.

(** [AppendFormat]: chunk after chunk; layout text that starts no chunk is
    copied as it is. *)
Fixpoint formatLoop (fuel : nat) (t : Time) (layout : string) : string :=
  match fuel with
  | O => EmptyString
  | S k =>
      match nextStdChunk layout with
      | Some (c, rest) => formatChunk t c ++ formatLoop k t rest
      | None => layout
      end
  end.

Definition Format (t : Time) (layout : string) : string :=
  formatLoop (String.length layout) t layout.

(** ** The handler *)

Section Handler.

Variable env : Env.

(** *** Calls to the collaborators *)

(** [Session.Reply(code, format, args...)].  The event records the text to
    send: the format itself where the source passes no arguments, and the
    format with [%s] and [%d] filled in for the calls that pass some. *)
Definition Reply (code : nat) (msg : string) : M (option error) :=
  emit (EvReply code msg) ;; ret (liftErr (env_Reply env code msg)).

(** [Session.Path(p)]: the server-rooted path of [p] under the working
    directory. *)
Definition Path (p : string) : M string :=
  s <- get ;; ret (env_Path env (Dir (session s)) p).

Definition SetType (msg : string) : M (option error) :=
  emit (EvSetType msg) ;; ret (liftErr (env_SetType env msg)).

Definition SetMode (msg : string) : M (option error) :=
  emit (EvSetMode msg) ;; ret (liftErr (env_SetMode env msg)).

Definition negotiated (r : (oserror * option DataConn) + DataConn) : M (option error) :=
  match r with
  | inl (e, d) => modify (set_Data d) ;; ret (Some (Ext e))
  | inr d => modify (set_Data (Some d)) ;; ret None
  end.

(** Modelled from the spec: [Session.Passive] and [Session.Active] are not in
    handler.go.  A successful negotiation leaves the new data channel in
    [Session.Data], superseding a prior one. *)
Definition Passive (nw : string) : M (option error) :=
  emit (EvPassive nw) ;; negotiated (env_Passive env nw).

Definition Active (addr : string) : M (option error) :=
  emit (EvActive addr) ;; negotiated (env_Active env addr).

(** Modelled from the spec: [Session.CloseData] is not in handler.go.  It
    closes the data channel, which is then no longer associated with the
    session, and returns the result of the close. *)
Definition CloseData : M (option error) :=
  emit EvCloseData ;; modify (set_Data None) ;; ret (liftErr (env_CloseData env)).

Definition Authorize (user pass : string) : M (bool * option error) :=
  emit (EvAuthorize user pass) ;;
  ret (fst (env_Authorize env user pass), liftErr (snd (env_Authorize env user pass))).

Definition Stat (path : string) : M (oserror + FileInfo) :=
  emit (EvStat path) ;; ret (env_Stat env path).
Definition Mkdir (path : string) : M (option error) :=
  emit (EvMkdir path) ;; ret (liftErr (env_Mkdir env path)).
Definition Remove (path : string) : M (option error) :=
  emit (EvRemove path) ;; ret (liftErr (env_Remove env path)).
Definition Rename (old new : string) : M (option error) :=
  emit (EvRename old new) ;; ret (liftErr (env_Rename env old new)).
Definition Open (path : string) : M (oserror + File) :=
  emit (EvOpen path) ;; ret (env_Open env path).
Definition Create (path : string) : M (oserror + File) :=
  emit (EvCreate path) ;; ret (env_Create env path).
Definition Seek (f : File) (offset : Z) : M (option error) :=
  emit (EvSeek f offset) ;; ret (liftErr (env_Seek env f offset)).
Definition Readdir (f : File) : M (oserror + list FileInfo) :=
  emit (EvReaddir f) ;; ret (env_Readdir env f).
Definition Close (f : File) : M (option error) :=
  emit (EvClose f) ;; ret (liftErr (env_Close env f)).
(** [io.Copy(s.Data, file)] and [io.Copy(file, s.Data)]. *)
Definition CopyToData (f : File) (d : DataConn) : M (option error) :=
  emit (EvCopyToData f d) ;; ret (liftErr (env_CopyToData env f d)).
Definition CopyFromData (d : DataConn) (f : File) : M (option error) :=
  emit (EvCopyFromData d f) ;; ret (liftErr (env_CopyFromData env d f)).
(** [Lister{File: file, Cmd: cmd}.WriteTo(s.Data)]. *)
Definition ListWrite (f : File) (cmd : string) (d : DataConn) : M (option error) :=
  emit (EvListWrite f cmd d) ;; ret (liftErr (env_ListWrite env f cmd d)).
Definition println (msg : string) : M unit := emit (EvPrintln msg).

(** *** Transfers *)

(** Return supported features. *)
Definition features (s : fileSession) : list string :=
  let f := ["EPRT"; "EPSV"; "MDTM"; "PASV"; "REST STREAM"; "SIZE"; "UTF8"] in
  let f := match ServerTLS (session s) with
           | Some _ => (f ++ ["PBSZ"; "PROT"])%list
           | None => f
           end in
  sortStrings f.

(** Handler for RETR. *)
Definition retrieve (c : Command) : M (option error) :=
  s <- get ;;
  match Data (session s) with
  | None => ret (Some errNoDataConn)
  | Some data =>
      path <- Path (Msg c) ;;
      r <- Open path ;;
      match r with
      | inl err => CloseData ;; ret (Some (Ext err))
      | inr file =>
          err <- Reply 150 "Here comes the file." ;;
          match err with
          | Some e => Close file ;; CloseData ;; ret (Some e)
          | None =>
              err <- (if (restart s >? 0)%Z then Seek file (restart s) else ret None) ;;
              match err with
              | Some e => Close file ;; CloseData ;; ret (Some e)
              | None =>
                  err <- CopyToData file data ;;
                  match err with
                  | Some e => Close file ;; CloseData ;; ret (Some e)
                  | None => Close file ;; CloseData
                  end
              end
          end
      end
  end.

(** Handler for STOR. *)
Definition store (c : Command) : M (option error) :=
  s <- get ;;
  match Data (session s) with
  | None => ret (Some errNoDataConn)
  | Some data =>
      path <- Path (Msg c) ;;
      r <- Create path ;;
      match r with
      | inl err => CloseData ;; ret (Some (Ext err))
      | inr file =>
          err <- Reply 150 "Awaiting file data." ;;
          match err with
          | Some e => Close file ;; CloseData ;; ret (Some e)
          | None =>
              err <- (if (restart s >? 0)%Z then Seek file (restart s) else ret None) ;;
              match err with
              | Some e => Close file ;; CloseData ;; ret (Some e)
              | None =>
                  err <- CopyFromData data file ;;
                  match err with
                  | Some e => Close file ;; CloseData ;; ret (Some e)
                  | None => err <- Close file ;; CloseData ;; ret err
                  end
              end
          end
      end
  end.

(** Handler for STAT. *)
Definition stat (p : string) : M (oserror + list FileInfo) :=
  r <- Stat p ;;
  match r with
  | inl err => ret (inl err)
  | inr st =>
      if negb (IsDir st) then ret (inr [st])
      else
        r <- Open p ;;
        match r with
        | inl err => ret (inl err)
        | inr file =>
            r <- Readdir file ;;
            match r with
            | inl err => Close file ;; ret (inl err)
            | inr l => Close file ;; ret (inr l)
            end
        end
  end.

(** Handler for LIST and NLST ([list] in the source; the name is taken by
    the list type here). *)
Definition list_ (c : Command) : M (option error) :=
  s <- get ;;
  match Data (session s) with
  | None => ret (Some errNoDataConn)
  | Some data =>
      path <- Path (stripListFlags (Msg c)) ;;
      r <- Open path ;;
      match r with
      | inl err => CloseData ;; ret (Some (Ext err))
      | inr file =>
          err <- Reply 150 "Here comes the list." ;;
          match err with
          | Some e => Close file ;; CloseData ;; ret (Some e)
          | None =>
              err <- ListWrite file (Cmd c) data ;;
              match err with
              | Some e => Close file ;; CloseData ;; ret (Some e)
              | None => Close file ;; CloseData
              end
          end
      end
  end.

(** *** Dispatch *)

Definition helpText : string :=
  Join ["The following commands are recognized.";
        "CDUP CWD  DELE EPRT EPSV FEAT HELP LIST MDTM MKD  MODE NLST NOOP OPTS";
        "PASS PASV PBSZ PORT PROT PWD  QUIT REST RETR RMD  RNFR RNTO SIZE STAT";
        "STOR SYST TYPE USER";
        "Help OK."] newline.

Definition handlePreAuth (c : Command) : M (option error) :=
  s <- get ;;
  if Cmd c =? "USER" then
    if authed s then Reply 530 "Cannot change user."
    else if Msg c =? "" then Reply 504 "A user name is required."
    else modify (set_User (Msg c)) ;; Reply 331 "Please specify the password."
  else if Cmd c =? "PASS" then
    if authed s then Reply 230 "Already logged in."
    else if User (session s) =? "" then Reply 503 "Log in with USER first."
    else
      let login := modify (set_Password (Msg c)) ;;
                   modify (set_authed true) ;;
                   Reply 230 "Login successful." in
      if hasAuthorizer (handler s) then
        r <- Authorize (User (session s)) (Msg c) ;;
        match snd r with
        | Some err => modify (set_User "") ;; ret (Some err)
        | None =>
            if negb (fst r)
            then modify (set_User "") ;; Reply 430 "Invalid user name or password."
            else login
        end
      else login
  else if Cmd c =? "FEAT" then
    let msg := (["Extensions supported:"] ++ features s ++ ["End."])%list in
    Reply 211 (Join msg newline)
  else if Cmd c =? "QUIT" then Reply 211 "Goodbye."
  else
    if negb (authed s) then Reply 530 "Log in with USER and PASS."
    else Reply 502 "Not implemented.".

(** [s.Data.HostPort()] and [s.Data.Port()], read after a negotiation that
    succeeded and so left a data channel. *)
Definition dataHostPort (s : fileSession) : string :=
  match Data (session s) with Some d => HostPort d | None => "" end.
Definition dataPort (s : fileSession) : Z :=
  match Data (session s) with Some d => Port d | None => 0%Z end.

(** CWD and CDUP after the path is resolved. *)
Definition changeDir (path : string) : M (option error) :=
  r <- Stat path ;;
  if isPermission (errOf r) then Reply 550 "Insufficient permissions."
  else if isNotExist (errOf r) then Reply 550 "No such directory."
  else match r with
       | inl _ => Reply 550 "Failed to change directory."
       | inr st =>
           if negb (IsDir st) then Reply 550 "Failed to change directory."
           else modify (set_Dir path) ;; Reply 250 "Directory successfully changed."
       end.

Definition handlePostAuth (c : Command) : M (option error) :=
  s <- get ;;
  if Cmd c =? "SYST" then Reply 215 "UNIX Type: L8"
  else if Cmd c =? "TYPE" then
    err <- SetType (Msg c) ;;
    match err with
    | Some e => Reply 504 (Error e)
    | None => Reply 200 "Type switched successfully."
    end
  else if Cmd c =? "MODE" then
    err <- SetMode (Msg c) ;;
    match err with
    | Some e => Reply 504 (Error e)
    | None => Reply 200 "Mode switched successfully."
    end
  else if Cmd c =? "PWD" then
    path <- Path "" ;;
    Reply 257 (quote path ++ " is the current directory.")
  else if Cmd c =? "CWD" then
    if Msg c =? "" then Reply 550 "Failed to change directory."
    else path <- Path (Msg c) ;; changeDir path
  else if Cmd c =? "CDUP" then
    path <- Path ".." ;; changeDir path
  else if Cmd c =? "MKD" then
    path <- Path (Msg c) ;;
    err <- Mkdir path ;;
    match err with
    | Some _ => Reply 550 "Failed to create directory."
    | None => Reply 257 (quote path ++ " created.")
    end
  else if Cmd c =? "SIZE" then
    path <- Path (Msg c) ;;
    r <- Stat path ;;
    if isPermission (errOf r) then Reply 550 "Insufficient permissions."
    else if isNotExist (errOf r) then Reply 550 "No such file."
    else match r with
         | inl _ => Reply 550 "Could not get size."
         | inr st =>
             if IsDir st then Reply 550 "Path specifies a directory."
             else Reply 213 (FormatInt (Size st))
         end
  else if Cmd c =? "MDTM" then
    path <- Path (Msg c) ;;
    r <- Stat path ;;
    if isPermission (errOf r) then Reply 550 "Insufficient permissions."
    else if isNotExist (errOf r) then Reply 550 "No such file or directory."
    else match r with
         | inl _ => Reply 550 "Could not get size."
         | inr st =>
             if IsDir st then Reply 550 "Could not get size."
             else Reply 213 (Format (ModTime st) mdtmFormat)
         end
  else if (Cmd c =? "DELE") || (Cmd c =? "RMD") then
    if Msg c =? "" then Reply 501 "A file name is required."
    else
      path <- Path (Msg c) ;;
      err <- Remove path ;;
      if isPermission err then Reply 550 "Insufficient permissions."
      else if isNotExist err then Reply 550 "No such file."
      else match err with
           | Some _ => Reply 550 "Could not delete file."
           | None => Reply 250 "Successfully deleted file."
           end
  else if Cmd c =? "RNFR" then
    if Msg c =? "" then Reply 501 "A file name is required."
    else
      path <- Path (Msg c) ;;
      modify (set_renaming path) ;;
      Reply 350 "Call RNTO to specify destination."
  else if Cmd c =? "RNTO" then
    if Msg c =? "" then Reply 501 "A file name is required."
    else if renaming s =? "" then Reply 503 "Call RNFR first."
    else
      new <- Path (Msg c) ;;
      err <- Rename (renaming s) new ;;
      if isPermission err then Reply 550 "Insufficient permissions."
      else if isNotExist err then Reply 550 "No such file."
      else match err with
           | Some _ => Reply 550 "Could not rename file."
           | None => Reply 250 "Successfully renamed file."
           end
  else if Cmd c =? "PASV" then
    if epsvOnly s then Reply 550 "PASV is disallowed."
    else
      err <- Passive "tcp4" ;;
      match err with
      | Some e => println (Error e) ;; Reply 425 "Can't open data connection."
      | None =>
          s' <- get ;;
          Reply 227 ("Entering Passive Mode (" ++ dataHostPort s' ++ ").")
      end
  else if Cmd c =? "EPSV" then
    if ToUpper (Msg c) =? "ALL" then
      modify (set_epsvOnly true) ;; Reply 200 "EPSV ALL ok."
    else
      let nw := if Msg c =? "1" then Some "tcp4"
                else if Msg c =? "2" then Some "tcp6"
                else if Msg c =? "" then Some (AddrNetwork (session s))
                else None in
      match nw with
      | None => Reply 522 "Unsupported protocol."
      | Some nw =>
          err <- Passive nw ;;
          match err with
          | Some _ => Reply 425 "Can't open data connection."
          | None =>
              s' <- get ;;
              Reply 229 ("Entering Extended Passive Mode (|||" ++ FormatInt (dataPort s') ++ "|)")
          end
      end
  else if Cmd c =? "PORT" then
    if epsvOnly s then Reply 550 "PORT is disallowed."
    else
      match env_ParsePORT env (Msg c) with
      | inl _ => Reply 501 "Invalid syntax."
      | inr addr =>
          err <- Active addr ;;
          match err with
          | Some _ => Reply 550 "Failed to connect."
          | None => Reply 200 "OK"
          end
      end
  else if Cmd c =? "EPRT" then
    if epsvOnly s then Reply 550 "EPRT is disallowed."
    else
      match env_ParseEPRT env (Msg c) with
      | inl _ => Reply 501 "Invalid syntax."
      | inr addr =>
          err <- Active addr ;;
          match err with
          | Some _ => Reply 550 "Failed to connect."
          | None => Reply 200 "OK"
          end
      end
  else if Cmd c =? "REST" then
    let '(n, err) := ParseInt (Msg c) in
    match err with
    | Some _ => Reply 501 "Invalid syntax."
    | None =>
        if (n <? 0)%Z then Reply 501 "Invalid syntax."
        else
          modify (set_restart n) ;;
          Reply 350 ("Restart position accepted (" ++ FormatInt n ++ ").")
    end
  else if Cmd c =? "STAT" then
    if Msg c =? "" then Reply 211 "Looks good to me."
    else
      r <- stat (Msg c) ;;
      if isPermission (errOf r) then Reply 550 "Insufficient permissions."
      else if isNotExist (errOf r) then Reply 550 "No such file or directory."
      else match r with
           | inl _ => Reply 550 "Error retrieving status."
           | inr l =>
               let msg := (["Status:"] ++ env_listLines env l ++ ["End."])%list in
               Reply 213 (Join msg newline)
           end
  else if (Cmd c =? "LIST") || (Cmd c =? "NLST") then
    err <- list_ c ;;
    if is_errNoDataConn err then Reply 425 "Use PORT or PASV first."
    else if isPermission err then Reply 550 "Insufficient permissions."
    else if isNotExist err then Reply 550 "No such directory."
    else match err with
         | Some _ => Reply 550 "Error listing directory."
         | None => Reply 226 "Directory send OK."
         end
  else if Cmd c =? "RETR" then
    err <- retrieve c ;;
    if is_errNoDataConn err then Reply 425 "Use PORT or PASV first."
    else if isPermission err then Reply 550 "Insufficient permissions."
    else if isNotExist err then Reply 550 "No such file."
    else match err with
         | Some _ => Reply 550 "Error retrieving file."
         | None => Reply 226 "Transfer complete."
         end
  else if Cmd c =? "STOR" then
    err <- store c ;;
    if is_errNoDataConn err then Reply 425 "Use PORT or PASV first."
    else if isPermission err then Reply 550 "Insufficient permissions."
    else match err with
         | Some _ => Reply 550 "Error storing file."
         | None => Reply 226 "Transfer complete."
         end
  else if Cmd c =? "PBSZ" then
    match ServerTLS (session s) with
    | None => Reply 502 "Not implemented."
    | Some _ =>
        if Msg c =? "0" then Reply 200 "OK."
        else Reply 534 "Unacceptable buffer size. PBSZ=0"
    end
  else if Cmd c =? "PROT" then
    match ServerTLS (session s) with
    | None => Reply 502 "Not implemented."
    | Some _ =>
        if Msg c =? "P" then
          modify (set_TLS (ServerTLS (session s))) ;; Reply 200 "Protection level changed."
        else if Msg c =? "C" then
          modify (set_TLS None) ;; Reply 200 "Protection level changed."
        else Reply 504 "Unsupported protection level."
    end
  else if Cmd c =? "OPTS" then
    if ToUpper (Msg c) =? "UTF8 ON" then Reply 200 "Always in UTF8 mode."
    else Reply 501 "Option not understood."
  else if Cmd c =? "HELP" then Reply 214 helpText
  else if Cmd c =? "NOOP" then Reply 200 "OK."
  else handlePreAuth c.

Definition handle (c : Command) : M (option error) :=
  s <- get ;;
  if negb (authed s) then handlePreAuth c else handlePostAuth c.

End Handler.

(** *** The command loop *)

(** One turn of the loop of [fileSession.Handle]: what [Session.Command]
    read (a command or a transport error) and what the collaborators answer
    while it is handled. *)
Record Turn : Type := mkTurn { t_read : oserror + Command; t_env : Env }.

(** The body of the [for] loop: [Some err] when [Handle] returns [err],
    [None] when the loop goes on to read the next command. *)
Definition iteration (t : Turn) : M (option error) :=
  match t_read t with
  | inl err => ret (Some (Ext err))
  | inr c =>
      err <- handle (t_env t) c ;;
      match err with
      | Some e => ret (Some e)
      | None =>
          if Cmd c =? "QUIT" then ret (Some io_EOF)
          else
            (if negb (Cmd c =? "RNFR") then modify (set_renaming "") else ret tt) ;;
            (if negb (Cmd c =? "REST") then modify (set_restart 0) else ret tt) ;;
            ret None
      end
  end.

(** [fileSession.Handle] over the turns the connection delivers.  The loop
    returns only with an error; when the turns run out before that, the
    session is blocked reading the next command and the result is [None]. *)
Fixpoint Handle (turns : list Turn) : M (option error) :=
  match turns with
  | [] => ret None
  | t :: rest =>
      r <- iteration t ;;
      match r with
      | Some e => ret (Some e)
      | None => Handle rest
      end
  end.

(** [FileHandler.Handle]: a fresh [fileSession] around the session. *)
Definition newFileSession (h : FileHandler) (ss : Session) : fileSession :=
  mkFS h ss false "" false 0.

(** The [Session] built by [Server.ServeFTP]: only the address and the
    server are set. *)
Definition newSession (serverTLS : option nat) (network : string) : Session :=
  mkSession "" "" "" None None serverTLS network.

(** ** Concrete collaborators, for evaluating the handler *)

Definition sampleTime : Time := mkTime 2019 3 7 14 5 9.
Definition sampleFile : FileInfo := mkFileInfo "notes.txt" 1234 sampleTime false.
Definition sampleDir : FileInfo := mkFileInfo "pub" 4096 sampleTime true.
Definition sampleData : DataConn := mkData "127,0,0,1,4,1" 1025.
Definition denied : oserror := mkErr Permission "permission denied".
Definition missing : oserror := mkErr NotExist "file does not exist".
Definition broken : oserror := mkErr Other "input/output error".

(** An environment whose control channel and negotiations always succeed;
    the answers of the Authorizer, of [Stat], of the calls that change the
    file system ([Mkdir], [Remove], [Rename]), of [Open]/[Create], of
    [File.Close] and of [CloseData] are the parameters. *)
Definition testEnv (auth : bool * option oserror) (st : oserror + FileInfo)
    (change : option oserror) (op : oserror + File)
    (close closeData : option oserror) : Env :=
  mkEnv (fun _ _ => None) (fun dir p => "/" ++ p)
        (fun _ => None) (fun _ => None)
        (fun _ => inr sampleData) (fun _ => inr sampleData)
        closeData
        (fun a => inr a) (fun a => inr a)
        (map Name)
        (fun _ _ => auth)
        (fun _ => st) (fun _ => change) (fun _ => change) (fun _ _ => change)
        (fun _ => op) (fun _ => op)
        (fun _ _ => None) (fun _ => inr [sampleFile]) (fun _ => close)
        (fun _ _ => None) (fun _ _ => None) (fun _ _ _ => None).

Definition okEnv : Env := testEnv (true, None) (inr sampleFile) None (inr 3%nat) None None.

(** Environments whose Authorizer rejects, or fails. *)
Definition rejectEnv : Env := testEnv (false, None) (inr sampleFile) None (inr 3%nat) None None.
Definition authFailEnv : Env :=
  testEnv (false, Some broken) (inr sampleFile) None (inr 3%nat) None None.

(** Environments in which closing the opened file, or the data channel,
    fails. *)
Definition closeFailEnv : Env :=
  testEnv (true, None) (inr sampleFile) None (inr 3%nat) (Some broken) None.
Definition closeDataFailEnv : Env :=
  testEnv (true, None) (inr sampleFile) None (inr 3%nat) None (Some broken).

(** An environment in which every path is a directory. *)
Definition dirEnv : Env := testEnv (true, None) (inr sampleDir) None (inr 3%nat) None None.

(** Environments in which the file system refuses every change, or finds
    nothing to open. *)
Definition readOnlyEnv : Env :=
  testEnv (true, None) (inr sampleFile) (Some denied) (inr 3%nat) None None.
Definition emptyEnv : Env :=
  testEnv (true, None) (inl missing) (Some missing) (inl missing) None None.

Definition freshSession : fileSession :=
  newFileSession (mkHandler true) (newSession None "tcp4").

(** A session after USER alice. *)
Definition aliceSession : fileSession := set_User "alice" freshSession.

(** A logged-in session, without and with a data channel. *)
Definition authedSession : fileSession :=
  set_authed true (set_Password "secret" aliceSession).
Definition readySession : fileSession := set_Data (Some sampleData) authedSession.

(** A session that has seen EPSV ALL. *)
Definition lockedSession : fileSession := set_epsvOnly true authedSession.

(** ** Vocabulary of the properties *)

(** *** Replies and traces *)

(** The replies written to the control channel, in order. *)
Fixpoint replies (tr : list Event) : list (nat * string) :=
  match tr with
  | [] => []
  | EvReply code msg :: r => (code, msg) :: replies r
  | _ :: r => replies r
  end.

Definition notLoggedIn : Event := EvReply 530 "Log in with USER and PASS.".

Definition mustUserFirst : Event := EvReply 503 "Log in with USER first.".
Definition invalidLogin : Event := EvReply 430 "Invalid user name or password.".
Definition loginOk : Event := EvReply 230 "Login successful.".

(** No USER has been accepted (reply 331) in the trace. *)
Definition noUserAccepted (tr : list Event) : Prop :=
  forall msg, ~ In (EvReply 331 msg) tr.

Definition callRnfrFirst : Event := EvReply 503 "Call RNFR first.".
Definition fileNameRequired : Event := EvReply 501 "A file name is required.".

Definition invalidSyntax : Event := EvReply 501 "Invalid syntax.".
Definition restartAccepted (n : Z) : Event :=
  EvReply 350 ("Restart position accepted (" ++ FormatInt n ++ ").").
Definition usePortOrPasv : Event := EvReply 425 "Use PORT or PASV first.".

Definition disallowed (verb : string) : Event := EvReply 550 (verb ++ " is disallowed.").
Definition extendedPassive (d : DataConn) : Event :=
  EvReply 229 ("Entering Extended Passive Mode (|||" ++ FormatInt (Port d) ++ "|)").

(** *** The loop body and what commands leave alone *)

(** The resets at the end of the loop body. *)
Definition cleared (c : Command) (s : fileSession) : fileSession :=
  let s1 := if Cmd c =? "RNFR" then s else set_renaming "" s in
  if Cmd c =? "REST" then s1 else set_restart 0 s1.

(** The part of the session state that no command takes back: the handler
    is fixed, [authed] and [epsvOnly] stay set once set, and the restart
    offset stays within the non-negative range of an int64. *)
Record stable (s s' : fileSession) : Prop := mkStable {
  st_handler : handler s' = handler s;
  st_server : ServerTLS (session s') = ServerTLS (session s);
  st_network : AddrNetwork (session s') = AddrNetwork (session s);
  st_authed : authed s = true -> authed s' = true;
  st_epsvOnly : epsvOnly s = true -> epsvOnly s' = true;
  st_restart : (0 <= restart s < 2 ^ 63)%Z -> (0 <= restart s' < 2 ^ 63)%Z
}.

(** What handling the command [c] may change: beyond [stable], only RNFR
    assigns [renaming] and only REST assigns [restart]. *)
Record frame (c : Command) (s s' : fileSession) : Prop := mkFrame {
  fr_stable : stable s s';
  fr_renaming : Cmd c <> "RNFR" -> renaming s' = renaming s;
  fr_restart : Cmd c <> "REST" -> restart s' = restart s
}.

(** A computation whose final state is always related to its initial one. *)
Definition frames {A : Type} (R : fileSession -> fileSession -> Prop) (m : M A) : Prop :=
  forall s, R s (state_of (m s)).

(** The passive-only lock is only ever set in an authenticated session. *)
Definition lockNeedsAuth (s : fileSession) : Prop :=
  epsvOnly s = true -> authed s = true.

(** *** Decimal numerals, to state what REST accepts *)

Definition isDigit (c : ascii) : bool :=
  match digitVal c with Some _ => true | None => false end.

Fixpoint allDigits (s : string) : bool :=
  match s with
  | EmptyString => true
  | String c r => isDigit c && allDigits r
  end.

(** The number written by the digits [s] after the digits read so far,
    whose value is [acc]. *)
Fixpoint decimalValue (s : string) (acc : Z) : Z :=
  match s with
  | EmptyString => acc
  | String c r =>
      decimalValue r (acc * 10 + match digitVal c with Some d => d | None => 0 end)
  end.

(** The integer a string denotes as a decimal numeral: an optional sign and
    at least one digit; [None] for any other string. *)
Definition decimalOf (s : string) : option Z :=
  match s with
  | EmptyString => None
  | String c r =>
      let body := if ((c =? "+") || (c =? "-"))%char then r else s in
      match body with
      | EmptyString => None
      | _ => if allDigits body
             then Some (if (c =? "-")%char then - decimalValue body 0 else decimalValue body 0)%Z
             else None
      end
  end.

(** *** Calendar times, to state what MDTM prints *)

(** The fields of a time whose year has at most four digits. *)
Definition calendar (t : Time) : Prop :=
  (0 <= Year t <= 9999 /\ 1 <= Month t <= 12 /\ 1 <= Day t <= 31
   /\ 0 <= Hour t <= 23 /\ 0 <= Minute t <= 59 /\ 0 <= Second t <= 59)%Z.

(** [appendInt x width] is exactly [width] digits that read [x]. *)
Definition fieldOk (width : nat) (x : Z) : bool :=
  ((String.length (appendInt x width) =? width)%nat
   && allDigits (appendInt x width)
   && (decimalValue (appendInt x width) 0 =? x)%Z)%bool.

(** *** The three transfer helpers, side by side *)

Inductive transfer : Type := Retr | Stor | List.

(** The helper a verb is dispatched to. *)
Definition kindOf (verb : string) : option transfer :=
  if verb =? "RETR" then Some Retr
  else if verb =? "STOR" then Some Stor
  else if (verb =? "LIST") || (verb =? "NLST") then Some List
  else None.

Definition transferOf (k : transfer) : Env -> Command -> M (option error) :=
  match k with Retr => retrieve | Stor => store | List => list_ end.

(** The path the helper resolves. *)
Definition transferPath (k : transfer) (env : Env) (s : fileSession) (c : Command) : string :=
  env_Path env (Dir (session s))
    match k with List => stripListFlags (Msg c) | _ => Msg c end.

(** The call that opens the resource, and its answer. *)
Definition openEvent (k : transfer) (path : string) : Event :=
  match k with Stor => EvCreate path | _ => EvOpen path end.
Definition opened (k : transfer) (env : Env) (path : string) : oserror + File :=
  match k with Stor => env_Create env path | _ => env_Open env path end.

(** The provisional reply. *)
Definition provisional (k : transfer) : Event :=
  EvReply 150 match k with
              | Retr => "Here comes the file."
              | Stor => "Awaiting file data."
              | List => "Here comes the list."
              end.
Definition provisionalAnswer (k : transfer) (env : Env) : option oserror :=
  env_Reply env 150 match k with
                    | Retr => "Here comes the file."
                    | Stor => "Awaiting file data."
                    | List => "Here comes the list."
                    end.

(** Whether the helper seeks: RETR and STOR with a positive offset. *)
Definition seeks (k : transfer) (s : fileSession) : bool :=
  match k with List => false | _ => (restart s >? 0)%Z end.
Definition seekEvents (k : transfer) (s : fileSession) (f : File) : list Event :=
  if seeks k s then [EvSeek f (restart s)] else [].

(** The streaming call, and its answer. *)
Definition streamEvent (k : transfer) (c : Command) (f : File) (d : DataConn) : Event :=
  match k with
  | Retr => EvCopyToData f d
  | Stor => EvCopyFromData d f
  | List => EvListWrite f (Cmd c) d
  end.
Definition streamAnswer (k : transfer) (env : Env) (c : Command) (f : File) (d : DataConn)
    : option oserror :=
  match k with
  | Retr => env_CopyToData env f d
  | Stor => env_CopyFromData env d f
  | List => env_ListWrite env f (Cmd c) d
  end.

(** The reply that ends the command after the helper returned [err]. *)
Definition finalReply (k : transfer) (err : option error) : nat * string :=
  if is_errNoDataConn err then (425%nat, "Use PORT or PASV first.")
  else if isPermission err then (550%nat, "Insufficient permissions.")
  else match k with
       | Retr =>
           if isNotExist err then (550%nat, "No such file.")
           else match err with
                | Some _ => (550%nat, "Error retrieving file.")
                | None => (226%nat, "Transfer complete.")
                end
       | Stor =>
           match err with
           | Some _ => (550%nat, "Error storing file.")
           | None => (226%nat, "Transfer complete.")
           end
       | List =>
           if isNotExist err then (550%nat, "No such directory.")
           else match err with
                | Some _ => (550%nat, "Error listing directory.")
                | None => (226%nat, "Directory send OK.")
                end
       end.

Definition replyEvent (r : nat * string) : Event := EvReply (fst r) (snd r).
Definition replyAnswer (env : Env) (r : nat * string) : option error :=
  liftErr (env_Reply env (fst r) (snd r)).

(** *** File-system errors, to state how they are reported *)

Definition errPart {A : Type} (r : oserror + A) : option oserror :=
  match r with inl e => Some e | inr _ => None end.

(** The answer of the file-system call on which the reply to a command
    depends, when the command gets as far as making the call: [Stat] for
    CWD, CDUP, SIZE and MDTM, [Mkdir] for MKD, [Remove] for DELE and RMD,
    [Rename] for RNTO, [Open] for RETR, LIST and NLST, [Create] for STOR. *)
Definition fsAnswer (env : Env) (s : fileSession) (c : Command) : option (option oserror) :=
  let resolve := env_Path env (Dir (session s)) in
  let verb := Cmd c in
  if verb =? "CWD" then
    if Msg c =? "" then None else Some (errPart (env_Stat env (resolve (Msg c))))
  else if verb =? "CDUP" then Some (errPart (env_Stat env (resolve "..")))
  else if verb =? "MKD" then Some (env_Mkdir env (resolve (Msg c)))
  else if (verb =? "SIZE") || (verb =? "MDTM") then
    Some (errPart (env_Stat env (resolve (Msg c))))
  else if (verb =? "DELE") || (verb =? "RMD") then
    if Msg c =? "" then None else Some (env_Remove env (resolve (Msg c)))
  else if verb =? "RNTO" then
    if (Msg c =? "") || (renaming s =? "") then None
    else Some (env_Rename env (renaming s) (resolve (Msg c)))
  else match kindOf verb, Data (session s) with
       | Some k, Some _ => Some (errPart (opened k env (transferPath k env s c)))
       | _, _ => None
       end.

(** The wording for a path that does not exist. *)
Definition notFoundText (verb : string) : string :=
  if (verb =? "CWD") || (verb =? "CDUP") || (verb =? "LIST") || (verb =? "NLST")
  then "No such directory."
  else if verb =? "MDTM" then "No such file or directory."
  else "No such file.".

(** *** Fields and flags, to state what stripListFlags removes *)

(** A field that LIST takes for a flag. *)
Definition isFlag (w : string) : bool := HasPrefix w "-".

Fixpoint hasSpace (s : string) : bool :=
  match s with
  | EmptyString => false
  | String c r => (c =? " ")%char || hasSpace r
  end.

(** *** Login *)

(** The calls an unauthenticated session may make: replies and questions to
    the Authorizer. *)
Definition loginTraffic (ev : Event) : Prop :=
  match ev with
  | EvReply _ _ | EvAuthorize _ _ => True
  | _ => False
  end.

(** What handling the command [c] keeps of the session's settings: once
    logged in, the login; the working directory unless [c] is CWD or CDUP;
    the protection of the data channel unless [c] is PROT. *)
Record kept (c : Command) (s s' : fileSession) : Prop := mkKept {
  kept_login : authed s = true ->
               authed s' = true
               /\ User (session s') = User (session s)
               /\ Password (session s') = Password (session s);
  kept_dir : Cmd c <> "CWD" -> Cmd c <> "CDUP" -> Dir (session s') = Dir (session s);
  kept_tls : Cmd c <> "PROT" -> TLS (session s') = TLS (session s)
}.

(** The protection of the data channel is off or the server's. *)
Definition tlsFromServer (s : fileSession) : Prop :=
  TLS (session s) = None \/ TLS (session s) = ServerTLS (session s).

(** A handler without an Authorizer, and a server with TLS. *)
Definition openSession : fileSession :=
  newFileSession (mkHandler false) (newSession None "tcp4").
Definition tlsSession : fileSession :=
  set_authed true (newFileSession (mkHandler true) (newSession (Some 7%nat) "tcp4")).

(** *** Arguments refused before anything is done *)

(** The reply to a command whose argument the handler refuses at once, in an
    authenticated session: an empty path for CWD, DELE, RMD, RNFR and RNTO,
    a network family other than 1, 2 or none for EPSV, an address that does
    not parse for PORT and EPRT (outside passive-only mode), a buffer size
    other than 0 for PBSZ on a server with TLS, an option other than UTF8 ON
    for OPTS. *)
Definition refusal (env : Env) (s : fileSession) (c : Command) : option (nat * string) :=
  let verb := Cmd c in
  let arg := Msg c in
  if verb =? "CWD" then
    if arg =? "" then Some (550%nat, "Failed to change directory.") else None
  else if (verb =? "DELE") || (verb =? "RMD") || (verb =? "RNFR") || (verb =? "RNTO") then
    if arg =? "" then Some (501%nat, "A file name is required.") else None
  else if verb =? "EPSV" then
    if (ToUpper arg =? "ALL") || (arg =? "1") || (arg =? "2") || (arg =? "") then None
    else Some (522%nat, "Unsupported protocol.")
  else if verb =? "PORT" then
    match epsvOnly s, env_ParsePORT env arg with
    | false, inl _ => Some (501%nat, "Invalid syntax.")
    | _, _ => None
    end
  else if verb =? "EPRT" then
    match epsvOnly s, env_ParseEPRT env arg with
    | false, inl _ => Some (501%nat, "Invalid syntax.")
    | _, _ => None
    end
  else if verb =? "PBSZ" then
    match ServerTLS (session s) with
    | Some _ => if arg =? "0" then None
                else Some (534%nat, "Unacceptable buffer size. PBSZ=0")
    | None => None
    end
  else if verb =? "OPTS" then
    if ToUpper arg =? "UTF8 ON" then None else Some (501%nat, "Option not understood.")
  else None.

(** The reply that ends RNTO after [Rename] answered. *)
Definition renameReply (r : option oserror) : nat * string :=
  match r with
  | None => (250%nat, "Successfully renamed file.")
  | Some e => (550%nat, match eclass e with
                        | Permission => "Insufficient permissions."
                        | NotExist => "No such file."
                        | Other => "Could not rename file."
                        end)
  end.

(** Whether a list of strings is in increasing byte order. *)
Fixpoint isSorted (l : list string) : bool :=
  match l with
  | x :: ((y :: _) as r) => (x <=? y) && isSorted r
  | _ => true
  end.

(** An environment whose address parsers refuse everything. *)
Definition strictEnv : Env :=
  mkEnv (fun _ _ => None) (fun dir p => "/" ++ p)
        (fun _ => None) (fun _ => None)
        (fun _ => inr sampleData) (fun _ => inr sampleData)
        None
        (fun _ => inl broken) (fun _ => inl broken)
        (map Name)
        (fun _ _ => (true, None))
        (fun _ => inr sampleFile) (fun _ => None) (fun _ => None) (fun _ _ => None)
        (fun _ => inr 3%nat) (fun _ => inr 3%nat)
        (fun _ _ => None) (fun _ => inr [sampleFile]) (fun _ => None)
        (fun _ _ => None) (fun _ _ => None) (fun _ _ _ => None).

(** *** How handling a command can end *)

(** The command was answered: the last call is a reply, and the handler
    returns what writing it returned. *)
Definition answered (env : Env) (r : option error * fileSession * list Event) : Prop :=
  exists tr code msg,
    trace_of r = (tr ++ [EvReply code msg])%list
    /\ result_of r = liftErr (env_Reply env code msg).

(** The Authorizer was asked and failed, and the handler returns its error. *)
Definition authorizerFailed (env : Env) (r : option error * fileSession * list Event) : Prop :=
  exists user pass e,
    In (EvAuthorize user pass) (trace_of r)
    /\ snd (env_Authorize env user pass) = Some e
    /\ result_of r = Some (Ext e).

Definition settles (env : Env) (m : M (option error)) : Prop :=
  forall s, answered env (m s) \/ authorizerFailed env (m s).

(** *** The verbs HELP lists *)

(** The lines of a text. *)
Fixpoint linesOf (s : string) : list string :=
  match s with
  | EmptyString => [EmptyString]
  | String c r =>
      if (c =? "010")%char then EmptyString :: linesOf r
      else match linesOf r with
           | l :: ls => String c l :: ls
           | [] => [String c EmptyString]
           end
  end.

(** The words on the lines of [helpText] between its first and its last
    line. *)
Definition helpVerbs : list string :=
  flat_map (fun l => filter (fun w => negb (w =? "")) (SplitSpace l))
           (firstn 3 (skipn 1 (linesOf helpText))).

(** A computation that never writes a 502 reply. *)
Definition never502 {A : Type} (m : M A) : Prop :=
  forall s msg, ~ In (EvReply 502 msg) (trace_of (m s)).

(** * Properties *)

Lemma eqb_false_of_neq (a b : string) : a <> b -> (a =? b) = false.
Proof. intro H. now apply String.eqb_neq. Qed.

Tactic Notation "unfold_monad" :=
  unfold Reply, Path, SetType, SetMode, Passive, Active, negotiated, CloseData,
    Authorize, Stat, Mkdir, Remove, Rename, Open, Create, Seek, Readdir, Close,
    CopyToData, CopyFromData, ListWrite, println, bind, ret, get, modify, emit.
Tactic Notation "unfold_monad" "in" hyp(H) :=
  unfold Reply, Path, SetType, SetMode, Passive, Active, negotiated, CloseData,
    Authorize, Stat, Mkdir, Remove, Rename, Open, Create, Seek, Readdir, Close,
    CopyToData, CopyFromData, ListWrite, println, bind, ret, get, modify, emit in H.

(** Closes a goal saying that some event is not in a computed trace. *)
Ltac absent := simpl; intuition discriminate.

(** ** The authentication gate *)

Lemma handle_preauth env c s :
  authed s = false -> handle env c s = handlePreAuth env c s.
Proof. intros H. unfold handle, bind, get. rewrite H. simpl.
  destruct (handlePreAuth env c s) as [[a s'] t]. reflexivity. Qed.

Lemma handle_postauth env c s :
  authed s = true -> handle env c s = handlePostAuth env c s.
Proof. intros H. unfold handle, bind, get. rewrite H. simpl.
  destruct (handlePostAuth env c s) as [[a s'] t]. reflexivity. Qed.

(** C1, as amended: before authentication has succeeded, a command whose verb
    is not USER, PASS, FEAT or QUIT (HELP and NOOP included) gets exactly the
    530 reply and changes nothing, while USER, PASS, FEAT and QUIT are
    handled without any 530 reply. *)
Theorem C1_preauth_gate env c s :
  authed s = false ->
  (Cmd c <> "USER" -> Cmd c <> "PASS" -> Cmd c <> "FEAT" -> Cmd c <> "QUIT" ->
   handle env c s =
     (liftErr (env_Reply env 530 "Log in with USER and PASS."), s, [notLoggedIn]))
  /\
  (Cmd c = "USER" \/ Cmd c = "PASS" \/ Cmd c = "FEAT" \/ Cmd c = "QUIT" ->
   forall msg, ~ In (EvReply 530 msg) (trace_of (handle env c s))).
Proof.
  intros Hauth. rewrite (handle_preauth _ _ _ Hauth). split.
  - intros HU HP HF HQ. unfold handlePreAuth, bind, get.
    rewrite !eqb_false_of_neq by assumption. cbn iota beta. rewrite Hauth. reflexivity.
  - destruct c as [cmd arg]. simpl. intros Hverb msg.
    unfold handlePreAuth; unfold_monad; simpl.
    destruct Hverb as [-> | [-> | [-> | ->]]]; simpl; rewrite ?Hauth.
    + destruct (arg =? ""); absent.
    + destruct (User (session s) =? ""); [absent|].
      destruct (hasAuthorizer (handler s)); [|absent].
      simpl. destruct (env_Authorize env (User (session s)) arg) as [[|] [e|]]; absent.
    + absent.
    + absent.
Qed.

Lemma C1_preauth_gate_witness :
  authed freshSession = false /\
  handle okEnv (mkCommand "SYST" "") freshSession = (None, freshSession, [notLoggedIn]) /\
  (forall msg, ~ In (EvReply 530 msg)
                 (trace_of (handle okEnv (mkCommand "USER" "alice") freshSession))).
Proof.
  split; [reflexivity|].
  destruct (C1_preauth_gate okEnv (mkCommand "SYST" "") freshSession eq_refl) as [H _].
  destruct (C1_preauth_gate okEnv (mkCommand "USER" "alice") freshSession eq_refl) as [_ H'].
  split.
  - apply H; simpl; discriminate.
  - apply H'. left. reflexivity.
Defined.

(** C1 as stated fails on HELP and NOOP: before login both get the 530
    reply, although the claim lists them among the verbs handled without
    it. *)
Lemma C1_counterexample :
  authed freshSession = false /\
  handle okEnv (mkCommand "HELP" "") freshSession = (None, freshSession, [notLoggedIn]) /\
  handle okEnv (mkCommand "NOOP" "") freshSession = (None, freshSession, [notLoggedIn]).
Proof. repeat split. Qed.

(** ** The loop body *)

Lemma iteration_read_error env err s :
  iteration (mkTurn (inl err) env) s = (Some (Ext err), s, []).
Proof. reflexivity. Qed.

Lemma iteration_failed env c s e s1 tr :
  handle env c s = (Some e, s1, tr) ->
  iteration (mkTurn (inr c) env) s = (Some e, s1, tr).
Proof.
  intros H. unfold iteration, bind; cbn [t_read t_env]. rewrite H.
  simpl. rewrite app_nil_r. reflexivity.
Qed.

Lemma iteration_handled env c s s1 tr :
  handle env c s = (None, s1, tr) ->
  iteration (mkTurn (inr c) env) s =
    if Cmd c =? "QUIT" then (Some io_EOF, s1, tr) else (None, cleared c s1, tr).
Proof.
  intros H. unfold iteration, bind, cleared; cbn [t_read t_env]. rewrite H.
  destruct (Cmd c =? "QUIT"); simpl; [rewrite app_nil_r; reflexivity|].
  destruct (Cmd c =? "RNFR"), (Cmd c =? "REST"); simpl; rewrite app_nil_r; reflexivity.
Qed.

Lemma Handle_returns t rest s e s1 tr :
  iteration t s = (Some e, s1, tr) -> Handle (t :: rest) s = (Some e, s1, tr).
Proof.
  intros H. simpl. unfold bind. rewrite H. simpl. rewrite app_nil_r. reflexivity.
Qed.

Lemma Handle_continues t rest s s1 tr :
  iteration t s = (None, s1, tr) ->
  Handle (t :: rest) s =
    let '(r, s2, tr2) := Handle rest s1 in (r, s2, (tr ++ tr2)%list).
Proof. intros H. simpl. unfold bind. rewrite H. reflexivity. Qed.

(** ** PASS with an Authorizer *)

Lemma noUserAccepted_app tr1 tr2 :
  noUserAccepted (tr1 ++ tr2) -> noUserAccepted tr1 /\ noUserAccepted tr2.
Proof.
  unfold noUserAccepted. intros H. split; intros msg Hin; apply (H msg);
    apply in_or_app; [left | right]; assumption.
Qed.

(** While no USER is accepted, the session stays unauthenticated with no
    pending user name. *)
Lemma iteration_noUser t s r s' tr :
  authed s = false -> User (session s) = "" ->
  iteration t s = (r, s', tr) -> noUserAccepted tr ->
  authed s' = false /\ User (session s') = "".
Proof.
  intros Ha Hu Hit Hno. unfold iteration in Hit.
  destruct (t_read t) as [err | c].
  - inversion Hit; subst. auto.
  - unfold bind in Hit. rewrite (handle_preauth _ _ _ Ha) in Hit.
    unfold handlePreAuth in Hit; unfold_monad in Hit; simpl in Hit.
    rewrite Ha, Hu in Hit. simpl in Hit.
    destruct (Cmd c =? "USER").
    { destruct (Msg c =? "").
      - simpl in Hit. destruct (env_Reply (t_env t) 504 _); simpl in Hit;
          [inversion Hit; subst; auto|].
        destruct (Cmd c =? "QUIT"), (Cmd c =? "RNFR"), (Cmd c =? "REST");
          inversion Hit; subst; auto.
      - exfalso. simpl in Hit.
        apply (Hno "Please specify the password.").
        destruct (env_Reply (t_env t) 331 _); simpl in Hit.
        + inversion Hit; subst. left. reflexivity.
        + destruct (Cmd c =? "QUIT"), (Cmd c =? "RNFR"), (Cmd c =? "REST");
            inversion Hit; subst; left; reflexivity. }
    destruct (Cmd c =? "PASS").
    { simpl in Hit. destruct (env_Reply (t_env t) 503 _); simpl in Hit;
        [inversion Hit; subst; auto|].
      destruct (Cmd c =? "QUIT"), (Cmd c =? "RNFR"), (Cmd c =? "REST");
        inversion Hit; subst; auto. }
    destruct (Cmd c =? "FEAT").
    { simpl in Hit. destruct (env_Reply (t_env t) 211 _); simpl in Hit;
        [inversion Hit; subst; auto|].
      destruct (Cmd c =? "QUIT"), (Cmd c =? "RNFR"), (Cmd c =? "REST");
        inversion Hit; subst; auto. }
    destruct (Cmd c =? "QUIT").
    { simpl in Hit. destruct (env_Reply (t_env t) 211 _); simpl in Hit;
        inversion Hit; subst; auto. }
    simpl in Hit. destruct (env_Reply (t_env t) 530 _); simpl in Hit;
      [inversion Hit; subst; auto|].
    destruct (Cmd c =? "RNFR"), (Cmd c =? "REST"); inversion Hit; subst; auto.
Qed.

Lemma Handle_noUser turns : forall s r s' tr,
  authed s = false -> User (session s) = "" ->
  Handle turns s = (r, s', tr) -> noUserAccepted tr ->
  authed s' = false /\ User (session s') = "".
Proof.
  induction turns as [|t rest IH]; intros s r s' tr Ha Hu Hrun Hno.
  - inversion Hrun; subst. auto.
  - simpl in Hrun. unfold bind in Hrun.
    destruct (iteration t s) as [[r1 s1] t1] eqn:Hit.
    destruct r1 as [e|].
    + simpl in Hrun. inversion Hrun; subst.
      apply noUserAccepted_app in Hno as [Hno _].
      eapply iteration_noUser; eauto.
    + destruct (Handle rest s1) as [[r2 s2] t2] eqn:Hrest.
      inversion Hrun; subst.
      apply noUserAccepted_app in Hno as [Hno1 Hno2].
      destruct (iteration_noUser _ _ _ _ _ Ha Hu Hit Hno1) as [Ha1 Hu1].
      eapply IH; eauto.
Qed.

(** C2: in an unauthenticated session with an Authorizer configured, for the
    command PASS pass: (1) if no USER was accepted since the session began,
    the reply is 503 and nothing else happens; with a pending user name,
    (2) a negative answer of the Authorizer clears the user name and replies
    430, and the loop goes on once the reply is written; (3) a hard error of
    the Authorizer clears the user name, writes no reply and makes [Handle]
    return that error; (4) a positive answer sets [authed], records the
    password and replies 230. *)
Theorem C2_pass_with_authorizer env pass s :
  authed s = false ->
  hasAuthorizer (handler s) = true ->
  let c := mkCommand "PASS" pass in
  let user := User (session s) in
  (forall turns tls nw tr,
     Handle turns (newFileSession (handler s) (newSession tls nw)) = (None, s, tr) ->
     noUserAccepted tr ->
     handle env c s =
       (liftErr (env_Reply env 503 "Log in with USER first."), s, [mustUserFirst]))
  /\
  (user <> "" ->
   (env_Authorize env user pass = (false, None) ->
      handle env c s =
        (liftErr (env_Reply env 430 "Invalid user name or password."),
         set_User "" s, [EvAuthorize user pass; invalidLogin])
      /\ (env_Reply env 430 "Invalid user name or password." = None ->
          iteration (mkTurn (inr c) env) s =
            (None, set_restart 0 (set_renaming "" (set_User "" s)),
             [EvAuthorize user pass; invalidLogin])))
   /\
   (forall ok e, env_Authorize env user pass = (ok, Some e) ->
      handle env c s = (Some (Ext e), set_User "" s, [EvAuthorize user pass])
      /\ forall rest,
          Handle (mkTurn (inr c) env :: rest) s =
            (Some (Ext e), set_User "" s, [EvAuthorize user pass]))
   /\
   (env_Authorize env user pass = (true, None) ->
      handle env c s =
        (liftErr (env_Reply env 230 "Login successful."),
         set_authed true (set_Password pass s), [EvAuthorize user pass; loginOk])
      /\ authed (state_of (handle env c s)) = true
      /\ Password (session (state_of (handle env c s))) = pass)).
Proof.
  intros Ha Hh c user. split.
  - intros turns tls nw tr Hrun Hno.
    assert (Hu : User (session s) = "").
    { eapply (Handle_noUser turns (newFileSession (handler s) (newSession tls nw)));
        [reflexivity | reflexivity | exact Hrun | exact Hno]. }
    rewrite (handle_preauth _ _ _ Ha).
    unfold handlePreAuth; unfold_monad; simpl. rewrite Ha, Hu. reflexivity.
  - intros Hu. apply eqb_false_of_neq in Hu.
    assert (Hneg : env_Authorize env user pass = (false, None) ->
        handle env c s =
          (liftErr (env_Reply env 430 "Invalid user name or password."),
           set_User "" s, [EvAuthorize user pass; invalidLogin])).
    { intros Hans. rewrite (handle_preauth _ _ _ Ha).
      unfold handlePreAuth; unfold_monad; simpl. fold user.
      rewrite Ha, Hu, Hh. simpl. rewrite Hans. reflexivity. }
    assert (Herr : forall ok e, env_Authorize env user pass = (ok, Some e) ->
        handle env c s = (Some (Ext e), set_User "" s, [EvAuthorize user pass])).
    { intros ok e Hans. rewrite (handle_preauth _ _ _ Ha).
      unfold handlePreAuth; unfold_monad; simpl. fold user.
      rewrite Ha, Hu, Hh. simpl. rewrite Hans. reflexivity. }
    assert (Hpos : env_Authorize env user pass = (true, None) ->
        handle env c s =
          (liftErr (env_Reply env 230 "Login successful."),
           set_authed true (set_Password pass s), [EvAuthorize user pass; loginOk])).
    { intros Hans. rewrite (handle_preauth _ _ _ Ha).
      unfold handlePreAuth; unfold_monad; simpl. fold user.
      rewrite Ha, Hu, Hh. simpl. rewrite Hans. reflexivity. }
    split; [|split].
    + intros Hans. split; [auto|]. intros Hw.
      specialize (Hneg Hans). rewrite Hw in Hneg.
      rewrite (iteration_handled _ _ _ _ _ Hneg). reflexivity.
    + intros ok e Hans. split; [eauto|]. intros rest.
      apply Handle_returns, iteration_failed. eauto.
    + intros Hans. rewrite (Hpos Hans). auto.
Qed.

Lemma C2_pass_with_authorizer_witness :
  authed aliceSession = false /\
  hasAuthorizer (handler aliceSession) = true /\
  handle okEnv (mkCommand "PASS" "wrong") freshSession =
    (None, freshSession, [mustUserFirst]) /\
  handle rejectEnv (mkCommand "PASS" "wrong") aliceSession =
    (None, freshSession, [EvAuthorize "alice" "wrong"; invalidLogin]) /\
  Handle [mkTurn (inr (mkCommand "PASS" "wrong")) authFailEnv;
          mkTurn (inr (mkCommand "NOOP" "")) okEnv] aliceSession =
    (Some (Ext broken), freshSession, [EvAuthorize "alice" "wrong"]) /\
  handle okEnv (mkCommand "PASS" "secret") aliceSession =
    (None, authedSession, [EvAuthorize "alice" "secret"; loginOk]).
Proof.
  split; [reflexivity|]. split; [reflexivity|].
  destruct (C2_pass_with_authorizer okEnv "wrong" freshSession eq_refl eq_refl)
    as [Hfirst _].
  destruct (C2_pass_with_authorizer rejectEnv "wrong" aliceSession eq_refl eq_refl)
    as [_ Hrej].
  destruct (C2_pass_with_authorizer authFailEnv "wrong" aliceSession eq_refl eq_refl)
    as [_ Hfail].
  destruct (C2_pass_with_authorizer okEnv "secret" aliceSession eq_refl eq_refl)
    as [_ Hok].
  split; [|split; [|split]].
  - apply (Hfirst [] None "tcp4" []); [reflexivity|]. intros msg [].
  - destruct (Hrej ltac:(discriminate)) as (H & _ & _).
    exact (proj1 (H eq_refl)).
  - destruct (Hfail ltac:(discriminate)) as (_ & H & _).
    exact (proj2 (H false broken eq_refl) _).
  - destruct (Hok ltac:(discriminate)) as (_ & _ & H).
    exact (proj1 (H eq_refl)).
Defined.

(** The scenario of the specification: USER alice, a rejected PASS, and a
    second PASS, which must be preceded by USER again. *)
Example reject_then_pass :
  Handle [mkTurn (inr (mkCommand "USER" "alice")) rejectEnv;
          mkTurn (inr (mkCommand "PASS" "wrong")) rejectEnv;
          mkTurn (inr (mkCommand "PASS" "wrong")) rejectEnv] freshSession =
    (None, freshSession,
     [EvReply 331 "Please specify the password.";
      EvAuthorize "alice" "wrong"; invalidLogin; mustUserFirst]).
Proof. reflexivity. Qed.

(** ** What a command can change *)

Lemma stable_refl s : stable s s.
Proof. constructor; auto. Qed.

Lemma stable_trans s1 s2 s3 : stable s1 s2 -> stable s2 s3 -> stable s1 s3.
Proof.
  intros [] []. constructor; try congruence; auto.
Qed.

Lemma frame_refl c s : frame c s s.
Proof. constructor; auto using stable_refl. Qed.

Lemma frame_trans c s1 s2 s3 : frame c s1 s2 -> frame c s2 s3 -> frame c s1 s3.
Proof.
  intros [H1 H2 H3] [H4 H5 H6]. constructor.
  - eapply stable_trans; eauto.
  - intros H. rewrite H5, H2; auto.
  - intros H. rewrite H6, H3; auto.
Qed.

Section Frames.

Variable R : fileSession -> fileSession -> Prop.
Hypothesis R_refl : forall s, R s s.
Hypothesis R_trans : forall s1 s2 s3, R s1 s2 -> R s2 s3 -> R s1 s3.

Lemma frames_ret {A} (a : A) : frames R (ret a).
Proof. intros s. apply R_refl. Qed.

Lemma frames_get : frames R get.
Proof. intros s. apply R_refl. Qed.

Lemma frames_emit ev : frames R (emit ev).
Proof. intros s. apply R_refl. Qed.

Lemma frames_modify f : (forall s, R s (f s)) -> frames R (modify f).
Proof. intros H s. apply H. Qed.

Lemma frames_bind {A B} (m : M A) (k : A -> M B) :
  frames R m -> (forall a, frames R (k a)) -> frames R (bind m k).
Proof.
  intros Hm Hk s. unfold bind, state_of.
  specialize (Hm s). unfold state_of in Hm.
  destruct (m s) as [[a s1] t1]. specialize (Hk a s1). unfold state_of in Hk.
  destruct (k a s1) as [[b s2] t2]. simpl in *. eauto.
Qed.

End Frames.

(** ** strconv.ParseInt reads decimal numerals *)

Lemma digitVal_range c d : digitVal c = Some d -> (0 <= d <= 9)%Z.
Proof.
  unfold digitVal. destruct (_ && _)%bool eqn:E; [|discriminate].
  intros H. inversion H; subst. clear H.
  apply andb_true_iff in E as [E1 E2].
  apply Nat.leb_le in E1, E2. lia.
Qed.

Lemma decimalValue_ge s : forall acc, (0 <= acc)%Z -> (acc <= decimalValue s acc)%Z.
Proof.
  induction s as [|c r IH]; intros acc Hacc; simpl; [lia|].
  destruct (digitVal c) as [d|] eqn:E.
  - apply digitVal_range in E.
    specialize (IH (acc * 10 + d)%Z ltac:(lia)). lia.
  - specialize (IH (acc * 10 + 0)%Z ltac:(lia)). lia.
Qed.

Lemma maxUint64_value : maxUint64 = 18446744073709551615%Z.
Proof. reflexivity. Qed.

Lemma pow64_value : (2 ^ 64 = 18446744073709551616)%Z.
Proof. reflexivity. Qed.

Lemma pow63_value : (2 ^ 63 = 9223372036854775808)%Z.
Proof. reflexivity. Qed.

(** One step of the loop, in plain arithmetic: it goes on exactly when
    [n * 10 + d] fits in 64 bits. *)
Lemma parseUintLoop_step c r n d :
  digitVal c = Some d -> (0 <= n <= maxUint64)%Z ->
  parseUintLoop (String c r) n =
    if (n * 10 + d <=? maxUint64)%Z then parseUintLoop r (n * 10 + d)
    else (maxUint64, Some ErrRange).
Proof.
  intros Hd Hn. pose proof (digitVal_range _ _ Hd) as Hr.
  cbn [parseUintLoop]. rewrite Hd. rewrite maxUint64_value in *. rewrite pow64_value.
  change (18446744073709551615 / 10 + 1)%Z with 1844674407370955162%Z. cbv zeta.
  destruct (n >=? 1844674407370955162)%Z eqn:E1.
  - apply Z.geb_le in E1.
    destruct (n * 10 + d <=? 18446744073709551615)%Z eqn:E2; [|reflexivity].
    apply Z.leb_le in E2. lia.
  - rewrite Z.geb_leb in E1. apply Z.leb_gt in E1.
    destruct (n * 10 + d <=? 18446744073709551615)%Z eqn:E2.
    + apply Z.leb_le in E2. rewrite Z.mod_small by lia.
      replace (n * 10 + d <? n * 10)%Z with false by (symmetry; apply Z.ltb_ge; lia).
      replace (n * 10 + d >? 18446744073709551615)%Z with false; [reflexivity|].
      symmetry. rewrite Z.gtb_ltb. apply Z.ltb_ge. lia.
    + apply Z.leb_gt in E2.
      assert (Hm : ((n * 10 + d) mod 18446744073709551616
                    = n * 10 + d - 18446744073709551616)%Z).
      { symmetry. apply Z.mod_unique with (q := 1%Z); lia. }
      rewrite Hm.
      replace (n * 10 + d - 18446744073709551616 <? n * 10)%Z with true
        by (symmetry; apply Z.ltb_lt; lia).
      reflexivity.
Qed.

Lemma parseUintLoop_sound s : forall n v,
  (0 <= n <= maxUint64)%Z -> parseUintLoop s n = (v, None) ->
  allDigits s = true /\ v = decimalValue s n /\ (0 <= v <= maxUint64)%Z.
Proof.
  pose proof maxUint64_value as HM.
  induction s as [|c r IH]; intros n v Hn H.
  - simpl in H. inversion H; subst. simpl. auto.
  - destruct (digitVal c) as [d|] eqn:Hd.
    + rewrite (parseUintLoop_step _ _ _ _ Hd Hn) in H.
      destruct (n * 10 + d <=? maxUint64)%Z eqn:E; [|discriminate].
      apply Z.leb_le in E. pose proof (digitVal_range _ _ Hd).
      destruct (IH (n * 10 + d)%Z v ltac:(lia) H) as (Ha & Hv & Hb).
      simpl. unfold isDigit. rewrite Hd. simpl. auto.
    + simpl in H. rewrite Hd in H. discriminate.
Qed.

Lemma parseUintLoop_complete s : forall n,
  (0 <= n)%Z -> allDigits s = true -> (decimalValue s n <= maxUint64)%Z ->
  parseUintLoop s n = (decimalValue s n, None).
Proof.
  pose proof maxUint64_value as HM.
  induction s as [|c r IH]; intros n Hn Ha Hv; [reflexivity|].
  simpl in Ha. apply andb_true_iff in Ha as [Hc Ha].
  unfold isDigit in Hc. destruct (digitVal c) as [d|] eqn:Hd; [|discriminate].
  pose proof (digitVal_range _ _ Hd) as Hr.
  simpl in Hv. rewrite Hd in Hv.
  pose proof (decimalValue_ge r (n * 10 + d)%Z ltac:(lia)).
  rewrite (parseUintLoop_step _ _ _ _ Hd) by lia.
  replace (n * 10 + d <=? maxUint64)%Z with true by (symmetry; apply Z.leb_le; lia).
  simpl. rewrite Hd. apply IH; auto; lia.
Qed.

Lemma parseUintLoop_range s : forall n v,
  parseUintLoop s n = (v, Some ErrRange) -> v = maxUint64.
Proof.
  induction s as [|c r IH]; intros n v H; cbn [parseUintLoop] in H; [discriminate|].
  destruct (digitVal c); [|discriminate].
  destruct (n >=? _)%Z; [inversion H; reflexivity|]. cbv zeta in H.
  destruct (_ || _)%bool; [inversion H; reflexivity|]. eauto.
Qed.

Lemma ParseUint_loop s : s <> "" -> ParseUint s = parseUintLoop s 0.
Proof. destruct s; [congruence | reflexivity]. Qed.

(** [ParseInt] succeeds with a non-negative value exactly on the numerals
    that denote a number from 0 to 2^63 - 1. *)
Lemma ParseInt_nonneg_iff s n :
  (exists m, ParseInt s = (m, None) /\ (m <? 0)%Z = false /\ n = m)
  <-> (decimalOf s = Some n /\ (0 <= n < 2 ^ 63)%Z).
Proof.
  destruct s as [|c r].
  { simpl. split; [intros (m & H & _); discriminate H | intros [H _]; discriminate H]. }
  unfold ParseInt, decimalOf.
  set (body := if ((c =? "+") || (c =? "-"))%char then r else String c r).
  destruct body as [|c' r'] eqn:Hbody.
  { simpl. split; [intros (m & H & _); discriminate H | intros [H _]; discriminate H]. }
  rewrite <- Hbody. rewrite ParseUint_loop by (rewrite Hbody; discriminate).
  rewrite pow63_value. split.
  - intros (m & H & Hm & ->). apply Z.ltb_ge in Hm.
    destruct (parseUintLoop body 0) as [un [[]|]] eqn:Hun; try discriminate.
    + apply parseUintLoop_range in Hun. subst un.
      destruct (c =? "-")%char; simpl in H; discriminate H.
    + destruct (parseUintLoop_sound body 0%Z un ltac:(rewrite maxUint64_value; lia) Hun)
        as (Ha & Hv & Hb).
      rewrite Ha.
      destruct (c =? "-")%char; simpl in H.
      * destruct (un >? 9223372036854775808)%Z; [discriminate|].
        inversion H; subst m. rewrite <- Hv. split; [reflexivity | lia].
      * destruct (un >=? 9223372036854775808)%Z eqn:E; [discriminate|].
        rewrite Z.geb_leb in E. apply Z.leb_gt in E.
        inversion H; subst m. rewrite <- Hv. split; [reflexivity | lia].
  - intros [H Hn].
    destruct (allDigits body) eqn:Ha; [|discriminate].
    inversion H as [Hv]. clear H.
    pose proof (decimalValue_ge body 0%Z ltac:(lia)) as Hge.
    assert (Hle : (decimalValue body 0 <= maxUint64)%Z).
    { rewrite maxUint64_value. destruct (c =? "-")%char; lia. }
    rewrite (parseUintLoop_complete body 0%Z ltac:(lia) Ha Hle).
    destruct (c =? "-")%char; simpl.
    + replace (decimalValue body 0 >? 9223372036854775808)%Z with false
        by (symmetry; rewrite Z.gtb_ltb; apply Z.ltb_ge; lia).
      exists n. rewrite Hv. repeat split. apply Z.ltb_ge. lia.
    + replace (decimalValue body 0 >=? 9223372036854775808)%Z with false
        by (symmetry; rewrite Z.geb_leb; apply Z.leb_gt; lia).
      exists n. rewrite Hv. repeat split. apply Z.ltb_ge. lia.
Qed.

(** ** Every command respects the frame *)

Lemma stable_with_session f s :
  (forall x, ServerTLS (f x) = ServerTLS x) ->
  (forall x, AddrNetwork (f x) = AddrNetwork x) ->
  stable s (with_session f s).
Proof. intros H1 H2. constructor; simpl; auto. Qed.

Lemma frame_with_session c f s :
  (forall x, ServerTLS (f x) = ServerTLS x) ->
  (forall x, AddrNetwork (f x) = AddrNetwork x) ->
  frame c s (with_session f s).
Proof. intros H1 H2. constructor; simpl; auto using stable_with_session. Qed.

Lemma ParseInt_accepted s n :
  ParseInt s = (n, None) -> (n <? 0)%Z = false -> (0 <= n < 2 ^ 63)%Z.
Proof.
  intros H Hn. apply (ParseInt_nonneg_iff s n). exists n. auto.
Qed.

Create HintDb frames.

(** Turns boolean tests met along a branch into facts. *)
Ltac bool_facts :=
  repeat match goal with
  | H : (_ =? _) = true |- _ => apply String.eqb_eq in H
  | H : (_ || _)%bool = true |- _ => apply orb_true_iff in H
  | H : (_ <? _)%Z = false |- _ => apply Z.ltb_ge in H
  end.

(** Follows the structure of a handler: binds, branches, and the updates of
    the state, whose obligations are left to [tac]. *)
Ltac frame_steps R_refl R_trans tac :=
  repeat (cbv beta; lazymatch goal with
    | |- frames _ (ret _) => apply (frames_ret _ R_refl)
    | |- frames _ get => apply (frames_get _ R_refl)
    | |- frames _ (emit _) => apply (frames_emit _ R_refl)
    | |- frames _ (bind _ _) => apply (frames_bind _ R_trans); [|intro]
    | |- frames _ (modify _) => apply frames_modify; intro; tac
    | |- frames _ (if ?b then _ else _) => destruct b eqn:?
    | |- frames _ (match ?x with _ => _ end) => destruct x eqn:?
    | |- frames _ (let _ := _ in _) => cbv zeta
    | |- frames _ _ => solve [auto with frames]
    end).

Ltac unfold_calls :=
  unfold Reply, Path, SetType, SetMode, Passive, Active, negotiated, CloseData,
    Authorize, Stat, Mkdir, Remove, Rename, Open, Create, Seek, Readdir, Close,
    CopyToData, CopyFromData, ListWrite, println.

Ltac frame_update :=
  try match goal with
      | H : ParseInt _ = (?n, None), H' : (?n <? 0)%Z = false |- _ =>
          pose proof (ParseInt_accepted _ _ H H')
      end;
  bool_facts;
  first
    [ apply frame_with_session; reflexivity
    | constructor; [constructor|..]; simpl; intros; auto; try congruence; try lia ].

Lemma handlePreAuth_frames env c : frames (frame c) (handlePreAuth env c).
Proof.
  unfold handlePreAuth; unfold_calls.
  frame_steps (frame_refl c) (frame_trans c) frame_update.
Qed.

Lemma retrieve_frames env c : frames (frame c) (retrieve env c).
Proof.
  unfold retrieve; unfold_calls.
  frame_steps (frame_refl c) (frame_trans c) frame_update.
Qed.

Lemma store_frames env c : frames (frame c) (store env c).
Proof.
  unfold store; unfold_calls.
  frame_steps (frame_refl c) (frame_trans c) frame_update.
Qed.

Lemma list_frames env c : frames (frame c) (list_ env c).
Proof.
  unfold list_; unfold_calls.
  frame_steps (frame_refl c) (frame_trans c) frame_update.
Qed.

Lemma stat_frames env c p : frames (frame c) (stat env p).
Proof.
  unfold stat; unfold_calls.
  frame_steps (frame_refl c) (frame_trans c) frame_update.
Qed.

Lemma changeDir_frames env c p : frames (frame c) (changeDir env p).
Proof.
  unfold changeDir; unfold_calls.
  frame_steps (frame_refl c) (frame_trans c) frame_update.
Qed.

#[local] Hint Resolve handlePreAuth_frames retrieve_frames store_frames list_frames
  stat_frames changeDir_frames : frames.

Lemma handlePostAuth_frames env c : frames (frame c) (handlePostAuth env c).
Proof.
  unfold handlePostAuth; unfold_calls.
  frame_steps (frame_refl c) (frame_trans c) frame_update.
Qed.

(** Handling any command in any state respects the frame. *)
Lemma handle_frames env c : frames (frame c) (handle env c).
Proof.
  unfold handle.
  frame_steps (frame_refl c) (frame_trans c) frame_update;
    auto using handlePreAuth_frames, handlePostAuth_frames.
Qed.

Lemma iteration_stable t : frames stable (iteration t).
Proof.
  unfold iteration. destruct (t_read t) as [err | c].
  - intros s. apply stable_refl.
  - apply (frames_bind _ stable_trans).
    + intros s. apply (handle_frames (t_env t) c s).
    + intros r.
      frame_steps stable_refl stable_trans
        ltac:(constructor; simpl; intros; auto; lia).
Qed.

Lemma Handle_stable turns : frames stable (Handle turns).
Proof.
  induction turns as [|t rest IH]; simpl.
  - apply (frames_ret _ stable_refl).
  - apply (frames_bind _ stable_trans); [apply iteration_stable|].
    intros [e|]; [apply (frames_ret _ stable_refl) | exact IH].
Qed.

(** ** The rename sub-protocol *)

Lemma iteration_continues_inv env c s s1 tr :
  iteration (mkTurn (inr c) env) s = (None, s1, tr) ->
  exists s', handle env c s = (None, s', tr) /\ s1 = cleared c s' /\ Cmd c <> "QUIT".
Proof.
  intros H. destruct (handle env c s) as [[[e|] s'] tr'] eqn:Hh.
  - rewrite (iteration_failed _ _ _ _ _ _ Hh) in H. discriminate.
  - rewrite (iteration_handled _ _ _ _ _ Hh) in H.
    destruct (Cmd c =? "QUIT") eqn:Hq; [discriminate|].
    inversion H; subst. exists s'. repeat split.
    intros Heq. rewrite Heq in Hq. discriminate.
Qed.

Lemma cleared_renaming c s : Cmd c <> "RNFR" -> renaming (cleared c s) = "".
Proof.
  intros H. unfold cleared. rewrite (eqb_false_of_neq _ _ H).
  destruct (Cmd c =? "REST"); reflexivity.
Qed.

Lemma cleared_authed c s : authed (cleared c s) = authed s.
Proof.
  unfold cleared. destruct (Cmd c =? "RNFR"), (Cmd c =? "REST"); reflexivity.
Qed.

(** RNTO when no rename is pending. *)
Lemma rnto_without_rnfr env dst s :
  authed s = true -> renaming s = "" ->
  handle env (mkCommand "RNTO" dst) s =
    if dst =? ""
    then (liftErr (env_Reply env 501 "A file name is required."), s, [fileNameRequired])
    else (liftErr (env_Reply env 503 "Call RNFR first."), s, [callRnfrFirst]).
Proof.
  intros Ha Hr. rewrite (handle_postauth _ _ _ Ha).
  unfold handlePostAuth; unfold_monad; simpl. rewrite Hr.
  destruct (dst =? ""); reflexivity.
Qed.

(** C3, as amended: (1) in an authenticated session RNFR with a non-empty
    argument records the resolved path as the pending rename source;
    (2) handling a command other than RNFR never assigns it; (3) when the
    loop goes on after a command other than RNFR, the pending source is
    empty; (4) consequently an RNTO that arrives in an authenticated session
    right after a command other than RNFR replies 503 Call RNFR first when
    its argument is non-empty, and 501 A file name is required when it is
    empty, in both cases without calling the file system's Rename. *)
Theorem C3_rename_pending env c s :
  (authed s = true -> Cmd c = "RNFR" -> Msg c <> "" ->
   handle env c s =
     (liftErr (env_Reply env 350 "Call RNTO to specify destination."),
      set_renaming (env_Path env (Dir (session s)) (Msg c)) s,
      [EvReply 350 "Call RNTO to specify destination."]))
  /\
  (Cmd c <> "RNFR" -> renaming (state_of (handle env c s)) = renaming s)
  /\
  (Cmd c <> "RNFR" ->
   forall s1 tr, iteration (mkTurn (inr c) env) s = (None, s1, tr) ->
     renaming s1 = ""
     /\ (authed s1 = true ->
         forall env' dst,
           let r := handle env' (mkCommand "RNTO" dst) s1 in
           (dst <> "" ->
            r = (liftErr (env_Reply env' 503 "Call RNFR first."), s1, [callRnfrFirst]))
           /\ (dst = "" ->
               r = (liftErr (env_Reply env' 501 "A file name is required."), s1,
                    [fileNameRequired]))
           /\ forall old new, ~ In (EvRename old new) (trace_of r))).
Proof.
  split; [|split].
  - intros Ha Hc Hm. rewrite (handle_postauth _ _ _ Ha).
    destruct c as [cmd msg]. simpl in *. subst cmd.
    unfold handlePostAuth; unfold_monad; simpl.
    rewrite (eqb_false_of_neq _ _ Hm). reflexivity.
  - intros Hc. apply (fr_renaming _ _ _ (handle_frames env c s) Hc).
  - intros Hc s1 tr Hit.
    destruct (iteration_continues_inv _ _ _ _ _ Hit) as (s' & Hh & -> & Hq).
    pose proof (cleared_renaming c s' Hc) as Hr.
    split; [exact Hr|]. intros Ha env' dst r. subst r.
    rewrite (rnto_without_rnfr env' dst _ Ha Hr).
    split; [|split].
    + intros Hd. rewrite (eqb_false_of_neq _ _ Hd). reflexivity.
    + intros ->. reflexivity.
    + intros old new. destruct (dst =? ""); absent.
Qed.

Lemma C3_rename_pending_witness :
  handle okEnv (mkCommand "RNFR" "a.txt") authedSession =
    (None, set_renaming "/a.txt" authedSession,
     [EvReply 350 "Call RNTO to specify destination."])
  /\ iteration (mkTurn (inr (mkCommand "NOOP" "")) okEnv)
       (set_renaming "/a.txt" authedSession) = (None, authedSession, [EvReply 200 "OK."])
  /\ handle okEnv (mkCommand "RNTO" "b.txt") authedSession =
       (None, authedSession, [callRnfrFirst]).
Proof.
  split; [|split].
  - apply (C3_rename_pending okEnv (mkCommand "RNFR" "a.txt") authedSession);
      [reflexivity | reflexivity | discriminate].
  - reflexivity.
  - destruct (C3_rename_pending okEnv (mkCommand "NOOP" "")
                (set_renaming "/a.txt" authedSession)) as (_ & _ & H).
    destruct (H ltac:(discriminate) authedSession [EvReply 200 "OK."] eq_refl)
      as [_ H'].
    apply (H' eq_refl okEnv "b.txt"). discriminate.
Defined.

(** C3 as stated fails on an RNTO with an empty argument: right after NOOP
    in an authenticated session it replies 501, not 503. *)
Lemma C3_counterexample :
  authed authedSession = true /\
  iteration (mkTurn (inr (mkCommand "NOOP" "")) okEnv) authedSession =
    (None, authedSession, [EvReply 200 "OK."]) /\
  handle okEnv (mkCommand "RNTO" "") authedSession =
    (None, authedSession, [EvReply 501 "A file name is required."]).
Proof. repeat split. Qed.

(** ** Transfers, seen from the dispatcher *)

Lemma kindOf_cases verb k :
  kindOf verb = Some k ->
  match k with
  | Retr => verb = "RETR"
  | Stor => verb = "STOR"
  | List => verb = "LIST" \/ verb = "NLST"
  end.
Proof.
  unfold kindOf.
  destruct (String.eqb_spec verb "RETR"); [intros H; inversion H; auto|].
  destruct (String.eqb_spec verb "STOR"); [intros H; inversion H; auto|].
  destruct (String.eqb_spec verb "LIST"); [intros H; inversion H; auto|].
  destruct (String.eqb_spec verb "NLST"); [intros H; inversion H; auto|].
  discriminate.
Qed.

(** RETR, STOR, LIST and NLST run their helper and end with one reply chosen
    from the error the helper returned. *)
Lemma handle_transfer env c s k :
  authed s = true -> kindOf (Cmd c) = Some k ->
  handle env c s =
    let '(err, s1, tr) := transferOf k env c s in
    (replyAnswer env (finalReply k err), s1, (tr ++ [replyEvent (finalReply k err)])%list).
Proof.
  intros Ha Hk. rewrite (handle_postauth _ _ _ Ha).
  apply kindOf_cases in Hk. destruct c as [verb arg]. simpl in Hk.
  unfold handlePostAuth, bind, get, finalReply, replyAnswer, replyEvent.
  destruct k; [| |destruct Hk]; subst verb; simpl;
    match goal with |- context [?h env ?c s] =>
      destruct (h env c s) as [[err s1] tr] end;
    (destruct (is_errNoDataConn err); [reflexivity|]);
    (destruct (isPermission err); [reflexivity|]);
    try (destruct (isNotExist err); [reflexivity|]);
    destruct err; reflexivity.
Qed.

(** Without a data channel the helpers return the sentinel at once. *)
Lemma transfer_no_data k env c s :
  Data (session s) = None ->
  transferOf k env c s = (Some errNoDataConn, s, []).
Proof.
  intros Hd. destruct k; simpl;
    unfold retrieve, store, list_, bind, get; simpl; rewrite Hd; reflexivity.
Qed.

(** The exit paths of a helper that has a data channel, in the order in
    which the code can leave. *)
Lemma transfer_paths k env c s d :
  Data (session s) = Some d ->
  let path := transferPath k env s c in
  let done := set_Data None s in
  transferOf k env c s =
    match opened k env path with
    | inl e => (Some (Ext e), done, [openEvent k path; EvCloseData])
    | inr f =>
        match provisionalAnswer k env with
        | Some e =>
            (Some (Ext e), done,
             [openEvent k path; provisional k; EvClose f; EvCloseData])
        | None =>
            match (if seeks k s then env_Seek env f (restart s) else None) with
            | Some e =>
                (Some (Ext e), done,
                 [openEvent k path; provisional k; EvSeek f (restart s);
                  EvClose f; EvCloseData])
            | None =>
                (match streamAnswer k env c f d with
                 | Some e => Some (Ext e)
                 | None =>
                     liftErr match k with
                             | Stor => env_Close env f
                             | _ => env_CloseData env
                             end
                 end,
                 done,
                 ([openEvent k path; provisional k] ++ seekEvents k s f
                    ++ [streamEvent k c f d; EvClose f; EvCloseData])%list)
            end
        end
    end.
Proof.
  intros Hd path done. subst path done.
  unfold transferPath, opened, provisionalAnswer, seekEvents, seeks.
  destruct k; simpl; unfold retrieve, store, list_; unfold_monad; simpl; rewrite Hd.
  - destruct (env_Open env _) as [e|f]; [reflexivity|].
    destruct (env_Reply env 150 _); [reflexivity|]. simpl.
    destruct (restart s >? 0)%Z; simpl.
    + destruct (env_Seek env f _); [reflexivity|]. simpl.
      destruct (env_CopyToData env f d); reflexivity.
    + destruct (env_CopyToData env f d); reflexivity.
  - destruct (env_Create env _) as [e|f]; [reflexivity|].
    destruct (env_Reply env 150 _); [reflexivity|]. simpl.
    destruct (restart s >? 0)%Z; simpl.
    + destruct (env_Seek env f _); [reflexivity|]. simpl.
      destruct (env_CopyFromData env d f); reflexivity.
    + destruct (env_CopyFromData env d f); reflexivity.
  - destruct (env_Open env _) as [e|f]; [reflexivity|].
    destruct (env_Reply env 150 _); [reflexivity|]. simpl.
    destruct (env_ListWrite env f _ d); reflexivity.
Qed.

(** ** REST and the restart offset *)

(** REST in an authenticated session. *)
Lemma handle_REST env arg s :
  authed s = true ->
  handle env (mkCommand "REST" arg) s =
    match ParseInt arg with
    | (n, None) =>
        if (n <? 0)%Z
        then (liftErr (env_Reply env 501 "Invalid syntax."), s, [invalidSyntax])
        else (liftErr (env_Reply env 350
                         ("Restart position accepted (" ++ FormatInt n ++ ").")),
              set_restart n s, [restartAccepted n])
    | (_, Some _) => (liftErr (env_Reply env 501 "Invalid syntax."), s, [invalidSyntax])
    end.
Proof.
  intros Ha. rewrite (handle_postauth _ _ _ Ha).
  unfold handlePostAuth; unfold_monad; simpl.
  destruct (ParseInt arg) as [n [e|]]; [reflexivity|].
  destruct (n <? 0)%Z; reflexivity.
Qed.

Lemma REST_accepts env arg s n :
  authed s = true -> decimalOf arg = Some n -> (0 <= n < 2 ^ 63)%Z ->
  handle env (mkCommand "REST" arg) s =
    (liftErr (env_Reply env 350 ("Restart position accepted (" ++ FormatInt n ++ ").")),
     set_restart n s, [restartAccepted n]).
Proof.
  intros Ha Hd Hn. rewrite (handle_REST _ _ _ Ha).
  destruct (proj2 (ParseInt_nonneg_iff arg n) (conj Hd Hn)) as (m & Hp & Hm & ->).
  rewrite Hp, Hm. reflexivity.
Qed.

Lemma REST_rejects env arg s :
  authed s = true ->
  (forall n, decimalOf arg = Some n -> ~ (0 <= n < 2 ^ 63)%Z) ->
  handle env (mkCommand "REST" arg) s =
    (liftErr (env_Reply env 501 "Invalid syntax."), s, [invalidSyntax]).
Proof.
  intros Ha Hno. rewrite (handle_REST _ _ _ Ha).
  destruct (ParseInt arg) as [n [e|]] eqn:Hp; [reflexivity|].
  destruct (n <? 0)%Z eqn:Hn; [reflexivity|]. exfalso.
  destruct (proj1 (ParseInt_nonneg_iff arg n)) as [Hd Hr]; [exists n; auto|].
  exact (Hno n Hd Hr).
Qed.

Lemma cleared_restart c s : Cmd c <> "REST" -> restart (cleared c s) = 0%Z.
Proof. intros H. unfold cleared. rewrite (eqb_false_of_neq _ _ H). reflexivity. Qed.

Lemma cleared_REST c s : Cmd c = "REST" -> cleared c s = set_renaming "" s.
Proof. intros H. unfold cleared. rewrite H. reflexivity. Qed.

(** C4: in an authenticated session, (1) REST with an argument that denotes
    a number n from 0 to 2^63 - 1 as a decimal numeral records n as the
    offset and replies 350, and the offset is still n when the loop reads
    the next command; (2) any other argument, in particular one that is no
    decimal numeral or denotes a negative number, is rejected with 501 and
    the session state, the offset included, is unchanged; (3) a RETR or STOR
    that finds a positive offset, a data channel, a resource that opens and
    a provisional reply that is written, seeks the opened file to the offset
    right after the provisional reply and before the streaming call; when
    the seek fails the file and the data channel are closed and nothing is
    streamed; with an offset that is not positive no transfer seeks;
    (4) when the loop goes on after a command other than REST the offset is
    zero. *)
Theorem C4_restart_offset env s :
  authed s = true ->
  (forall arg n, decimalOf arg = Some n -> (0 <= n < 2 ^ 63)%Z ->
     let c := mkCommand "REST" arg in
     handle env c s =
       (liftErr (env_Reply env 350 ("Restart position accepted (" ++ FormatInt n ++ ").")),
        set_restart n s, [restartAccepted n])
     /\ forall s1 tr, iteration (mkTurn (inr c) env) s = (None, s1, tr) -> restart s1 = n)
  /\
  (forall arg,
     (decimalOf arg = None \/ exists n, decimalOf arg = Some n /\ (n < 0)%Z) ->
     handle env (mkCommand "REST" arg) s =
       (liftErr (env_Reply env 501 "Invalid syntax."), s, [invalidSyntax]))
  /\
  (forall c k d f,
     kindOf (Cmd c) = Some k -> k = Retr \/ k = Stor ->
     (restart s > 0)%Z ->
     Data (session s) = Some d ->
     let path := transferPath k env s c in
     opened k env path = inr f ->
     provisionalAnswer k env = None ->
     (env_Seek env f (restart s) = None ->
      exists final,
        trace_of (handle env c s) =
          [openEvent k path; provisional k; EvSeek f (restart s);
           streamEvent k c f d; EvClose f; EvCloseData; final])
     /\
     (forall e, env_Seek env f (restart s) = Some e ->
      exists final,
        trace_of (handle env c s) =
          [openEvent k path; provisional k; EvSeek f (restart s);
           EvClose f; EvCloseData; final]
        /\ transferOf k env c s =
             (Some (Ext e), set_Data None s,
              [openEvent k path; provisional k; EvSeek f (restart s);
               EvClose f; EvCloseData])))
  /\
  (forall c k, kindOf (Cmd c) = Some k -> (restart s <= 0)%Z ->
     forall f off, ~ In (EvSeek f off) (trace_of (handle env c s)))
  /\
  (forall c s1 tr, Cmd c <> "REST" ->
     iteration (mkTurn (inr c) env) s = (None, s1, tr) -> restart s1 = 0%Z).
Proof.
  intros Ha. split; [|split; [|split; [|split]]].
  - intros arg n Hd Hn c. pose proof (REST_accepts env arg s n Ha Hd Hn) as Hh.
    split; [exact Hh|]. intros s1 tr Hit.
    destruct (iteration_continues_inv _ _ _ _ _ Hit) as (s' & Hh' & -> & _).
    subst c. rewrite Hh in Hh'. inversion Hh'; subst.
    rewrite cleared_REST by reflexivity. reflexivity.
  - intros arg Hbad. apply REST_rejects; [exact Ha|].
    intros n Hd Hn. destruct Hbad as [Hnone | (m & Hm & Hneg)]; [congruence|].
    rewrite Hd in Hm. inversion Hm; subst. lia.
  - intros c k d f Hk Hrs Hpos Hd path Hop Hprov.
    assert (Hseek : seeks k s = true).
    { unfold seeks. destruct Hrs as [-> | ->]; apply Z.gtb_lt; lia. }
    pose proof (transfer_paths k env c s d Hd) as Hrun. cbv zeta in Hrun.
    fold path in Hrun. rewrite Hop, Hprov, Hseek in Hrun.
    rewrite (handle_transfer env c s k Ha Hk).
    split.
    + intros Hs. rewrite Hs in Hrun. rewrite Hrun.
      unfold seekEvents. rewrite Hseek. simpl. eexists. reflexivity.
    + intros e Hs. rewrite Hs in Hrun. rewrite Hrun.
      simpl. eexists. split; reflexivity.
  - intros c k Hk Hz f off. rewrite (handle_transfer env c s k Ha Hk).
    destruct (Data (session s)) as [d|] eqn:Hd.
    + pose proof (transfer_paths k env c s d Hd) as Hrun. cbv zeta in Hrun.
      assert (Hseek : seeks k s = false).
      { unfold seeks. destruct k; auto; rewrite Z.gtb_ltb; apply Z.ltb_ge; lia. }
      unfold seekEvents in Hrun. rewrite Hseek in Hrun. rewrite Hrun.
      destruct (opened k env _) as [e|f']; [destruct k; absent|].
      destruct (provisionalAnswer k env); [destruct k; absent|].
      destruct k; absent.
    + rewrite (transfer_no_data k env c s Hd). absent.
  - intros c s1 tr Hc Hit.
    destruct (iteration_continues_inv _ _ _ _ _ Hit) as (s' & _ & -> & _).
    apply cleared_restart, Hc.
Qed.

Lemma C4_restart_offset_witness :
  authed readySession = true /\
  handle okEnv (mkCommand "REST" "42") readySession =
    (None, set_restart 42 readySession, [restartAccepted 42]) /\
  handle okEnv (mkCommand "REST" "-1") readySession =
    (None, readySession, [invalidSyntax]) /\
  handle okEnv (mkCommand "REST" "4x") readySession =
    (None, readySession, [invalidSyntax]).
Proof.
  destruct (C4_restart_offset okEnv readySession eq_refl) as (H1 & H2 & _).
  split; [reflexivity|]. split; [|split].
  - apply (H1 "42" 42%Z); [reflexivity | split; [lia | reflexivity]].
  - apply H2. right. exists (-1)%Z. split; [reflexivity | lia].
  - apply H2. left. reflexivity.
Defined.

(** REST 42 and then RETR: the file is sought to 42 before it is copied. *)
Example rest_then_retr :
  Handle [mkTurn (inr (mkCommand "REST" "42")) okEnv;
          mkTurn (inr (mkCommand "RETR" "notes.txt")) okEnv] readySession =
    (None, set_Data None readySession,
     [restartAccepted 42; EvOpen "/notes.txt"; EvReply 150 "Here comes the file.";
      EvSeek 3%nat 42; EvCopyToData 3%nat sampleData; EvClose 3%nat; EvCloseData;
      EvReply 226 "Transfer complete."]).
Proof. reflexivity. Qed.

(** ** Transfers without a data channel *)

Lemma finalReply_external k e :
  fst (finalReply k (Some (Ext e))) = 550%nat.
Proof.
  unfold finalReply. simpl.
  destruct e as [[] msg]; destruct k; reflexivity.
Qed.

Lemma finalReply_not_425 k err :
  err <> Some errNoDataConn -> fst (finalReply k err) <> 425%nat.
Proof.
  intros H. destruct err as [[|e]|].
  - congruence.
  - rewrite finalReply_external. discriminate.
  - destruct k; discriminate.
Qed.

(** With a data channel a helper never returns the sentinel. *)
Lemma transfer_with_data_result k env c s d :
  Data (session s) = Some d ->
  result_of (transferOf k env c s) <> Some errNoDataConn.
Proof.
  intros Hd. rewrite (transfer_paths k env c s d Hd). unfold result_of.
  destruct (opened k env _); [simpl; discriminate|].
  destruct (provisionalAnswer k env); [simpl; discriminate|].
  destruct (if seeks k s then _ else _); [simpl; discriminate|].
  simpl.
  destruct (streamAnswer k env c _ d); [discriminate|].
  destruct k; simpl;
    match goal with |- liftErr ?x <> _ => destruct x end; discriminate.
Qed.

Lemma transfer_replies k env c s msg :
  In (EvReply 425 msg) (trace_of (transferOf k env c s)) -> False.
Proof.
  destruct (Data (session s)) as [d|] eqn:Hd.
  - rewrite (transfer_paths k env c s d Hd).
    destruct (opened k env _); [destruct k; absent|].
    destruct (provisionalAnswer k env); [destruct k; absent|].
    destruct (if seeks k s then _ else _); [destruct k; absent|].
    unfold seekEvents. destruct (seeks k s); destruct k; absent.
  - rewrite (transfer_no_data k env c s Hd). absent.
Qed.

(** C6: in an authenticated session, RETR, STOR, LIST and NLST without a
    data channel write the single reply 425 Use PORT or PASV first, leave the
    session as it is and call nothing else, so no file is opened or created
    and no 550 is written; with a data channel the same commands never write
    a 425, and an error returned by the transfer is reported with a 550. *)
Theorem C6_no_data_channel env c s k :
  authed s = true ->
  kindOf (Cmd c) = Some k ->
  (Data (session s) = None ->
   handle env c s =
     (liftErr (env_Reply env 425 "Use PORT or PASV first."), s, [usePortOrPasv])
   /\ (forall p, ~ In (EvOpen p) (trace_of (handle env c s)))
   /\ (forall p, ~ In (EvCreate p) (trace_of (handle env c s)))
   /\ (forall msg, ~ In (EvReply 550 msg) (trace_of (handle env c s))))
  /\
  (forall d, Data (session s) = Some d ->
   (forall msg, ~ In (EvReply 425 msg) (trace_of (handle env c s)))
   /\ (forall e, result_of (transferOf k env c s) = Some e ->
       exists tr msg, trace_of (handle env c s) = (tr ++ [EvReply 550 msg])%list)).
Proof.
  intros Ha Hk. rewrite (handle_transfer env c s k Ha Hk). split.
  - intros Hd. rewrite (transfer_no_data k env c s Hd).
    assert (Hr : finalReply k (Some errNoDataConn) = (425%nat, "Use PORT or PASV first."))
      by reflexivity.
    unfold replyAnswer, replyEvent. rewrite Hr. simpl.
    split; [reflexivity|]. repeat split; intros; absent.
  - intros d Hd. pose proof (transfer_with_data_result k env c s d Hd) as Hne.
    pose proof (transfer_replies k env c s) as Hno.
    destruct (transferOf k env c s) as [[err s1] tr]. unfold result_of in *. simpl in *.
    split.
    + intros msg Hin. apply in_app_or in Hin as [Hin | [Hin | []]].
      * exact (Hno msg Hin).
      * unfold replyEvent in Hin. inversion Hin as [[Hcode Hmsg]].
        exact (finalReply_not_425 k err Hne Hcode).
    + intros e ->. destruct e as [|e]; [congruence|].
      exists tr, (snd (finalReply k (Some (Ext e)))).
      unfold replyEvent. rewrite finalReply_external. reflexivity.
Qed.

Lemma C6_no_data_channel_witness :
  authed authedSession = true /\
  kindOf "RETR" = Some Retr /\
  Data (session authedSession) = None /\
  handle okEnv (mkCommand "RETR" "notes.txt") authedSession =
    (None, authedSession, [usePortOrPasv]).
Proof.
  repeat (split; [reflexivity|]).
  destruct (C6_no_data_channel okEnv (mkCommand "RETR" "notes.txt") authedSession Retr
              eq_refl eq_refl) as [H _].
  exact (proj1 (H eq_refl)).
Defined.

(** ** Cleanup after a transfer *)

(** C8, as amended: a RETR, STOR, LIST or NLST that has a data channel
    closes the data channel exactly once, as its last call, on every exit
    path, and closes the resource it opened exactly once, just before.  The
    error returned is that of the first of open, provisional reply, seek and
    streaming to fail.  When none of them fails, RETR, LIST and NLST return
    the result of closing the data channel, and STOR returns the result of
    closing the resource. *)
Theorem C8_transfer_cleanup k env c s d :
  Data (session s) = Some d ->
  let path := transferPath k env s c in
  let r := transferOf k env c s in
  (* cleanup on every path *)
  (exists body,
     trace_of r = (openEvent k path :: body ++ [EvCloseData])%list
     /\ ~ In EvCloseData body
     /\ match opened k env path with
        | inl _ => body = []
        | inr f => exists body', body = (body' ++ [EvClose f])%list
                                 /\ forall f', ~ In (EvClose f') body'
        end)
  (* open failure *)
  /\ (forall e, opened k env path = inl e -> result_of r = Some (Ext e))
  /\ (forall f, opened k env path = inr f ->
      (* provisional-reply write failure *)
      (forall e, provisionalAnswer k env = Some e -> result_of r = Some (Ext e))
      /\ (provisionalAnswer k env = None ->
          (* seek failure *)
          (forall e, seeks k s = true -> env_Seek env f (restart s) = Some e ->
             result_of r = Some (Ext e))
          /\ ((seeks k s = true -> env_Seek env f (restart s) = None) ->
              (* streaming failure *)
              (forall e, streamAnswer k env c f d = Some e -> result_of r = Some (Ext e))
              (* success *)
              /\ (streamAnswer k env c f d = None ->
                  result_of r =
                    liftErr match k with
                            | Stor => env_Close env f
                            | _ => env_CloseData env
                            end)))).
Proof.
  intros Hd path r. subst r.
  rewrite (transfer_paths k env c s d Hd). fold path.
  unfold result_of, state_of, trace_of.
  destruct (opened k env path) as [e|f] eqn:Hop.
  { simpl. split; [|split].
    - exists []. repeat split; auto.
    - intros e' He. inversion He; subst. reflexivity.
    - intros f Hf. discriminate Hf. }
  assert (Hnc : forall f', ~ In (EvClose f') [provisional k]) by (destruct k; absent).
  destruct (provisionalAnswer k env) as [e|] eqn:Hprov.
  { simpl. split; [|split].
    - exists [provisional k; EvClose f]. split; [reflexivity|].
      split; [destruct k; absent|]. exists [provisional k]. split; [reflexivity | exact Hnc].
    - intros e' He. discriminate He.
    - intros f' Hf. inversion Hf; subst f'. split.
      + intros e' He. inversion He; subst. reflexivity.
      + intros He. discriminate He. }
  destruct (seeks k s) eqn:Hseek.
  - destruct (env_Seek env f (restart s)) as [e|] eqn:Hs.
    { simpl. split; [|split].
      - exists [provisional k; EvSeek f (restart s); EvClose f]. split; [reflexivity|].
        split; [destruct k; absent|].
        exists [provisional k; EvSeek f (restart s)]. split; [reflexivity|].
        destruct k; absent.
      - intros e' He. discriminate He.
      - intros f' Hf. inversion Hf; subst f'. split; [intros e' He; discriminate He|].
        intros _. split.
        + intros e' _ He. rewrite Hs in He. inversion He; subst. reflexivity.
        + intros Hnone. specialize (Hnone eq_refl). rewrite Hs in Hnone.
          discriminate Hnone. }
    unfold seekEvents. rewrite Hseek. simpl. split; [|split].
    + exists [provisional k; EvSeek f (restart s); streamEvent k c f d; EvClose f].
      split; [reflexivity|]. split; [destruct k; absent|].
      exists [provisional k; EvSeek f (restart s); streamEvent k c f d].
      split; [reflexivity|]. destruct k; absent.
    + intros e' He. discriminate He.
    + intros f' Hf. inversion Hf; subst f'. split; [intros e' He; discriminate He|].
      intros _. split; [intros e' _ He; rewrite Hs in He; discriminate He|].
      intros _. split.
      * intros e' He. rewrite He. reflexivity.
      * intros He. rewrite He. reflexivity.
  - unfold seekEvents. rewrite Hseek. simpl. split; [|split].
    + exists [provisional k; streamEvent k c f d; EvClose f].
      split; [reflexivity|]. split; [destruct k; absent|].
      exists [provisional k; streamEvent k c f d].
      split; [reflexivity|]. destruct k; absent.
    + intros e' He. discriminate He.
    + intros f' Hf. inversion Hf; subst f'. split; [intros e' He; discriminate He|].
      intros _. split; [intros e' He; discriminate He|].
      intros _. split.
      * intros e' He. rewrite He. reflexivity.
      * intros He. rewrite He. reflexivity.
Qed.

Lemma C8_transfer_cleanup_witness :
  Data (session readySession) = Some sampleData /\
  trace_of (retrieve closeDataFailEnv (mkCommand "RETR" "notes.txt") readySession) =
    [EvOpen "/notes.txt"; EvReply 150 "Here comes the file.";
     EvCopyToData 3%nat sampleData; EvClose 3%nat; EvCloseData] /\
  result_of (retrieve closeDataFailEnv (mkCommand "RETR" "notes.txt") readySession) =
    Some (Ext broken) /\
  result_of (store closeFailEnv (mkCommand "STOR" "notes.txt") readySession) =
    Some (Ext broken).
Proof.
  split; [reflexivity|]. split; [reflexivity|].
  destruct (C8_transfer_cleanup Retr closeDataFailEnv (mkCommand "RETR" "notes.txt")
              readySession sampleData eq_refl) as (_ & _ & H).
  destruct (C8_transfer_cleanup Stor closeFailEnv (mkCommand "STOR" "notes.txt")
              readySession sampleData eq_refl) as (_ & _ & H').
  split.
  - apply (H 3%nat eq_refl); [reflexivity | discriminate | reflexivity].
  - apply (H' 3%nat eq_refl); [reflexivity | discriminate | reflexivity].
Defined.

(** C8 as stated fails where a close is the first call to fail.  In RETR
    the failure of [File.Close] is the first error of the operation, yet
    [retrieve] returns nil and the command replies 226; in STOR the failure
    of [CloseData] is the first error, and [store] returns nil as well. *)
Lemma C8_counterexample :
  env_Close closeFailEnv 3%nat = Some broken /\
  retrieve closeFailEnv (mkCommand "RETR" "notes.txt") readySession =
    (None, set_Data None readySession,
     [EvOpen "/notes.txt"; EvReply 150 "Here comes the file.";
      EvCopyToData 3%nat sampleData; EvClose 3%nat; EvCloseData]) /\
  replies (trace_of (handle closeFailEnv (mkCommand "RETR" "notes.txt") readySession)) =
    [(150%nat, "Here comes the file."); (226%nat, "Transfer complete.")] /\
  env_CloseData closeDataFailEnv = Some broken /\
  store closeDataFailEnv (mkCommand "STOR" "notes.txt") readySession =
    (None, set_Data None readySession,
     [EvCreate "/notes.txt"; EvReply 150 "Awaiting file data.";
      EvCopyFromData sampleData 3%nat; EvClose 3%nat; EvCloseData]).
Proof. repeat split. Qed.

(** ** The passive-only lock *)

Lemma upper_ascii_A c : upper_ascii c = "A"%char -> c = "A"%char \/ c = "a"%char.
Proof.
  destruct c as [[] [] [] [] [] [] [] []]; vm_compute; intros H;
    try discriminate H; auto.
Qed.

Lemma upper_ascii_L c : upper_ascii c = "L"%char -> c = "L"%char \/ c = "l"%char.
Proof.
  destruct c as [[] [] [] [] [] [] [] []]; vm_compute; intros H;
    try discriminate H; auto.
Qed.

(** The arguments EPSV takes for ALL: the word in any letter case. *)
Lemma ToUpper_ALL arg :
  ToUpper arg = "ALL" <->
  In arg ["ALL"; "ALl"; "AlL"; "All"; "aLL"; "aLl"; "alL"; "all"].
Proof.
  split.
  - destruct arg as [|a [|b [|c [|]]]]; simpl; try discriminate.
    intros H. injection H as Ha Hb Hc.
    apply upper_ascii_A in Ha. apply upper_ascii_L in Hb. apply upper_ascii_L in Hc.
    destruct Ha, Hb, Hc; subst; simpl; tauto.
  - intros H. simpl in H. repeat destruct H as [<- | H]; try reflexivity.
    destruct H.
Qed.

Lemma handlePreAuth_keeps_lock env c :
  frames (fun s s' => epsvOnly s' = epsvOnly s) (handlePreAuth env c).
Proof.
  unfold handlePreAuth; unfold_calls.
  frame_steps (fun s : fileSession => eq_refl (epsvOnly s))
              (fun (s1 s2 s3 : fileSession) (H1 : epsvOnly s2 = epsvOnly s1)
                   (H2 : epsvOnly s3 = epsvOnly s2) => eq_trans H2 H1)
              reflexivity.
Qed.

Lemma handle_lockNeedsAuth env c s :
  lockNeedsAuth s -> lockNeedsAuth (state_of (handle env c s)).
Proof.
  intros Hinv. destruct (authed s) eqn:Ha.
  - intros _. apply (st_authed _ _ (fr_stable _ _ _ (handle_frames env c s)) Ha).
  - rewrite (handle_preauth _ _ _ Ha). intros Hl.
    rewrite (handlePreAuth_keeps_lock env c s) in Hl.
    specialize (Hinv Hl). congruence.
Qed.

Lemma cleared_lockNeedsAuth c s : lockNeedsAuth s -> lockNeedsAuth (cleared c s).
Proof.
  unfold lockNeedsAuth, cleared.
  destruct (Cmd c =? "RNFR"), (Cmd c =? "REST"); simpl; auto.
Qed.

Lemma iteration_lockNeedsAuth t s :
  lockNeedsAuth s -> lockNeedsAuth (state_of (iteration t s)).
Proof.
  intros Hinv. destruct t as [[err | c] env].
  - exact Hinv.
  - pose proof (handle_lockNeedsAuth env c s Hinv) as H.
    destruct (handle env c s) as [[[e|] s'] tr] eqn:Hh.
    + rewrite (iteration_failed _ _ _ _ _ _ Hh). exact H.
    + rewrite (iteration_handled _ _ _ _ _ Hh).
      destruct (Cmd c =? "QUIT"); [exact H|].
      apply cleared_lockNeedsAuth, H.
Qed.

Lemma Handle_lockNeedsAuth turns : forall s,
  lockNeedsAuth s -> lockNeedsAuth (state_of (Handle turns s)).
Proof.
  induction turns as [|t rest IH]; intros s Hinv; [exact Hinv|].
  pose proof (iteration_lockNeedsAuth t s Hinv) as H.
  destruct (iteration t s) as [[[e|] s1] tr] eqn:Hit.
  - rewrite (Handle_returns _ _ _ _ _ _ Hit). exact H.
  - rewrite (Handle_continues _ _ _ _ _ Hit).
    specialize (IH s1 H). destruct (Handle rest s1) as [[r s2] tr2]. exact IH.
Qed.

(** C5: (1) in an authenticated session EPSV with the argument ALL in any
    letter case sets the passive-only lock and replies 200; (2) once set,
    the lock stays set whatever commands follow and whatever the
    collaborators answer, up to the end of the session; (3) the lock is only
    ever set in an authenticated session; (4) while it is set, PASV, PORT and
    EPRT write the single reply 550 ... is disallowed, call no negotiation
    and leave the session as it is; (5) while it is set, EPSV with the
    argument 1, 2 or the empty string still negotiates a passive data
    channel on tcp4, tcp6 or the network of the control connection, and
    replies 229 with its port when the negotiation succeeds. *)
Theorem C5_passive_only_lock :
  (forall env arg s, authed s = true -> ToUpper arg = "ALL" ->
     handle env (mkCommand "EPSV" arg) s =
       (liftErr (env_Reply env 200 "EPSV ALL ok."), set_epsvOnly true s,
        [EvReply 200 "EPSV ALL ok."]))
  /\
  (forall turns s r s' tr,
     epsvOnly s = true -> Handle turns s = (r, s', tr) -> epsvOnly s' = true)
  /\
  (forall h ss turns r s tr,
     Handle turns (newFileSession h ss) = (r, s, tr) -> epsvOnly s = true ->
     authed s = true)
  /\
  (forall env verb arg s, epsvOnly s = true -> authed s = true ->
     verb = "PASV" \/ verb = "PORT" \/ verb = "EPRT" ->
     handle env (mkCommand verb arg) s =
       (liftErr (env_Reply env 550 (verb ++ " is disallowed.")), s, [disallowed verb]))
  /\
  (forall env arg nw d s, epsvOnly s = true -> authed s = true ->
     (arg = "1" /\ nw = "tcp4") \/ (arg = "2" /\ nw = "tcp6")
       \/ (arg = "" /\ nw = AddrNetwork (session s)) ->
     env_Passive env nw = inr d ->
     handle env (mkCommand "EPSV" arg) s =
       (liftErr (env_Reply env 229
                   ("Entering Extended Passive Mode (|||" ++ FormatInt (Port d) ++ "|)")),
        set_Data (Some d) s, [EvPassive nw; extendedPassive d])).
Proof.
  split; [|split; [|split; [|split]]].
  - intros env arg s Ha Hall. rewrite (handle_postauth _ _ _ Ha).
    unfold handlePostAuth; unfold_monad; simpl. rewrite Hall. reflexivity.
  - intros turns s r s' tr Hl Hrun.
    pose proof (st_epsvOnly _ _ (Handle_stable turns s) Hl) as H.
    rewrite Hrun in H. exact H.
  - intros h ss turns r s tr Hrun.
    pose proof (Handle_lockNeedsAuth turns (newFileSession h ss)) as H.
    rewrite Hrun in H. apply H. intros Hl. discriminate Hl.
  - intros env verb arg s Hl Ha Hv. rewrite (handle_postauth _ _ _ Ha).
    unfold handlePostAuth; unfold_monad.
    destruct Hv as [-> | [-> | ->]]; simpl; rewrite Hl; reflexivity.
  - intros env arg nw d s Hl Ha Harg Hneg. rewrite (handle_postauth _ _ _ Ha).
    unfold handlePostAuth; unfold_monad.
    destruct Harg as [[-> ->] | [[-> ->] | [-> ->]]]; simpl; rewrite Hneg; reflexivity.
Qed.

Lemma C5_passive_only_lock_witness :
  handle okEnv (mkCommand "EPSV" "all") authedSession =
    (None, lockedSession, [EvReply 200 "EPSV ALL ok."]) /\
  handle okEnv (mkCommand "PASV" "") lockedSession =
    (None, lockedSession, [disallowed "PASV"]) /\
  handle okEnv (mkCommand "EPSV" "2") lockedSession =
    (None, set_Data (Some sampleData) lockedSession,
     [EvPassive "tcp6"; extendedPassive sampleData]).
Proof.
  destruct C5_passive_only_lock as (Hset & _ & _ & Hdis & Hepsv).
  split; [|split].
  - apply (Hset okEnv "all" authedSession); reflexivity.
  - apply (Hdis okEnv "PASV" "" lockedSession); auto.
  - apply (Hepsv okEnv "2" "tcp6" sampleData lockedSession); auto.
Defined.

(** EPSV ALL, then PASV, PORT and EPRT are refused while EPSV goes through. *)
Example lock_session :
  replies (trace_of (Handle [mkTurn (inr (mkCommand "EPSV" "ALL")) okEnv;
                             mkTurn (inr (mkCommand "PASV" "")) okEnv;
                             mkTurn (inr (mkCommand "PORT" "127,0,0,1,4,1")) okEnv;
                             mkTurn (inr (mkCommand "EPRT" "|1|127.0.0.1|1025|")) okEnv;
                             mkTurn (inr (mkCommand "EPSV" "")) okEnv] authedSession)) =
    [(200%nat, "EPSV ALL ok."); (550%nat, "PASV is disallowed.");
     (550%nat, "PORT is disallowed."); (550%nat, "EPRT is disallowed.");
     (229%nat, "Entering Extended Passive Mode (|||1025|)")].
Proof. reflexivity. Qed.

(** ** The restart offset is never negative *)

Lemma handlePreAuth_keeps_restart env c :
  frames (fun s s' => restart s' = restart s) (handlePreAuth env c).
Proof.
  unfold handlePreAuth; unfold_calls.
  frame_steps (fun s : fileSession => eq_refl (restart s))
              (fun (s1 s2 s3 : fileSession) (H1 : restart s2 = restart s1)
                   (H2 : restart s3 = restart s2) => eq_trans H2 H1)
              reflexivity.
Qed.

(** C10: (1) a new session starts with the offset zero; (2) in every state
    the loop reaches from a new session, whether it goes on or returns, the
    offset is at least zero (and fits an int64); (3) handling REST either
    leaves the offset as it was or stores the number its argument denotes as
    a decimal numeral, which is then at least zero; (4) handling any other
    command leaves the offset as it was; (5) when the loop goes on after a
    command other than REST, the offset is zero. *)
Theorem C10_restart_nonnegative :
  (forall h ss, restart (newFileSession h ss) = 0%Z)
  /\
  (forall h ss turns r s tr,
     Handle turns (newFileSession h ss) = (r, s, tr) -> (0 <= restart s < 2 ^ 63)%Z)
  /\
  (forall env c s, Cmd c = "REST" ->
     let s' := state_of (handle env c s) in
     restart s' = restart s
     \/ (decimalOf (Msg c) = Some (restart s') /\ (0 <= restart s')%Z))
  /\
  (forall env c s, Cmd c <> "REST" -> restart (state_of (handle env c s)) = restart s)
  /\
  (forall env c s s1 tr, Cmd c <> "REST" ->
     iteration (mkTurn (inr c) env) s = (None, s1, tr) -> restart s1 = 0%Z).
Proof.
  split; [|split; [|split; [|split]]].
  - reflexivity.
  - intros h ss turns r s tr Hrun.
    pose proof (st_restart _ _ (Handle_stable turns (newFileSession h ss))) as H.
    rewrite Hrun in H. apply H. simpl. lia.
  - intros env [verb arg] s Hc s'. simpl in Hc. subst verb s'.
    destruct (authed s) eqn:Ha.
    + rewrite (handle_REST _ _ _ Ha). simpl.
      destruct (ParseInt arg) as [n [e|]] eqn:Hp; [left; reflexivity|].
      destruct (n <? 0)%Z eqn:Hn; [left; reflexivity|]. right. simpl.
      destruct (proj1 (ParseInt_nonneg_iff arg n)) as [Hd Hr]; [exists n; auto|].
      split; [exact Hd | lia].
    + left. rewrite (handle_preauth _ _ _ Ha). apply handlePreAuth_keeps_restart.
  - intros env c s Hc. apply (fr_restart _ _ _ (handle_frames env c s) Hc).
  - intros env c s s1 tr Hc Hit.
    destruct (iteration_continues_inv _ _ _ _ _ Hit) as (s' & _ & -> & _).
    apply cleared_restart, Hc.
Qed.

Lemma C10_restart_nonnegative_witness :
  (0 <= restart (state_of (Handle [mkTurn (inr (mkCommand "USER" "alice")) okEnv;
                                   mkTurn (inr (mkCommand "PASS" "secret")) okEnv;
                                   mkTurn (inr (mkCommand "REST" "42")) okEnv]
                             freshSession)) < 2 ^ 63)%Z /\
  restart (state_of (handle okEnv (mkCommand "NOOP" "") (set_restart 42 authedSession)))
    = 42%Z /\
  restart (state_of (iteration (mkTurn (inr (mkCommand "NOOP" "")) okEnv)
                       (set_restart 42 authedSession))) = 0%Z.
Proof.
  destruct C10_restart_nonnegative as (_ & Hreach & _ & Hkeep & Hreset).
  split; [|split].
  - apply (Hreach (mkHandler true) (newSession None "tcp4")
             [mkTurn (inr (mkCommand "USER" "alice")) okEnv;
              mkTurn (inr (mkCommand "PASS" "secret")) okEnv;
              mkTurn (inr (mkCommand "REST" "42")) okEnv]
             None _ [EvReply 331 "Please specify the password.";
                     EvAuthorize "alice" "secret"; loginOk; restartAccepted 42]).
    reflexivity.
  - apply (Hkeep okEnv (mkCommand "NOOP" "") (set_restart 42 authedSession)).
    discriminate.
  - apply (Hreset okEnv (mkCommand "NOOP" "") (set_restart 42 authedSession)
             authedSession [EvReply 200 "OK."]); [discriminate | reflexivity].
Defined.

(** ** SIZE and MDTM *)

Lemma fieldOk_below (width : nat) (bound : nat) :
  forallb (fun n => fieldOk width (Z.of_nat n)) (seq 0 bound) = true ->
  forall x, (0 <= x < Z.of_nat bound)%Z -> fieldOk width x = true.
Proof.
  intros Hall x Hx. rewrite forallb_forall in Hall.
  rewrite <- (Z2Nat.id x) by lia. apply Hall. apply in_seq. lia.
Qed.

Lemma fieldOk_2 x : (0 <= x < 100)%Z -> fieldOk 2 x = true.
Proof.
  intros Hx. apply (fieldOk_below 2 100); [vm_compute; reflexivity | lia].
Qed.

Lemma fieldOk_4 x : (0 <= x < 10000)%Z -> fieldOk 4 x = true.
Proof.
  intros Hx. apply (fieldOk_below 4 (100 * 100)); [vm_compute; reflexivity | lia].
Qed.

Lemma fieldOk_spec width x :
  fieldOk width x = true ->
  String.length (appendInt x width) = width
  /\ allDigits (appendInt x width) = true
  /\ decimalValue (appendInt x width) 0 = x.
Proof.
  unfold fieldOk. intros H.
  apply andb_true_iff in H as [H H3]. apply andb_true_iff in H as [H1 H2].
  apply Nat.eqb_eq in H1. apply Z.eqb_eq in H3. auto.
Qed.

Lemma length_append (a b : string) :
  String.length (a ++ b) = (String.length a + String.length b)%nat.
Proof. induction a as [|c a IH]; simpl; [reflexivity | now rewrite IH]. Qed.

Lemma allDigits_append (a b : string) :
  allDigits (a ++ b) = (allDigits a && allDigits b)%bool.
Proof.
  induction a as [|c a IH]; simpl; [reflexivity|].
  rewrite IH. apply andb_assoc.
Qed.

(** The layout of [mdtmFormat]: year, month, day, hour, minute, second. *)
Lemma Format_mdtm t :
  Format t mdtmFormat =
    appendInt (Year t) 4 ++ appendInt (Month t) 2 ++ appendInt (Day t) 2
      ++ appendInt (Hour t) 2 ++ appendInt (Minute t) 2 ++ appendInt (Second t) 2.
Proof.
  unfold Format, mdtmFormat. cbn [String.length formatLoop nextStdChunk formatChunk].
  repeat f_equal. induction (appendInt (Second t) 2) as [|c r IH]; simpl; congruence.
Qed.

Lemma Format_mdtm_digits t :
  calendar t ->
  String.length (Format t mdtmFormat) = 14%nat
  /\ allDigits (Format t mdtmFormat) = true.
Proof.
  intros (Hy & Hmo & Hd & Hh & Hmi & Hs). rewrite Format_mdtm.
  destruct (fieldOk_spec _ _ (fieldOk_4 (Year t) ltac:(lia))) as (L1 & D1 & _).
  destruct (fieldOk_spec _ _ (fieldOk_2 (Month t) ltac:(lia))) as (L2 & D2 & _).
  destruct (fieldOk_spec _ _ (fieldOk_2 (Day t) ltac:(lia))) as (L3 & D3 & _).
  destruct (fieldOk_spec _ _ (fieldOk_2 (Hour t) ltac:(lia))) as (L4 & D4 & _).
  destruct (fieldOk_spec _ _ (fieldOk_2 (Minute t) ltac:(lia))) as (L5 & D5 & _).
  destruct (fieldOk_spec _ _ (fieldOk_2 (Second t) ltac:(lia))) as (L6 & D6 & _).
  rewrite !length_append, !allDigits_append, L1, L2, L3, L4, L5, L6,
    D1, D2, D3, D4, D5, D6. split; reflexivity.
Qed.

(** A year of five digits makes the timestamp one digit longer. *)
Example mdtm_five_digit_year :
  Format (mkTime 10000 1 1 0 0 0) mdtmFormat = "100000101000000".
Proof. reflexivity. Qed.

(** SIZE and MDTM in an authenticated session. *)
Lemma handle_SIZE env arg s :
  authed s = true ->
  let r := env_Stat env (env_Path env (Dir (session s)) arg) in
  replies (trace_of (handle env (mkCommand "SIZE" arg) s)) =
    [if isPermission (errOf r) then (550%nat, "Insufficient permissions.")
     else if isNotExist (errOf r) then (550%nat, "No such file.")
     else match r with
          | inl _ => (550%nat, "Could not get size.")
          | inr st => if IsDir st then (550%nat, "Path specifies a directory.")
                      else (213%nat, FormatInt (Size st))
          end].
Proof.
  intros Ha r. subst r. rewrite (handle_postauth _ _ _ Ha).
  unfold handlePostAuth; unfold_monad; simpl.
  destruct (env_Stat env _) as [[[] msg]|st]; simpl; try reflexivity.
  destruct (IsDir st); reflexivity.
Qed.

Lemma handle_MDTM env arg s :
  authed s = true ->
  let r := env_Stat env (env_Path env (Dir (session s)) arg) in
  replies (trace_of (handle env (mkCommand "MDTM" arg) s)) =
    [if isPermission (errOf r) then (550%nat, "Insufficient permissions.")
     else if isNotExist (errOf r) then (550%nat, "No such file or directory.")
     else match r with
          | inl _ => (550%nat, "Could not get size.")
          | inr st => if IsDir st then (550%nat, "Could not get size.")
                      else (213%nat, Format (ModTime st) mdtmFormat)
          end].
Proof.
  intros Ha r. subst r. rewrite (handle_postauth _ _ _ Ha).
  unfold handlePostAuth; unfold_monad; simpl.
  destruct (env_Stat env _) as [[[] msg]|st]; simpl; try reflexivity.
  destruct (IsDir st); reflexivity.
Qed.

(** C9, as amended: in an authenticated session SIZE and MDTM stat the
    resolved path and both require it to exist and not to be a directory:
    (1) when the stat fails, each writes a single 550 reply, No such file
    for SIZE and No such file or directory for MDTM when the path does not
    exist; (2) on a directory SIZE replies 550 Path specifies a directory
    and MDTM replies 550 Could not get size; (3) on a file SIZE replies 213
    with the size in decimal and MDTM replies 213 with the year, month, day,
    hour, minute and second of the modification time, zero-padded to 4, 2,
    2, 2, 2 and 2 digits; (4) for a calendar time whose year is from 0 to
    9999 that is exactly 14 decimal digits. *)
Theorem C9_size_and_mdtm env arg s :
  authed s = true ->
  let r := env_Stat env (env_Path env (Dir (session s)) arg) in
  let size := replies (trace_of (handle env (mkCommand "SIZE" arg) s)) in
  let mdtm := replies (trace_of (handle env (mkCommand "MDTM" arg) s)) in
  (forall e, r = inl e ->
     (exists msg, size = [(550%nat, msg)]) /\ (exists msg, mdtm = [(550%nat, msg)])
     /\ (eclass e = NotExist ->
         size = [(550%nat, "No such file.")]
         /\ mdtm = [(550%nat, "No such file or directory.")]))
  /\
  (forall st, r = inr st -> IsDir st = true ->
     size = [(550%nat, "Path specifies a directory.")]
     /\ mdtm = [(550%nat, "Could not get size.")])
  /\
  (forall st, r = inr st -> IsDir st = false ->
     size = [(213%nat, FormatInt (Size st))]
     /\ mdtm = [(213%nat, Format (ModTime st) mdtmFormat)]
     /\ Format (ModTime st) mdtmFormat =
          appendInt (Year (ModTime st)) 4 ++ appendInt (Month (ModTime st)) 2
            ++ appendInt (Day (ModTime st)) 2 ++ appendInt (Hour (ModTime st)) 2
            ++ appendInt (Minute (ModTime st)) 2 ++ appendInt (Second (ModTime st)) 2
     /\ (calendar (ModTime st) ->
         String.length (Format (ModTime st) mdtmFormat) = 14%nat
         /\ allDigits (Format (ModTime st) mdtmFormat) = true)).
Proof.
  intros Ha r size mdtm. subst size mdtm.
  rewrite (handle_SIZE env arg s Ha), (handle_MDTM env arg s Ha). fold r.
  split; [|split].
  - intros e ->. destruct e as [[] msg]; simpl;
      (split; [eauto | split; [eauto | intros H; try discriminate H; auto]]).
  - intros st -> Hd. simpl. rewrite Hd. auto.
  - intros st -> Hd. simpl. rewrite Hd.
    split; [reflexivity|]. split; [reflexivity|].
    split; [apply Format_mdtm | apply Format_mdtm_digits].
Qed.

Lemma C9_size_and_mdtm_witness :
  authed authedSession = true /\
  replies (trace_of (handle okEnv (mkCommand "SIZE" "notes.txt") authedSession)) =
    [(213%nat, "1234")] /\
  replies (trace_of (handle okEnv (mkCommand "MDTM" "notes.txt") authedSession)) =
    [(213%nat, "20190307140509")] /\
  String.length (Format sampleTime mdtmFormat) = 14%nat.
Proof.
  split; [reflexivity|].
  destruct (C9_size_and_mdtm okEnv "notes.txt" authedSession eq_refl) as (_ & _ & H).
  destruct (H sampleFile eq_refl eq_refl) as (Hs & Hm & _ & Hc).
  split; [exact Hs|]. split; [exact Hm|].
  apply Hc. unfold calendar. simpl. lia.
Defined.

(** C9 as stated fails on MDTM of an existing directory: the reply is 550
    Could not get size, not the modification time. *)
Lemma C9_counterexample :
  authed authedSession = true /\
  env_Stat dirEnv "/pub" = inr sampleDir /\
  IsDir sampleDir = true /\
  handle dirEnv (mkCommand "MDTM" "pub") authedSession =
    (None, authedSession, [EvStat "/pub"; EvReply 550 "Could not get size."]).
Proof. repeat split. Qed.

(** ** File-system errors and their replies *)

(** Decides the remaining cases once the verb and the failing call are
    known. *)
Ltac by_class e :=
  destruct e as [[] ?]; simpl;
  repeat split; intros; try congruence; try discriminate; eauto.

(** C7, as amended: in an authenticated session, when the file-system call
    made for CWD, CDUP, MKD, SIZE, MDTM, DELE, RMD, RNTO, RETR, STOR, LIST or
    NLST fails, the command writes exactly one reply and its code is 550.
    For every one of these commands but MKD a permission error gives the
    text Insufficient permissions; for every one but MKD and STOR a missing
    path gives No such directory (CWD, CDUP, LIST, NLST), No such file or
    directory (MDTM) or No such file (SIZE, DELE, RMD, RNTO, RETR).  MKD
    answers every error with Failed to create directory, and STOR answers a
    missing path with Error storing file. *)
Theorem C7_filesystem_errors env c s e :
  authed s = true ->
  fsAnswer env s c = Some (Some e) ->
  let out := replies (trace_of (handle env c s)) in
  (exists msg, out = [(550%nat, msg)])
  /\ (Cmd c = "MKD" -> out = [(550%nat, "Failed to create directory.")])
  /\ (Cmd c <> "MKD" -> eclass e = Permission ->
      out = [(550%nat, "Insufficient permissions.")])
  /\ (Cmd c <> "MKD" -> Cmd c <> "STOR" -> eclass e = NotExist ->
      out = [(550%nat, notFoundText (Cmd c))])
  /\ (Cmd c = "STOR" -> eclass e = NotExist -> out = [(550%nat, "Error storing file.")]).
Proof.
  intros Ha Hfs out. subst out. destruct c as [verb arg].
  unfold fsAnswer in Hfs. simpl in Hfs. simpl Cmd.
  destruct (String.eqb_spec verb "CWD") as [-> | N1].
  { destruct (arg =? "") eqn:Harg; [discriminate|].
    rewrite (handle_postauth _ _ _ Ha).
    unfold handlePostAuth, changeDir; unfold_monad; simpl. rewrite Harg. simpl.
    destruct (env_Stat env _) as [e0|st]; [|discriminate].
    inversion Hfs; subst e0. by_class e. }
  destruct (String.eqb_spec verb "CDUP") as [-> | N2].
  { rewrite (handle_postauth _ _ _ Ha).
    unfold handlePostAuth, changeDir; unfold_monad; simpl.
    destruct (env_Stat env _) as [e0|st]; [|discriminate].
    inversion Hfs; subst e0. by_class e. }
  destruct (String.eqb_spec verb "MKD") as [-> | N3].
  { rewrite (handle_postauth _ _ _ Ha).
    unfold handlePostAuth; unfold_monad; simpl.
    inversion Hfs as [Hm]. rewrite Hm. by_class e. }
  destruct (String.eqb_spec verb "SIZE") as [-> | N4].
  { rewrite (handle_SIZE env arg s Ha). simpl in Hfs.
    destruct (env_Stat env _) as [e0|st]; [|discriminate].
    inversion Hfs; subst e0. by_class e. }
  destruct (String.eqb_spec verb "MDTM") as [-> | N5].
  { rewrite (handle_MDTM env arg s Ha). simpl in Hfs.
    destruct (env_Stat env _) as [e0|st]; [|discriminate].
    inversion Hfs; subst e0. by_class e. }
  simpl in Hfs.
  destruct (String.eqb_spec verb "DELE") as [-> | N6].
  { simpl in Hfs. destruct (arg =? "") eqn:Harg; [discriminate|].
    rewrite (handle_postauth _ _ _ Ha).
    unfold handlePostAuth; unfold_monad; simpl. rewrite Harg. simpl.
    inversion Hfs as [Hm]. rewrite Hm. by_class e. }
  destruct (String.eqb_spec verb "RMD") as [-> | N7].
  { simpl in Hfs. destruct (arg =? "") eqn:Harg; [discriminate|].
    rewrite (handle_postauth _ _ _ Ha).
    unfold handlePostAuth; unfold_monad; simpl. rewrite Harg. simpl.
    inversion Hfs as [Hm]. rewrite Hm. by_class e. }
  simpl in Hfs.
  destruct (String.eqb_spec verb "RNTO") as [-> | N8].
  { destruct (arg =? "") eqn:Harg; [discriminate|].
    destruct (renaming s =? "") eqn:Hren; [discriminate|]. simpl in Hfs.
    rewrite (handle_postauth _ _ _ Ha).
    unfold handlePostAuth; unfold_monad; simpl. rewrite Harg, Hren. simpl.
    inversion Hfs as [Hm]. rewrite Hm. by_class e. }
  destruct (kindOf verb) as [k|] eqn:Hk; [|discriminate].
  destruct (Data (session s)) as [d|] eqn:Hd; [|discriminate].
  rewrite (handle_transfer env (mkCommand verb arg) s k Ha Hk).
  rewrite (transfer_paths k env _ s d Hd).
  destruct (opened k env _) as [e0|f]; [|discriminate].
  inversion Hfs; subst e0. unfold trace_of. simpl snd.
  pose proof (kindOf_cases verb k Hk) as Hv. unfold notFoundText.
  destruct k; [| |destruct Hv]; subst verb; by_class e.
Qed.

Lemma C7_filesystem_errors_witness :
  authed authedSession = true /\
  fsAnswer readOnlyEnv authedSession (mkCommand "DELE" "notes.txt") = Some (Some denied) /\
  replies (trace_of (handle readOnlyEnv (mkCommand "DELE" "notes.txt") authedSession)) =
    [(550%nat, "Insufficient permissions.")] /\
  fsAnswer emptyEnv readySession (mkCommand "LIST" "-l pub") = Some (Some missing) /\
  replies (trace_of (handle emptyEnv (mkCommand "LIST" "-l pub") readySession)) =
    [(550%nat, "No such directory.")].
Proof.
  split; [reflexivity|]. split; [reflexivity|].
  destruct (C7_filesystem_errors readOnlyEnv (mkCommand "DELE" "notes.txt")
              authedSession denied eq_refl eq_refl) as (_ & _ & Hp & _).
  destruct (C7_filesystem_errors emptyEnv (mkCommand "LIST" "-l pub")
              readySession missing eq_refl eq_refl) as (_ & _ & _ & Hn & _).
  split; [apply Hp; [discriminate | reflexivity]|].
  split; [reflexivity|].
  apply Hn; [discriminate | discriminate | reflexivity].
Defined.

(** C7 as stated fails on MKD, where a permission error is answered with
    Failed to create directory, and on STOR, where a missing path is answered
    with Error storing file. *)
Lemma C7_counterexample :
  env_Mkdir readOnlyEnv "/pub" = Some denied /\
  eclass denied = Permission /\
  handle readOnlyEnv (mkCommand "MKD" "pub") authedSession =
    (None, authedSession, [EvMkdir "/pub"; EvReply 550 "Failed to create directory."]) /\
  env_Create emptyEnv "/a/notes.txt" = inl missing /\
  eclass missing = NotExist /\
  replies (trace_of (handle emptyEnv (mkCommand "STOR" "a/notes.txt") readySession)) =
    [(550%nat, "Error storing file.")].
Proof. repeat split. Qed.

(** ** stripListFlags *)

Lemma SplitSpace_nonempty s : SplitSpace s <> [].
Proof.
  destruct s as [|c r]; simpl; [discriminate|].
  destruct (c =? " ")%char; [discriminate|].
  destruct (SplitSpace r); discriminate.
Qed.

Lemma Join_cons x l : l <> [] -> Join (x :: l) " " = x ++ " " ++ Join l " ".
Proof. destruct l; [congruence | reflexivity]. Qed.

(** Splitting at the spaces and joining with spaces gives the string back. *)
Lemma Join_SplitSpace s : Join (SplitSpace s) " " = s.
Proof.
  induction s as [|c r IH]; [reflexivity|]. simpl.
  destruct (Ascii.eqb_spec c " ") as [-> | Hc].
  - rewrite Join_cons by apply SplitSpace_nonempty. rewrite IH. reflexivity.
  - pose proof (SplitSpace_nonempty r) as Hne.
    destruct (SplitSpace r) as [|w ws]; [congruence|].
    destruct ws as [|w' ws']; simpl in *; congruence.
Qed.

Lemma SplitSpace_no_space w : hasSpace w = false -> SplitSpace w = [w].
Proof.
  induction w as [|c r IH]; [reflexivity|]. simpl.
  intros H. apply orb_false_iff in H as [Hc Hr].
  rewrite Hc, (IH Hr). reflexivity.
Qed.

Lemma SplitSpace_field w rest :
  hasSpace w = false -> SplitSpace (w ++ " " ++ rest) = w :: SplitSpace rest.
Proof.
  induction w as [|c r IH]; intros H; [reflexivity|]. simpl in *.
  apply orb_false_iff in H as [Hc Hr]. rewrite Hc, (IH Hr). reflexivity.
Qed.

(** Joining fields that hold no space and splitting again gives the fields
    back. *)
Lemma SplitSpace_Join l :
  l <> [] -> Forall (fun w => hasSpace w = false) l -> SplitSpace (Join l " ") = l.
Proof.
  induction l as [|x l IH]; [congruence|]. intros _ Hall.
  inversion Hall as [|? ? Hx Hl]; subst.
  destruct l as [|y l'].
  - apply SplitSpace_no_space, Hx.
  - rewrite Join_cons by discriminate.
    rewrite (SplitSpace_field x _ Hx). f_equal. apply IH; [discriminate | exact Hl].
Qed.

Lemma SplitSpace_fields s : Forall (fun w => hasSpace w = false) (SplitSpace s).
Proof.
  induction s as [|c r IH]; simpl; [repeat constructor|].
  destruct (c =? " ")%char eqn:Hc; [constructor; [reflexivity | exact IH]|].
  destruct (SplitSpace r) as [|w ws]; [repeat constructor; simpl; now rewrite Hc|].
  inversion IH; subst. constructor; [simpl; rewrite Hc; assumption | assumption].
Qed.

Lemma Forall_filter {A} (P : A -> Prop) f (l : list A) :
  Forall P l -> Forall P (filter f l).
Proof.
  induction 1 as [|x l Hx Hl IH]; simpl; [constructor|].
  destruct (f x); [constructor|]; assumption.
Qed.

Lemma filter_all {A} (f : A -> bool) (l : list A) :
  Forall (fun x => f x = true) l -> filter f l = l.
Proof.
  induction 1 as [|x l Hx Hl IH]; simpl; [reflexivity|]. rewrite Hx, IH. reflexivity.
Qed.

Lemma filter_Forall {A} (f : A -> bool) (l : list A) :
  Forall (fun x => f x = true) (filter f l).
Proof.
  induction l as [|x l IH]; simpl; [constructor|].
  destruct (f x) eqn:E; [constructor|]; assumption.
Qed.

(** The fields of what [stripListFlags] returns after it stripped. *)
Lemma stripped_fields s :
  flagScan s = true ->
  Forall (fun w => isFlag w = false) (SplitSpace (stripListFlags s)).
Proof.
  intros Hscan. unfold stripListFlags. rewrite Hscan.
  set (l := filter (fun w => negb (HasPrefix w "-")) (SplitSpace s)).
  assert (Hl : Forall (fun w => isFlag w = false) l).
  { pose proof (filter_Forall (fun w => negb (HasPrefix w "-")) (SplitSpace s)) as H.
    eapply Forall_impl; [|exact H]. unfold isFlag. intros w Hw.
    now apply negb_true_iff in Hw. }
  destruct l as [|x l'] eqn:El; [repeat constructor|].
  rewrite SplitSpace_Join; [exact Hl | discriminate|].
  rewrite <- El. apply Forall_filter, SplitSpace_fields.
Qed.

(** X1: When the first character of the argument that is no space is not a
    hyphen, [stripListFlags] returns the argument as it is, flags after the
    first word included; otherwise (a hyphen comes first, or there are only
    spaces) no space-separated field of the result begins with a hyphen. *)
Theorem stripListFlags_fields s :
  (flagScan s = false -> stripListFlags s = s)
  /\ (flagScan s = true ->
      forall w, In w (SplitSpace (stripListFlags s)) -> HasPrefix w "-" = false).
Proof.
  split.
  - intros H. unfold stripListFlags. rewrite H. reflexivity.
  - intros H w Hin. pose proof (stripped_fields s H) as Hall.
    rewrite Forall_forall in Hall. exact (Hall w Hin).
Qed.

Lemma stripListFlags_fields_witness :
  flagScan "-la /tmp -x" = true /\
  stripListFlags "-la /tmp -x" = "/tmp" /\
  HasPrefix "/tmp" "-" = false /\
  flagScan "pub -l" = false /\
  stripListFlags "pub -l" = "pub -l".
Proof.
  destruct (stripListFlags_fields "-la /tmp -x") as [_ H].
  destruct (stripListFlags_fields "pub -l") as [H' _].
  split; [reflexivity|]. split; [reflexivity|].
  split; [apply (H eq_refl); left; reflexivity|].
  split; [reflexivity | apply H'; reflexivity].
Defined.

(** X2: Stripping twice is stripping once. *)
Theorem stripListFlags_idempotent s :
  stripListFlags (stripListFlags s) = stripListFlags s.
Proof.
  destruct (flagScan s) eqn:Hscan.
  - pose proof (stripped_fields s Hscan) as Hall.
    set (t := stripListFlags s) in *.
    unfold stripListFlags at 1. destruct (flagScan t); [|reflexivity].
    rewrite filter_all; [apply Join_SplitSpace|].
    eapply Forall_impl; [|exact Hall]. unfold isFlag. intros w Hw.
    simpl. rewrite Hw. reflexivity.
  - unfold stripListFlags. rewrite Hscan, Hscan. reflexivity.
Qed.

Lemma only_flags_scan s : forallb isFlag (SplitSpace s) = true -> flagScan s = true.
Proof.
  destruct s as [|c r]; [reflexivity|]. simpl.
  destruct (Ascii.eqb_spec c "-") as [-> | Hc]; [reflexivity|].
  destruct (c =? " ")%char; simpl; [discriminate|].
  assert (Hf : forall w, isFlag (String c w) = false).
  { intros w. unfold isFlag, HasPrefix.
    change (prefix "-" (String c w))
      with (if ascii_dec "-" c then prefix "" w else false).
    destruct (ascii_dec "-" c); [congruence | reflexivity]. }
  destruct (SplitSpace r) as [|w ws]; simpl; rewrite Hf; discriminate.
Qed.

(** An argument made of flags only is stripped to nothing. *)
Lemma stripListFlags_only_flags s :
  forallb isFlag (SplitSpace s) = true -> stripListFlags s = "".
Proof.
  intros Hall. unfold stripListFlags. rewrite (only_flags_scan s Hall).
  rewrite forallb_forall in Hall.
  induction (SplitSpace s) as [|w ws IH]; [reflexivity|]. simpl.
  unfold isFlag in Hall. rewrite (Hall w (or_introl eq_refl)). simpl.
  apply IH. intros x Hx. apply Hall. right. exact Hx.
Qed.

(** X3: LIST and NLST handle an argument in which every space-separated
    field begins with a hyphen exactly as they handle an empty argument. *)
Theorem list_flags_only env verb arg s :
  verb = "LIST" \/ verb = "NLST" ->
  forallb isFlag (SplitSpace arg) = true ->
  handle env (mkCommand verb arg) s = handle env (mkCommand verb "") s.
Proof.
  intros Hv Hall. pose proof (stripListFlags_only_flags arg Hall) as Hs.
  assert (Hl : list_ env (mkCommand verb arg) = list_ env (mkCommand verb "")).
  { unfold list_. simpl. rewrite Hs. reflexivity. }
  unfold handle, handlePostAuth, handlePreAuth.
  destruct Hv as [-> | ->]; simpl; rewrite Hl; reflexivity.
Qed.

Lemma list_flags_only_witness :
  forallb isFlag (SplitSpace "-l -a") = true /\
  handle okEnv (mkCommand "LIST" "-l -a") readySession =
    handle okEnv (mkCommand "LIST" "") readySession.
Proof.
  split; [reflexivity|]. apply list_flags_only; [left|]; reflexivity.
Defined.

(** ** quote *)

Lemma append_inj_r (a b : string) c : a ++ String c "" = b ++ String c "" -> a = b.
Proof.
  revert b. induction a as [|x a IH]; intros [|y b] H; simpl in H.
  - reflexivity.
  - destruct b; discriminate H.
  - destruct a; discriminate H.
  - injection H as -> H. f_equal. apply IH, H.
Qed.

Lemma doubleQuotes_inj s : forall t, doubleQuotes s = doubleQuotes t -> s = t.
Proof.
  induction s as [|c r IH]; intros [|d u] H; simpl in H.
  - reflexivity.
  - destruct (d =? dquote)%char; discriminate H.
  - destruct (c =? dquote)%char; discriminate H.
  - destruct (Ascii.eqb_spec c dquote) as [-> | Hc],
             (Ascii.eqb_spec d dquote) as [-> | Hd].
    + injection H as H. f_equal. apply IH, H.
    + injection H as Hd' _. congruence.
    + injection H as Hc' _. congruence.
    + injection H as -> H. f_equal. apply IH, H.
Qed.

(** X4: [quote] is unambiguous: two paths with the same quoted form are the same
    path. *)
Theorem quote_injective s t : quote s = quote t -> s = t.
Proof.
  unfold quote. intros H. injection H as H.
  apply doubleQuotes_inj, (append_inj_r _ _ dquote), H.
Qed.

Lemma quote_injective_witness :
  quote (String dquote "a") =
    String dquote (String dquote (String dquote (String "a" (String dquote "")))) /\
  String dquote "a" = String dquote "a".
Proof.
  split; [reflexivity|]. apply quote_injective. reflexivity.
Defined.

(** ** Invariants of the loop, in general *)

Lemma iteration_state env c s :
  let r := handle env c s in
  state_of (iteration (mkTurn (inr c) env) s) = state_of r
  \/ (result_of r = None /\ state_of (iteration (mkTurn (inr c) env) s) = cleared c (state_of r)).
Proof.
  destruct (handle env c s) as [[[e|] s1] tr] eqn:Hh; cbv zeta.
  - rewrite (iteration_failed _ _ _ _ _ _ Hh). left. reflexivity.
  - rewrite (iteration_handled _ _ _ _ _ Hh).
    destruct (Cmd c =? "QUIT"); [left | right]; auto.
Qed.

Lemma iteration_trace env c s :
  trace_of (iteration (mkTurn (inr c) env) s) = trace_of (handle env c s).
Proof.
  destruct (handle env c s) as [[[e|] s1] tr] eqn:Hh.
  - rewrite (iteration_failed _ _ _ _ _ _ Hh). reflexivity.
  - rewrite (iteration_handled _ _ _ _ _ Hh). destruct (Cmd c =? "QUIT"); reflexivity.
Qed.

(** A property of the session that every command and the resets of the loop
    preserve holds all along [Handle]. *)
Lemma Handle_invariant (P : fileSession -> Prop) :
  (forall env c s, P s -> P (state_of (handle env c s))) ->
  (forall c s, P s -> P (cleared c s)) ->
  forall turns s, P s -> P (state_of (Handle turns s)).
Proof.
  intros Hh Hc. induction turns as [|[[err | c] env] rest IH]; intros s Hs.
  - exact Hs.
  - rewrite (Handle_returns _ rest _ _ _ _ (iteration_read_error env err s)). exact Hs.
  - assert (H1 : P (state_of (iteration (mkTurn (inr c) env) s))).
    { destruct (iteration_state env c s) as [-> | [_ ->]]; auto. }
    destruct (iteration (mkTurn (inr c) env) s) as [[[e|] s1] tr] eqn:Hit.
    + rewrite (Handle_returns _ rest _ _ _ _ Hit). exact H1.
    + rewrite (Handle_continues _ rest _ _ _ Hit).
      specialize (IH s1 H1). destruct (Handle rest s1) as [[r s2] tr2]. exact IH.
Qed.

(** ** No access before login *)

Lemma handlePreAuth_traffic env c s :
  authed s = false -> Forall loginTraffic (trace_of (handlePreAuth env c s)).
Proof.
  intros Ha. unfold handlePreAuth; unfold_monad; simpl. rewrite Ha.
  destruct (Cmd c =? "USER").
  { destruct (Msg c =? ""); repeat constructor. }
  destruct (Cmd c =? "PASS").
  { destruct (User (session s) =? ""); [repeat constructor|].
    destruct (hasAuthorizer (handler s)); simpl; [|repeat constructor].
    destruct (env_Authorize env _ _) as [[|] [e|]]; repeat constructor. }
  destruct (Cmd c =? "FEAT"); [repeat constructor|].
  destruct (Cmd c =? "QUIT"); repeat constructor.
Qed.

Lemma authed_back s s' : stable s s' -> authed s' = false -> authed s = false.
Proof.
  intros Hst Ha. destruct (authed s) eqn:E; [|reflexivity].
  rewrite (st_authed _ _ Hst E) in Ha. discriminate.
Qed.

(** X5: As long as a session is not logged in, it has called nothing but the
    control channel, for its replies, and the Authorizer: no file-system
    call, no file operation and no data-channel negotiation. *)
Theorem no_access_before_login turns : forall s r s' tr,
  Handle turns s = (r, s', tr) -> authed s' = false -> Forall loginTraffic tr.
Proof.
  induction turns as [|[[err | c] env] rest IH]; intros s r s' tr Hrun Ha.
  - inversion Hrun; subst. constructor.
  - rewrite (Handle_returns _ rest _ _ _ _ (iteration_read_error env err s)) in Hrun.
    inversion Hrun; subst. constructor.
  - pose proof (iteration_trace env c s) as Htr.
    pose proof (iteration_stable (mkTurn (inr c) env) s) as Hst.
    destruct (iteration (mkTurn (inr c) env) s) as [[[e|] s1] t1] eqn:Hit.
    + rewrite (Handle_returns _ rest _ _ _ _ Hit) in Hrun. inversion Hrun; subst.
      unfold state_of, trace_of in *. simpl in *.
      pose proof (authed_back _ _ Hst Ha) as Ha0.
      rewrite Htr, (handle_preauth _ _ _ Ha0). apply handlePreAuth_traffic, Ha0.
    + rewrite (Handle_continues _ rest _ _ _ Hit) in Hrun.
      pose proof (Handle_stable rest s1) as Hst2.
      destruct (Handle rest s1) as [[r2 s2] t2] eqn:Hrest.
      inversion Hrun; subst. unfold state_of, trace_of in *. simpl in *.
      pose proof (authed_back _ _ Hst2 Ha) as Ha1.
      pose proof (authed_back _ _ Hst Ha1) as Ha0.
      apply Forall_app. split.
      * rewrite Htr, (handle_preauth _ _ _ Ha0). apply handlePreAuth_traffic, Ha0.
      * eapply IH; eauto.
Qed.

Lemma no_access_before_login_witness :
  authed (state_of (Handle [mkTurn (inr (mkCommand "RETR" "notes.txt")) okEnv;
                            mkTurn (inr (mkCommand "USER" "alice")) rejectEnv;
                            mkTurn (inr (mkCommand "PASS" "guess")) rejectEnv;
                            mkTurn (inr (mkCommand "DELE" "notes.txt")) okEnv]
                      freshSession)) = false /\
  Forall loginTraffic
    [notLoggedIn; EvReply 331 "Please specify the password.";
     EvAuthorize "alice" "guess"; invalidLogin; notLoggedIn].
Proof.
  split; [reflexivity|].
  apply (no_access_before_login
           [mkTurn (inr (mkCommand "RETR" "notes.txt")) okEnv;
            mkTurn (inr (mkCommand "USER" "alice")) rejectEnv;
            mkTurn (inr (mkCommand "PASS" "guess")) rejectEnv;
            mkTurn (inr (mkCommand "DELE" "notes.txt")) okEnv]
           freshSession None freshSession); reflexivity.
Defined.

(** X6: The only way in: a session that is not logged in becomes logged in only
    by a PASS that follows an accepted USER and, when an Authorizer is
    configured, only when the Authorizer accepted that user with the
    password of the command, without an error; the session then holds that
    password and is otherwise as before. *)
Theorem login_only_by_pass env c s :
  authed s = false ->
  authed (state_of (handle env c s)) = true ->
  Cmd c = "PASS"
  /\ User (session s) <> ""
  /\ (hasAuthorizer (handler s) = true ->
      env_Authorize env (User (session s)) (Msg c) = (true, None))
  /\ state_of (handle env c s) = set_authed true (set_Password (Msg c) s).
Proof.
  intros Ha. rewrite (handle_preauth _ _ _ Ha).
  unfold handlePreAuth, state_of; unfold_monad; simpl. rewrite Ha.
  assert (Hno : authed s = true -> False) by congruence.
  destruct (String.eqb_spec (Cmd c) "USER") as [Hu | _].
  { destruct (Msg c =? ""); simpl; intros H; destruct (Hno H). }
  destruct (String.eqb_spec (Cmd c) "PASS") as [Hp | _].
  - destruct (String.eqb_spec (User (session s)) "") as [Hu | Hu];
      [simpl; intros H; destruct (Hno H)|].
    destruct (hasAuthorizer (handler s)); simpl.
    + destruct (env_Authorize env _ _) as [[|] [e|]]; simpl;
        try (intros H; destruct (Hno H)).
      intros _. repeat split; auto.
    + intros _. repeat split; auto. discriminate.
  - destruct (Cmd c =? "FEAT"); [simpl; intros H; destruct (Hno H)|].
    destruct (Cmd c =? "QUIT"); simpl; intros H; destruct (Hno H).
Qed.

Lemma login_only_by_pass_witness :
  authed aliceSession = false /\
  authed (state_of (handle okEnv (mkCommand "PASS" "secret") aliceSession)) = true /\
  env_Authorize okEnv "alice" "secret" = (true, None) /\
  state_of (handle okEnv (mkCommand "PASS" "secret") aliceSession) = authedSession.
Proof.
  split; [reflexivity|]. split; [reflexivity|].
  destruct (login_only_by_pass okEnv (mkCommand "PASS" "secret") aliceSession
              eq_refl eq_refl) as (_ & _ & Hq & Hs).
  split; [apply Hq; reflexivity | exact Hs].
Defined.

(** ** What a command keeps of the settings *)

Lemma kept_refl c s : kept c s s.
Proof. constructor; auto. Qed.

Lemma kept_trans c s1 s2 s3 : kept c s1 s2 -> kept c s2 s3 -> kept c s1 s3.
Proof.
  intros [L1 D1 T1] [L2 D2 T2]. constructor.
  - intros Ha. destruct (L1 Ha) as (Ha2 & U1 & P1).
    destruct (L2 Ha2) as (Ha3 & U2 & P2). repeat split; congruence.
  - intros H H'. rewrite D2, D1; auto.
  - intros H. rewrite T2, T1; auto.
Qed.

Ltac kept_update :=
  bool_facts; constructor; simpl; intros; auto; congruence.

Lemma handlePreAuth_kept env c : frames (kept c) (handlePreAuth env c).
Proof.
  intros s. unfold handlePreAuth, state_of; unfold_monad; simpl.
  destruct (Cmd c =? "USER").
  { destruct (authed s) eqn:Ha; [apply kept_refl|].
    destruct (Msg c =? ""); simpl; [apply kept_refl|].
    constructor; simpl; intros; auto; congruence. }
  destruct (Cmd c =? "PASS").
  { destruct (authed s) eqn:Ha; [apply kept_refl|].
    destruct (User (session s) =? ""); [apply kept_refl|].
    destruct (hasAuthorizer (handler s)); simpl.
    - destruct (env_Authorize env _ _) as [[|] [e|]]; simpl;
        constructor; simpl; intros; auto; congruence.
    - constructor; simpl; intros; auto; congruence. }
  destruct (Cmd c =? "FEAT"); [apply kept_refl|].
  destruct (Cmd c =? "QUIT"); [apply kept_refl|].
  destruct (negb (authed s)); apply kept_refl.
Qed.

Lemma retrieve_kept env c : frames (kept c) (retrieve env c).
Proof.
  unfold retrieve; unfold_calls.
  frame_steps (kept_refl c) (kept_trans c) kept_update.
Qed.

Lemma store_kept env c : frames (kept c) (store env c).
Proof.
  unfold store; unfold_calls.
  frame_steps (kept_refl c) (kept_trans c) kept_update.
Qed.

Lemma list_kept env c : frames (kept c) (list_ env c).
Proof.
  unfold list_; unfold_calls.
  frame_steps (kept_refl c) (kept_trans c) kept_update.
Qed.

Lemma stat_kept env c p : frames (kept c) (stat env p).
Proof.
  unfold stat; unfold_calls.
  frame_steps (kept_refl c) (kept_trans c) kept_update.
Qed.

#[local] Hint Resolve handlePreAuth_kept retrieve_kept store_kept list_kept stat_kept
  : frames.

Lemma handlePostAuth_kept env c : frames (kept c) (handlePostAuth env c).
Proof.
  unfold handlePostAuth, changeDir; unfold_calls.
  frame_steps (kept_refl c) (kept_trans c) kept_update.
Qed.

Lemma handle_kept env c : frames (kept c) (handle env c).
Proof.
  unfold handle.
  frame_steps (kept_refl c) (kept_trans c) kept_update;
    auto using handlePreAuth_kept, handlePostAuth_kept.
Qed.

(** ** The login is final *)

Lemma cleared_session c s : session (cleared c s) = session s.
Proof.
  unfold cleared. destruct (Cmd c =? "RNFR"), (Cmd c =? "REST"); reflexivity.
Qed.

(** X7: Once a session is logged in it stays logged in as the same user with the
    same password, whatever commands follow and whatever the collaborators
    answer: USER is then refused with 530 Cannot change user and PASS is
    answered 230 Already logged in, both without asking the Authorizer and
    without changing the session. *)
Theorem login_is_final :
  (forall turns s r s' tr,
     authed s = true -> Handle turns s = (r, s', tr) ->
     authed s' = true
     /\ User (session s') = User (session s)
     /\ Password (session s') = Password (session s))
  /\
  (forall env arg s, authed s = true ->
     handle env (mkCommand "USER" arg) s =
       (liftErr (env_Reply env 530 "Cannot change user."), s,
        [EvReply 530 "Cannot change user."]))
  /\
  (forall env arg s, authed s = true ->
     handle env (mkCommand "PASS" arg) s =
       (liftErr (env_Reply env 230 "Already logged in."), s,
        [EvReply 230 "Already logged in."])).
Proof.
  split; [|split].
  - intros turns s r s' tr Ha Hrun.
    pose proof (Handle_invariant
                  (fun x => authed x = true
                            /\ User (session x) = User (session s)
                            /\ Password (session x) = Password (session s))) as H.
    specialize (H ltac:(intros env c x (Hx & Hu & Hp);
                        destruct (kept_login _ _ _ (handle_kept env c x) Hx)
                          as (Hx' & Hu' & Hp'); repeat split; congruence)).
    specialize (H ltac:(intros c x (Hx & Hu & Hp);
                        rewrite cleared_authed, cleared_session; auto)).
    specialize (H turns s (conj Ha (conj eq_refl eq_refl))).
    rewrite Hrun in H. exact H.
  - intros env arg s Ha. rewrite (handle_postauth _ _ _ Ha).
    unfold handlePostAuth, handlePreAuth; unfold_monad; simpl. rewrite Ha. reflexivity.
  - intros env arg s Ha. rewrite (handle_postauth _ _ _ Ha).
    unfold handlePostAuth, handlePreAuth; unfold_monad; simpl. rewrite Ha. reflexivity.
Qed.

Lemma login_is_final_witness :
  authed authedSession = true /\
  User (session (state_of (Handle [mkTurn (inr (mkCommand "USER" "mallory")) okEnv;
                                   mkTurn (inr (mkCommand "PASS" "guess")) okEnv]
                             authedSession))) = "alice" /\
  handle okEnv (mkCommand "USER" "mallory") authedSession =
    (None, authedSession, [EvReply 530 "Cannot change user."]).
Proof.
  destruct login_is_final as (Hkeep & Huser & _).
  split; [reflexivity|]. split.
  - destruct (Hkeep [mkTurn (inr (mkCommand "USER" "mallory")) okEnv;
                     mkTurn (inr (mkCommand "PASS" "guess")) okEnv]
                authedSession None authedSession
                [EvReply 530 "Cannot change user."; EvReply 230 "Already logged in."]
                eq_refl eq_refl) as (_ & Hu & _).
    exact Hu.
  - apply (Huser okEnv "mallory" authedSession). reflexivity.
Defined.

(** ** The working directory *)

Lemma handle_changeDir env c s :
  authed s = true ->
  (Cmd c = "CWD" /\ Msg c <> "") \/ Cmd c = "CDUP" ->
  handle env c s =
    changeDir env (env_Path env (Dir (session s)) (if Cmd c =? "CWD" then Msg c else ".."))
      s.
Proof.
  intros Ha Hc. rewrite (handle_postauth _ _ _ Ha). destruct c as [verb arg].
  simpl in *. unfold handlePostAuth; unfold_monad.
  destruct Hc as [[-> Harg] | ->]; simpl.
  - rewrite (eqb_false_of_neq _ _ Harg).
    destruct (changeDir env _ s) as [[r s1] tr]. reflexivity.
  - destruct (changeDir env _ s) as [[r s1] tr]. reflexivity.
Qed.

(** X8: The working directory changes only by CWD and CDUP, and only to the
    resolved path that Stat has just reported as a directory, with the reply
    250.  When the argument of CWD is empty (then without any Stat), when
    Stat fails or when the path is no directory, the session is unchanged and
    the single reply is a 550. *)
Theorem working_directory env c s :
  (Cmd c <> "CWD" -> Cmd c <> "CDUP" ->
   Dir (session (state_of (handle env c s))) = Dir (session s))
  /\
  (authed s = true -> Cmd c = "CWD" -> Msg c = "" ->
   handle env c s =
     (liftErr (env_Reply env 550 "Failed to change directory."), s,
      [EvReply 550 "Failed to change directory."]))
  /\
  (authed s = true ->
   (Cmd c = "CWD" /\ Msg c <> "") \/ Cmd c = "CDUP" ->
   let path := env_Path env (Dir (session s)) (if Cmd c =? "CWD" then Msg c else "..") in
   (forall st, env_Stat env path = inr st -> IsDir st = true ->
      handle env c s =
        (liftErr (env_Reply env 250 "Directory successfully changed."),
         set_Dir path s, [EvStat path; EvReply 250 "Directory successfully changed."]))
   /\
   ((forall st, env_Stat env path = inr st -> IsDir st = false) ->
      state_of (handle env c s) = s
      /\ exists msg, trace_of (handle env c s) = [EvStat path; EvReply 550 msg])).
Proof.
  split; [|split].
  - intros H1 H2. apply (kept_dir _ _ _ (handle_kept env c s) H1 H2).
  - intros Ha Hc Hm. rewrite (handle_postauth _ _ _ Ha). destruct c as [verb arg].
    simpl in *. subst. unfold handlePostAuth; unfold_monad. reflexivity.
  - intros Ha Hc path. rewrite (handle_changeDir env c s Ha Hc). fold path.
    unfold changeDir; unfold_monad. split.
    + intros st Hst Hd. rewrite Hst. simpl. rewrite Hd. reflexivity.
    + intros Hbad. destruct (env_Stat env path) as [[[] msg]|st]; simpl;
        try (split; [reflexivity | eexists; reflexivity]).
      rewrite (Hbad st eq_refl). simpl. split; [reflexivity | eexists; reflexivity].
Qed.

Lemma working_directory_witness :
  authed authedSession = true /\
  handle dirEnv (mkCommand "CWD" "pub") authedSession =
    (None, set_Dir "/pub" authedSession,
     [EvStat "/pub"; EvReply 250 "Directory successfully changed."]) /\
  state_of (handle okEnv (mkCommand "CWD" "notes.txt") authedSession) = authedSession.
Proof.
  split; [reflexivity|].
  destruct (working_directory dirEnv (mkCommand "CWD" "pub") authedSession)
    as (_ & _ & H).
  destruct (working_directory okEnv (mkCommand "CWD" "notes.txt") authedSession)
    as (_ & _ & H').
  assert (Ha : authed authedSession = true) by reflexivity.
  assert (Hc : forall a, a <> "" ->
               (Cmd (mkCommand "CWD" a) = "CWD" /\ Msg (mkCommand "CWD" a) <> "")
               \/ Cmd (mkCommand "CWD" a) = "CDUP") by (intros a Hne; left; split; [reflexivity | exact Hne]).
  specialize (H Ha (Hc "pub" ltac:(discriminate))).
  specialize (H' Ha (Hc "notes.txt" ltac:(discriminate))).
  cbv zeta in H, H'. 
  destruct H as [H _]. 
  destruct H' as [_ H'].
  split.
  - exact (H sampleDir eq_refl eq_refl).
  - refine (proj1 (H' _)). intros st Hst.
    vm_compute in Hst. injection Hst as <-. reflexivity.
Defined.

(** ** The protection of the data channel *)

Lemma handle_PROT_state env arg s :
  let s' := state_of (handle env (mkCommand "PROT" arg) s) in
  s' = s \/ s' = set_TLS (ServerTLS (session s)) s \/ s' = set_TLS None s.
Proof.
  cbv zeta. unfold handle, handlePostAuth, handlePreAuth, state_of; unfold_monad; simpl.
  destruct (authed s) eqn:Ha; simpl; rewrite ?Ha; simpl;
    [destruct (ServerTLS (session s)); simpl;
       [destruct (arg =? "P"); simpl; [|destruct (arg =? "C"); simpl]|]|];
    first [left; reflexivity | right; left; reflexivity | right; right; reflexivity].
Qed.

Lemma handle_tlsFromServer env c s :
  tlsFromServer s -> tlsFromServer (state_of (handle env c s)).
Proof.
  unfold tlsFromServer. intros H.
  pose proof (st_server _ _ (fr_stable _ _ _ (handle_frames env c s))) as Hsrv.
  destruct (String.eqb_spec (Cmd c) "PROT") as [Hc | Hc].
  - destruct c as [verb arg]. simpl in Hc. subst verb.
    destruct (handle_PROT_state env arg s) as [E | [E | E]];
      rewrite E in *; simpl in *; auto.
  - rewrite (kept_tls _ _ _ (handle_kept env c s) Hc), Hsrv. exact H.
Qed.

(** X9: The protection of the data channel changes only by PROT, and in every
    state a session reaches from one whose protection is off it is either
    off or the TLS configuration of the server.  In an authenticated session
    PROT is answered 502 when the server has no TLS configuration; with one,
    PROT P turns the protection on with the server's configuration, PROT C
    turns it off, and any other level is refused with 504 and changes
    nothing. *)
Theorem data_protection :
  (forall env c s, Cmd c <> "PROT" ->
     TLS (session (state_of (handle env c s))) = TLS (session s))
  /\
  (forall turns s r s' tr,
     TLS (session s) = None -> Handle turns s = (r, s', tr) ->
     TLS (session s') = None \/ TLS (session s') = ServerTLS (session s))
  /\
  (forall env arg s, authed s = true -> ServerTLS (session s) = None ->
     handle env (mkCommand "PROT" arg) s =
       (liftErr (env_Reply env 502 "Not implemented."), s,
        [EvReply 502 "Not implemented."]))
  /\
  (forall env s cfg, authed s = true -> ServerTLS (session s) = Some cfg ->
     handle env (mkCommand "PROT" "P") s =
       (liftErr (env_Reply env 200 "Protection level changed."),
        set_TLS (Some cfg) s, [EvReply 200 "Protection level changed."])
     /\ handle env (mkCommand "PROT" "C") s =
          (liftErr (env_Reply env 200 "Protection level changed."),
           set_TLS None s, [EvReply 200 "Protection level changed."])
     /\ forall arg, arg <> "P" -> arg <> "C" ->
          handle env (mkCommand "PROT" arg) s =
            (liftErr (env_Reply env 504 "Unsupported protection level."), s,
             [EvReply 504 "Unsupported protection level."])).
Proof.
  split; [|split; [|split]].
  - intros env c s Hc. apply (kept_tls _ _ _ (handle_kept env c s) Hc).
  - intros turns s r s' tr Hoff Hrun.
    pose proof (Handle_invariant tlsFromServer handle_tlsFromServer) as H.
    specialize (H ltac:(intros c x Hx; unfold tlsFromServer in *;
                        rewrite cleared_session; exact Hx)).
    specialize (H turns s (or_introl Hoff)).
    pose proof (st_server _ _ (Handle_stable turns s)) as Hsrv.
    rewrite Hrun in H, Hsrv. unfold tlsFromServer, state_of in *. simpl in *.
    rewrite <- Hsrv. exact H.
  - intros env arg s Ha Hsrv. rewrite (handle_postauth _ _ _ Ha).
    unfold handlePostAuth; unfold_monad; simpl. rewrite Hsrv. reflexivity.
  - intros env s cfg Ha Hsrv. rewrite !(handle_postauth _ _ _ Ha).
    split; [|split].
    + unfold handlePostAuth; unfold_monad; simpl. rewrite Hsrv. reflexivity.
    + unfold handlePostAuth; unfold_monad; simpl. rewrite Hsrv. reflexivity.
    + intros arg HP HC. rewrite (handle_postauth _ _ _ Ha).
      unfold handlePostAuth; unfold_monad; simpl. rewrite Hsrv.
      rewrite (eqb_false_of_neq _ _ HP), (eqb_false_of_neq _ _ HC). reflexivity.
Qed.

Lemma data_protection_witness :
  authed tlsSession = true /\
  ServerTLS (session tlsSession) = Some 7%nat /\
  TLS (session (state_of (handle okEnv (mkCommand "PROT" "P") tlsSession))) = Some 7%nat /\
  TLS (session (state_of (handle okEnv (mkCommand "NOOP" "")
                            (set_TLS (Some 7%nat) tlsSession)))) = Some 7%nat.
Proof.
  destruct data_protection as (Hkeep & _ & _ & Hprot).
  split; [reflexivity|]. split; [reflexivity|]. split.
  - destruct (Hprot okEnv tlsSession 7%nat eq_refl eq_refl) as [H _].
    rewrite H. reflexivity.
  - assert (Hc : Cmd (mkCommand "NOOP" "") <> "PROT") by discriminate.
    rewrite (Hkeep okEnv (mkCommand "NOOP" "") (set_TLS (Some 7%nat) tlsSession) Hc).
    reflexivity.
Defined.

(** ** Refused arguments *)

(** X10: In an authenticated session, a command whose argument is refused at once
    gets that single reply and nothing else happens: no collaborator but the
    control channel is called and the session is unchanged. *)
Theorem refused_argument env c s code msg :
  authed s = true ->
  refusal env s c = Some (code, msg) ->
  handle env c s = (liftErr (env_Reply env code msg), s, [EvReply code msg]).
Proof.
  intros Ha Href. rewrite (handle_postauth _ _ _ Ha). destruct c as [verb arg].
  unfold refusal in Href. simpl in Href.
  destruct (String.eqb_spec verb "CWD") as [-> | N1].
  { destruct (arg =? "") eqn:Harg; [|discriminate]. inversion Href; subst.
    unfold handlePostAuth; unfold_monad; simpl. rewrite Harg. reflexivity. }
  destruct (String.eqb_spec verb "DELE") as [-> | N2].
  { simpl in Href. destruct (arg =? "") eqn:Harg; [|discriminate]. inversion Href; subst.
    unfold handlePostAuth; unfold_monad; simpl. rewrite Harg. reflexivity. }
  destruct (String.eqb_spec verb "RMD") as [-> | N3].
  { simpl in Href. destruct (arg =? "") eqn:Harg; [|discriminate]. inversion Href; subst.
    unfold handlePostAuth; unfold_monad; simpl. rewrite Harg. reflexivity. }
  destruct (String.eqb_spec verb "RNFR") as [-> | N4].
  { simpl in Href. destruct (arg =? "") eqn:Harg; [|discriminate]. inversion Href; subst.
    unfold handlePostAuth; unfold_monad; simpl. rewrite Harg. reflexivity. }
  destruct (String.eqb_spec verb "RNTO") as [-> | N5].
  { simpl in Href. destruct (arg =? "") eqn:Harg; [|discriminate]. inversion Href; subst.
    unfold handlePostAuth; unfold_monad; simpl. rewrite Harg. reflexivity. }
  simpl in Href.
  destruct (String.eqb_spec verb "EPSV") as [-> | N6].
  { destruct (ToUpper arg =? "ALL") eqn:Hall; [discriminate|].
    destruct (arg =? "1") eqn:H1; [discriminate|].
    destruct (arg =? "2") eqn:H2; [discriminate|].
    destruct (arg =? "") eqn:H0; [discriminate|]. simpl in Href. inversion Href; subst.
    unfold handlePostAuth; unfold_monad; simpl. rewrite Hall, H1, H2, H0. reflexivity. }
  destruct (String.eqb_spec verb "PORT") as [-> | N7].
  { destruct (epsvOnly s) eqn:Hl; [discriminate|].
    destruct (env_ParsePORT env arg) as [e|a] eqn:Hp; [|discriminate].
    inversion Href; subst.
    unfold handlePostAuth; unfold_monad; simpl. rewrite Hl, Hp. reflexivity. }
  destruct (String.eqb_spec verb "EPRT") as [-> | N8].
  { destruct (epsvOnly s) eqn:Hl; [discriminate|].
    destruct (env_ParseEPRT env arg) as [e|a] eqn:Hp; [|discriminate].
    inversion Href; subst.
    unfold handlePostAuth; unfold_monad; simpl. rewrite Hl, Hp. reflexivity. }
  destruct (String.eqb_spec verb "PBSZ") as [-> | N9].
  { destruct (ServerTLS (session s)) as [cfg|] eqn:Hsrv; [|discriminate].
    destruct (arg =? "0") eqn:H0; [discriminate|]. inversion Href; subst.
    unfold handlePostAuth; unfold_monad; simpl. rewrite Hsrv, H0. reflexivity. }
  destruct (String.eqb_spec verb "OPTS") as [-> | N10]; [|discriminate].
  destruct (ToUpper arg =? "UTF8 ON") eqn:Hu; [discriminate|]. inversion Href; subst.
  unfold handlePostAuth; unfold_monad; simpl. rewrite Hu. reflexivity.
Qed.

Lemma refused_argument_witness :
  authed authedSession = true /\
  refusal strictEnv authedSession (mkCommand "PORT" "1,2,3") = Some (501%nat, "Invalid syntax.") /\
  handle strictEnv (mkCommand "PORT" "1,2,3") authedSession =
    (None, authedSession, [EvReply 501 "Invalid syntax."]) /\
  handle okEnv (mkCommand "EPSV" "3") authedSession =
    (None, authedSession, [EvReply 522 "Unsupported protocol."]).
Proof.
  split; [reflexivity|]. split; [reflexivity|]. split.
  - apply (refused_argument strictEnv (mkCommand "PORT" "1,2,3") authedSession);
      reflexivity.
  - apply (refused_argument okEnv (mkCommand "EPSV" "3") authedSession); reflexivity.
Defined.

(** ** DELE and RMD *)

(** X11: DELE and RMD are one operation: with the same argument they do the same
    in every state and with every answer of the collaborators. *)
Theorem dele_is_rmd env arg s :
  handle env (mkCommand "DELE" arg) s = handle env (mkCommand "RMD" arg) s.
Proof.
  unfold handle, handlePostAuth, handlePreAuth. simpl. reflexivity.
Qed.

(** ** QUIT *)

(** X12: QUIT ends the session in every state, logged in or not: it writes the
    reply 211 Goodbye, changes nothing, and [Handle] returns without reading
    another command, with io.EOF or, when the reply could not be written,
    with the error of the write. *)
Theorem quit_ends_session env arg rest s :
  Handle (mkTurn (inr (mkCommand "QUIT" arg)) env :: rest) s =
    (Some match env_Reply env 211 "Goodbye." with
          | None => io_EOF
          | Some e => Ext e
          end, s, [EvReply 211 "Goodbye."]).
Proof.
  assert (Hh : handle env (mkCommand "QUIT" arg) s =
               (liftErr (env_Reply env 211 "Goodbye."), s, [EvReply 211 "Goodbye."])).
  { unfold handle, handlePostAuth, handlePreAuth; unfold_monad; simpl.
    destruct (authed s); reflexivity. }
  apply Handle_returns. destruct (env_Reply env 211 "Goodbye.") as [e|] eqn:Hr.
  - apply iteration_failed. exact Hh.
  - rewrite (iteration_handled _ _ _ _ _ Hh). reflexivity.
Qed.

(** ** FEAT *)

(** X13: FEAT is answered in every state, logged in or not, with one 211 reply
    and no other effect.  The reply lists the keywords in increasing byte
    order, between the lines Extensions supported and End; EPRT, EPSV, MDTM,
    PASV, REST STREAM, SIZE and UTF8 are always among them, and PBSZ and PROT
    exactly when the server has a TLS configuration. *)
Theorem feat_reply env arg s :
  let kw := features s in
  handle env (mkCommand "FEAT" arg) s =
    (liftErr (env_Reply env 211 (Join (["Extensions supported:"] ++ kw ++ ["End."]) newline)),
     s, [EvReply 211 (Join (["Extensions supported:"] ++ kw ++ ["End."]) newline)])
  /\ isSorted kw = true
  /\ (forall k, In k ["EPRT"; "EPSV"; "MDTM"; "PASV"; "REST STREAM"; "SIZE"; "UTF8"] ->
      In k kw)
  /\ (forall k, k = "PBSZ" \/ k = "PROT" ->
      (In k kw <-> ServerTLS (session s) <> None)).
Proof.
  cbv zeta. split.
  - unfold handle, handlePostAuth, handlePreAuth; unfold_monad; simpl.
    destruct (authed s); reflexivity.
  - unfold features. destruct (ServerTLS (session s)) as [cfg|].
    + split; [reflexivity|]. split.
      * intros k Hk. simpl in *. tauto.
      * intros k [-> | ->]; split; intros _; simpl; try discriminate; tauto.
    + split; [reflexivity|]. split.
      * intros k Hk. simpl in *. tauto.
      * intros k [-> | ->]; split; intros H; try congruence; simpl in H;
          repeat destruct H as [H | H]; try discriminate H; destruct H.
Qed.

(** ** Running the loop in two parts *)


(** ** RNFR and then RNTO *)

Lemma handle_RNFR env arg s :
  authed s = true -> arg <> "" ->
  handle env (mkCommand "RNFR" arg) s =
    (liftErr (env_Reply env 350 "Call RNTO to specify destination."),
     set_renaming (env_Path env (Dir (session s)) arg) s,
     [EvReply 350 "Call RNTO to specify destination."]).
Proof.
  intros Ha Harg. rewrite (handle_postauth _ _ _ Ha).
  unfold handlePostAuth; unfold_monad; simpl.
  rewrite (eqb_false_of_neq _ _ Harg). reflexivity.
Qed.

Lemma handle_RNTO env arg s :
  authed s = true -> arg <> "" -> renaming s <> "" ->
  let new := env_Path env (Dir (session s)) arg in
  let reply := renameReply (env_Rename env (renaming s) new) in
  handle env (mkCommand "RNTO" arg) s =
    (liftErr (env_Reply env (fst reply) (snd reply)), s,
     [EvRename (renaming s) new; replyEvent reply]).
Proof.
  intros Ha Harg Hren. cbv zeta. rewrite (handle_postauth _ _ _ Ha).
  unfold handlePostAuth; unfold_monad; simpl.
  rewrite (eqb_false_of_neq _ _ Harg), (eqb_false_of_neq _ _ Hren).
  destruct (env_Rename env _ _) as [[[] m]|]; reflexivity.
Qed.

(** X15: RNFR and then RNTO, in an authenticated session and with non-empty
    arguments, call Rename exactly once, from the path resolved at RNFR to
    the path resolved at RNTO, provided the resolved source is not the empty
    string and the reply 350 was written; the reply that ends RNTO is chosen
    from Rename's answer, and when it is written the loop goes on with no
    rename pending.  A refused RNFR with an empty argument between the two
    does not cancel the pending source. *)
Theorem rename_sequence env1 env2 src dst s :
  authed s = true -> src <> "" -> dst <> "" ->
  let old := env_Path env1 (Dir (session s)) src in
  let new := env_Path env2 (Dir (session s)) dst in
  let reply := renameReply (env_Rename env2 old new) in
  let rnfr := mkTurn (inr (mkCommand "RNFR" src)) env1 in
  let rnto := mkTurn (inr (mkCommand "RNTO" dst)) env2 in
  old <> "" ->
  env_Reply env1 350 "Call RNTO to specify destination." = None ->
  (trace_of (Handle [rnfr; rnto] s) =
     [EvReply 350 "Call RNTO to specify destination."; EvRename old new; replyEvent reply]
   /\ (env_Reply env2 (fst reply) (snd reply) = None ->
       result_of (Handle [rnfr; rnto] s) = None
       /\ renaming (state_of (Handle [rnfr; rnto] s)) = ""))
  /\
  (forall envm,
     env_Reply envm 501 "A file name is required." = None ->
     trace_of (Handle [rnfr; mkTurn (inr (mkCommand "RNFR" "")) envm; rnto] s) =
       [EvReply 350 "Call RNTO to specify destination."; fileNameRequired;
        EvRename old new; replyEvent reply]).
Proof.
  intros Ha Hsrc Hdst old new reply rnfr rnto Hold Hw.
  pose proof (handle_RNFR env1 src s Ha Hsrc) as H1. rewrite Hw in H1.
  pose proof (iteration_handled _ _ _ _ _ H1) as I1. simpl in I1.
  fold old in I1. unfold cleared in I1. simpl in I1.
  set (s1 := set_restart 0 (set_renaming old s)) in *.
  assert (Ha1 : authed s1 = true) by exact Ha.
  assert (Hr1 : renaming s1 <> "") by exact Hold.
  pose proof (handle_RNTO env2 dst s1 Ha1 Hdst Hr1) as H2. cbv zeta in H2.
  change (renaming s1) with old in H2.
  change (env_Path env2 (Dir (session s1)) dst) with new in H2. fold reply in H2.
  split.
  - subst rnfr rnto. rewrite (Handle_continues _ _ _ _ _ I1).
    destruct (env_Reply env2 (fst reply) (snd reply)) as [e|] eqn:Hw2.
    + rewrite (Handle_returns _ _ _ _ _ _ (iteration_failed _ _ _ _ _ _ H2)).
      split; [reflexivity | discriminate].
    + pose proof (iteration_handled _ _ _ _ _ H2) as I2. simpl in I2.
      rewrite (Handle_continues _ _ _ _ _ I2). simpl.
      split; [reflexivity|]. intros _. split; reflexivity.
  - intros envm Hwm. subst rnfr rnto. rewrite (Handle_continues _ _ _ _ _ I1).
    assert (Hm : handle envm (mkCommand "RNFR" "") s1 =
                 (None, s1, [fileNameRequired])).
    { rewrite (handle_postauth _ _ _ Ha1).
      unfold handlePostAuth; unfold_monad; simpl. rewrite Hwm. reflexivity. }
    pose proof (iteration_handled _ _ _ _ _ Hm) as Im. simpl in Im.
    unfold cleared in Im. simpl in Im.
    change (set_restart 0 s1) with s1 in Im.
    rewrite (Handle_continues _ _ _ _ _ Im).
    destruct (env_Reply env2 (fst reply) (snd reply)) as [e|] eqn:Hw2.
    + rewrite (Handle_returns _ _ _ _ _ _ (iteration_failed _ _ _ _ _ _ H2)).
      reflexivity.
    + pose proof (iteration_handled _ _ _ _ _ H2) as I2. simpl in I2.
      rewrite (Handle_continues _ _ _ _ _ I2). reflexivity.
Qed.

Lemma rename_sequence_witness :
  authed authedSession = true /\
  Handle [mkTurn (inr (mkCommand "RNFR" "a.txt")) okEnv;
          mkTurn (inr (mkCommand "RNTO" "b.txt")) okEnv] authedSession =
    (None, authedSession,
     [EvReply 350 "Call RNTO to specify destination."; EvRename "/a.txt" "/b.txt";
      EvReply 250 "Successfully renamed file."]) /\
  trace_of (Handle [mkTurn (inr (mkCommand "RNFR" "a.txt")) okEnv;
                    mkTurn (inr (mkCommand "RNTO" "b.txt")) readOnlyEnv] authedSession) =
    [EvReply 350 "Call RNTO to specify destination."; EvRename "/a.txt" "/b.txt";
     EvReply 550 "Insufficient permissions."].
Proof.
  split; [reflexivity|]. split; [reflexivity|].
  assert (Hs : "a.txt" <> "") by discriminate.
  assert (Hd : "b.txt" <> "") by discriminate.
  assert (Ho : env_Path okEnv (Dir (session authedSession)) "a.txt" <> "") by discriminate.
  pose proof (rename_sequence okEnv readOnlyEnv "a.txt" "b.txt" authedSession
                eq_refl Hs Hd Ho eq_refl) as [[H _] _].
  exact H.
Defined.

(** ** Every command is answered *)

Lemma settles_Reply env code msg : settles env (Reply env code msg).
Proof.
  intros s. left. exists [], code, msg. split; reflexivity.
Qed.

Lemma settles_bind {A} env (m : M A) (k : A -> M (option error)) :
  (forall a, settles env (k a)) -> settles env (bind m k).
Proof.
  intros Hk s. unfold bind. destruct (m s) as [[a s1] t1].
  specialize (Hk a s1). destruct (k a s1) as [[b s2] t2].
  unfold answered, authorizerFailed, trace_of, result_of in *. simpl in *.
  destruct Hk as [(tr & code & msg & Ht & Hr) | (u & p & e & Hin & He & Hr)].
  - left. exists (t1 ++ tr)%list, code, msg. rewrite Ht, app_assoc. auto.
  - right. exists u, p, e. repeat split; auto. apply in_or_app. right. exact Hin.
Qed.

Ltac settle_steps :=
  repeat (cbv beta; lazymatch goal with
    | |- settles _ (Reply _ _ _) => apply settles_Reply
    | |- settles _ (bind _ _) => apply settles_bind; intro
    | |- settles _ (if ?b then _ else _) => destruct b
    | |- settles _ (match ?x with _ => _ end) => destruct x
    | |- settles _ (let _ := _ in _) => cbv zeta
    | |- settles _ _ => solve [auto with frames]
    end).

Lemma handlePreAuth_settles env c : settles env (handlePreAuth env c).
Proof.
  unfold handlePreAuth. apply settles_bind. intros s0.
  destruct (Cmd c =? "USER"); [settle_steps|].
  destruct (Cmd c =? "PASS"); [|settle_steps].
  destruct (authed s0); [settle_steps|].
  destruct (User (session s0) =? ""); [settle_steps|]. cbv zeta.
  destruct (hasAuthorizer (handler s0)); [|settle_steps].
  intros s. unfold_monad; simpl.
  destruct (env_Authorize env (User (session s0)) (Msg c)) as [ok [e|]] eqn:Hans; simpl.
  - right. exists (User (session s0)), (Msg c), e.
    unfold trace_of, result_of. simpl. rewrite Hans. auto.
  - destruct ok; simpl.
    + left. exists [EvAuthorize (User (session s0)) (Msg c)], 230%nat, "Login successful.".
      split; reflexivity.
    + left. exists [EvAuthorize (User (session s0)) (Msg c)], 430%nat,
                   "Invalid user name or password.".
      split; reflexivity.
Qed.

#[local] Hint Resolve handlePreAuth_settles : frames.

Lemma handlePostAuth_settles env c : settles env (handlePostAuth env c).
Proof.
  unfold handlePostAuth, changeDir. settle_steps.
Qed.

(** X16: Handling a command ends in one of two ways.  Either its last call writes
    a reply and the handler returns what that write returned, or the
    Authorizer was asked and failed and the handler returns its error.  Hence
    with a control channel that takes every reply and an Authorizer that does
    not fail, no command makes the handler return an error, whatever the
    file system, the opened files and the data channel answer. *)
Theorem command_is_answered env c s :
  (answered env (handle env c s) \/ authorizerFailed env (handle env c s))
  /\ ((forall code msg, env_Reply env code msg = None) ->
      (forall user pass, snd (env_Authorize env user pass) = None) ->
      result_of (handle env c s) = None).
Proof.
  assert (H : settles env (handle env c)).
  { unfold handle. apply settles_bind. intros s0.
    destruct (negb (authed s0));
      [apply handlePreAuth_settles | apply handlePostAuth_settles]. }
  split; [apply H|]. intros Hw Hauth.
  destruct (H s) as [(tr & code & msg & _ & Hr) | (u & p & e & _ & He & _)].
  - rewrite Hr, Hw. reflexivity.
  - rewrite Hauth in He. discriminate.
Qed.

Lemma command_is_answered_witness :
  (forall code msg, env_Reply emptyEnv code msg = None) /\
  (forall user pass, snd (env_Authorize emptyEnv user pass) = None) /\
  result_of (handle emptyEnv (mkCommand "RETR" "notes.txt") readySession) = None /\
  replies (trace_of (handle emptyEnv (mkCommand "RETR" "notes.txt") readySession)) =
    [(550%nat, "No such file.")].
Proof.
  assert (Hw : forall code msg, env_Reply emptyEnv code msg = None) by reflexivity.
  assert (Ha : forall user pass, snd (env_Authorize emptyEnv user pass) = None)
    by reflexivity.
  split; [exact Hw|]. split; [exact Ha|]. split; [|reflexivity].
  exact (proj2 (command_is_answered emptyEnv (mkCommand "RETR" "notes.txt") readySession)
               Hw Ha).
Defined.

(** ** HELP and the dispatcher *)

Lemma helpVerbs_value :
  helpVerbs =
    ["CDUP"; "CWD"; "DELE"; "EPRT"; "EPSV"; "FEAT"; "HELP"; "LIST"; "MDTM"; "MKD";
     "MODE"; "NLST"; "NOOP"; "OPTS"; "PASS"; "PASV"; "PBSZ"; "PORT"; "PROT"; "PWD";
     "QUIT"; "REST"; "RETR"; "RMD"; "RNFR"; "RNTO"; "SIZE"; "STAT"; "STOR"; "SYST";
     "TYPE"; "USER"].
Proof. vm_compute. reflexivity. Qed.

Lemma never502_ret {A} (a : A) : never502 (ret a).
Proof. intros s msg []. Qed.

Lemma never502_get : never502 get.
Proof. intros s msg []. Qed.

Lemma never502_modify f : never502 (modify f).
Proof. intros s msg []. Qed.

Lemma never502_emit ev : (forall msg, ev <> EvReply 502 msg) -> never502 (emit ev).
Proof. intros H s msg [E | []]. exact (H msg E). Qed.

Lemma never502_bind {A B} (m : M A) (k : A -> M B) :
  never502 m -> (forall a, never502 (k a)) -> never502 (bind m k).
Proof.
  intros Hm Hk s msg. unfold bind. specialize (Hm s msg).
  destruct (m s) as [[a s1] t1]. specialize (Hk a s1 msg).
  destruct (k a s1) as [[b s2] t2]. unfold trace_of in *. simpl in *.
  intros Hin. apply in_app_or in Hin. tauto.
Qed.

(** Follows a handler; [tac] is tried where a branch has to be excluded. *)
Ltac quiet_steps tac :=
  repeat (cbv beta; lazymatch goal with
    | |- never502 (ret _) => apply never502_ret
    | |- never502 get => apply never502_get
    | |- never502 (modify _) => apply never502_modify
    | |- never502 (emit _) =>
        first [ apply never502_emit; intros ? ?; discriminate | exfalso; tac ]
    | |- never502 (bind _ _) => apply never502_bind; [|intro]
    | |- never502 (if ?b then _ else _) => destruct b eqn:?
    | |- never502 (match ?x with _ => _ end) => destruct x eqn:?
    | |- never502 (let _ := _ in _) => cbv zeta
    | |- never502 _ => solve [auto with frames | tac]
    end).

Lemma retrieve_never502 env c : never502 (retrieve env c).
Proof. unfold retrieve; unfold_calls. quiet_steps fail. Qed.

Lemma store_never502 env c : never502 (store env c).
Proof. unfold store; unfold_calls. quiet_steps fail. Qed.

Lemma list_never502 env c : never502 (list_ env c).
Proof. unfold list_; unfold_calls. quiet_steps fail. Qed.

Lemma stat_never502 env p : never502 (stat env p).
Proof. unfold stat; unfold_calls. quiet_steps fail. Qed.

Lemma handlePreAuth_never502 env c :
  Cmd c = "USER" \/ Cmd c = "PASS" \/ Cmd c = "FEAT" \/ Cmd c = "QUIT" ->
  never502 (handlePreAuth env c).
Proof.
  intros Hc. unfold handlePreAuth; unfold_calls.
  quiet_steps ltac:(bool_facts;
                    repeat match goal with
                           | H : (_ =? _) = false |- _ => apply String.eqb_neq in H
                           end;
                    intuition congruence).
Qed.

#[local] Hint Resolve retrieve_never502 store_never502 list_never502 stat_never502
  : frames.

Lemma bind_get_trace {B} (k : fileSession -> M B) s :
  trace_of (bind get k s) = trace_of (k s s).
Proof. unfold bind, get. destruct (k s s) as [[b s2] t2]. reflexivity. Qed.

Lemma never502_apply {A} (m : M A) s msg :
  never502 m -> ~ In (EvReply 502 msg) (trace_of (m s)).
Proof. intros H. apply H. Qed.

(** The post-authentication table on a verb that HELP lists. *)
Lemma handlePostAuth_never502 env c s :
  In (Cmd c) helpVerbs ->
  (Cmd c = "PBSZ" \/ Cmd c = "PROT" -> ServerTLS (session s) <> None) ->
  forall msg, ~ In (EvReply 502 msg) (trace_of (handlePostAuth env c s)).
Proof.
  intros Hin Htls msg. unfold handlePostAuth. rewrite bind_get_trace.
  apply never502_apply. unfold changeDir; unfold_calls.
  quiet_steps ltac:(first
    [ (* PBSZ and PROT without TLS are excluded by the hypothesis *)
      bool_facts; apply Htls; [auto | reflexivity]
    | (* the default case: the verb is one of the four of handlePreAuth *)
      apply handlePreAuth_never502;
      rewrite helpVerbs_value in Hin; simpl in Hin;
      repeat match goal with
             | H : (_ =? _) = false |- _ => apply String.eqb_neq in H
             | H : (_ || _)%bool = false |- _ => apply orb_false_iff in H as [? ?]
             end;
      intuition congruence ]).
Qed.

(** X17: Once logged in, a command is answered 502 Not implemented, and nothing
    else happens, when its verb is not one of the 32 verbs that the text of
    HELP lists; a command with one of those verbs never gets a 502, except
    PBSZ and PROT on a server without TLS configuration. *)
Theorem help_lists_the_verbs env c s :
  authed s = true ->
  (~ In (Cmd c) helpVerbs ->
   handle env c s =
     (liftErr (env_Reply env 502 "Not implemented."), s,
      [EvReply 502 "Not implemented."]))
  /\
  (In (Cmd c) helpVerbs ->
   (Cmd c = "PBSZ" \/ Cmd c = "PROT" -> ServerTLS (session s) <> None) ->
   forall msg, ~ In (EvReply 502 msg) (trace_of (handle env c s))).
Proof.
  intros Ha. rewrite (handle_postauth _ _ _ Ha). split.
  - intros Hout.
    assert (Hne : forall v, In v helpVerbs -> (Cmd c =? v) = false).
    { intros v Hv. apply String.eqb_neq. intros E. apply Hout. rewrite E. exact Hv. }
    rewrite helpVerbs_value in Hne.
    unfold handlePostAuth, handlePreAuth, bind, get.
    repeat match goal with
           | |- context [Cmd c =? ?v] => rewrite (Hne v) by (simpl; tauto)
           end.
    cbn [orb]. cbv iota beta. rewrite Ha. reflexivity.
  - apply handlePostAuth_never502.
Qed.

Lemma help_lists_the_verbs_witness :
  authed authedSession = true /\
  ~ In "SITE" helpVerbs /\
  handle okEnv (mkCommand "SITE" "CHMOD 644 notes.txt") authedSession =
    (None, authedSession, [EvReply 502 "Not implemented."]) /\
  In "MDTM" helpVerbs /\
  (forall msg, ~ In (EvReply 502 msg)
                 (trace_of (handle okEnv (mkCommand "MDTM" "notes.txt") authedSession))).
Proof.
  assert (Hsite : ~ In "SITE" helpVerbs).
  { rewrite helpVerbs_value. simpl. intuition discriminate. }
  assert (Hmdtm : In "MDTM" helpVerbs).
  { rewrite helpVerbs_value. simpl. tauto. }
  split; [reflexivity|]. split; [exact Hsite|].
  destruct (help_lists_the_verbs okEnv (mkCommand "SITE" "CHMOD 644 notes.txt")
              authedSession eq_refl) as [H _].
  destruct (help_lists_the_verbs okEnv (mkCommand "MDTM" "notes.txt")
              authedSession eq_refl) as [_ H'].
  split; [exact (H Hsite)|]. split; [exact Hmdtm|].
  apply (H' Hmdtm). intros [E | E]; discriminate E.
Defined.

(** ** Printing and reading back a number *)

Lemma uint_acc_value d : forall acc,
  Z.pos (Pos.of_uint_acc d acc) = decimalValue (NilEmpty.string_of_uint d) (Z.pos acc).
Proof.
  induction d as [|d IH|d IH|d IH|d IH|d IH|d IH|d IH|d IH|d IH|d IH]; intros acc;
    [reflexivity|..];
    cbn [Pos.of_uint_acc NilEmpty.string_of_uint decimalValue];
    rewrite IH; f_equal; vm_compute digitVal; cbv iota; lia.
Qed.

Lemma uint_value d :
  Z.of_N (Pos.of_uint d) = decimalValue (NilEmpty.string_of_uint d) 0.
Proof.
  induction d as [|d IH|d IH|d IH|d IH|d IH|d IH|d IH|d IH|d IH|d IH];
    [reflexivity|exact IH|..];
    cbn [Pos.of_uint NilEmpty.string_of_uint decimalValue Z.of_N];
    rewrite uint_acc_value; reflexivity.
Qed.

Lemma uint_allDigits d : allDigits (NilEmpty.string_of_uint d) = true.
Proof.
  induction d as [|d IH|d IH|d IH|d IH|d IH|d IH|d IH|d IH|d IH|d IH];
    [reflexivity|..]; cbn [NilEmpty.string_of_uint allDigits]; rewrite IH; reflexivity.
Qed.

Lemma digit_no_sign c :
  isDigit c = true -> (c =? "+")%char = false /\ (c =? "-")%char = false.
Proof.
  destruct c as [[] [] [] [] [] [] [] []]; vm_compute; intros H;
    try discriminate H; split; reflexivity.
Qed.

(** A string of digits, the first included, denotes its value. *)
Lemma decimalOf_digits s :
  s <> "" -> allDigits s = true -> decimalOf s = Some (decimalValue s 0).
Proof.
  destruct s as [|c r]; [congruence|]. intros _ Hall.
  assert (Hc : isDigit c = true).
  { simpl in Hall. apply andb_true_iff in Hall. tauto. }
  destruct (digit_no_sign c Hc) as [Hp Hm].
  unfold decimalOf. rewrite Hp, Hm. cbn [orb]. cbv iota. rewrite Hall. reflexivity.
Qed.

Lemma pos_string_nonempty p : NilEmpty.string_of_uint (Pos.to_uint p) <> "".
Proof.
  pose proof (DecimalPos.Unsigned.to_uint_nonnil p) as H.
  destruct (Pos.to_uint p); [congruence|..]; discriminate.
Qed.

Lemma pos_string_zero p :
  NilZero.string_of_uint (Pos.to_uint p) = NilEmpty.string_of_uint (Pos.to_uint p).
Proof.
  pose proof (DecimalPos.Unsigned.to_uint_nonnil p) as H.
  destruct (Pos.to_uint p); [congruence|..]; reflexivity.
Qed.

Lemma pos_string_value p :
  decimalValue (NilEmpty.string_of_uint (Pos.to_uint p)) 0 = Z.pos p.
Proof.
  rewrite <- uint_value, DecimalPos.Unsigned.of_to. reflexivity.
Qed.

(** What [FormatInt] prints denotes the number printed. *)
Lemma decimalOf_FormatInt z : decimalOf (FormatInt z) = Some z.
Proof.
  unfold FormatInt. destruct z as [|p|p]; [reflexivity|..];
    cbn [Z.to_int NilZero.string_of_int]; rewrite pos_string_zero.
  - rewrite decimalOf_digits by (apply pos_string_nonempty || apply uint_allDigits).
    rewrite pos_string_value. reflexivity.
  - unfold decimalOf. cbn [Ascii.eqb Bool.eqb orb andb]. cbv iota.
    pose proof (pos_string_nonempty p) as Hne.
    destruct (NilEmpty.string_of_uint (Pos.to_uint p)) as [|c r] eqn:E; [congruence|].
    rewrite <- E, uint_allDigits, pos_string_value. reflexivity.
Qed.

(** X18: REST takes back every offset it can hold: the decimal rendering of a
    number from 0 to 2^63 - 1, which is how the reply 350 shows the offset,
    is accepted as the argument of REST and records that same number. *)
Theorem rest_reads_its_echo env n s :
  authed s = true -> (0 <= n < 2 ^ 63)%Z ->
  handle env (mkCommand "REST" (FormatInt n)) s =
    (liftErr (env_Reply env 350 ("Restart position accepted (" ++ FormatInt n ++ ").")),
     set_restart n s, [restartAccepted n]).
Proof.
  intros Ha Hn. apply REST_accepts; [exact Ha | apply decimalOf_FormatInt | exact Hn].
Qed.

Lemma rest_reads_its_echo_witness :
  authed authedSession = true /\
  (0 <= 9223372036854775807 < 2 ^ 63)%Z /\
  handle okEnv (mkCommand "REST" "9223372036854775807") authedSession =
    (None, set_restart 9223372036854775807 authedSession,
     [restartAccepted 9223372036854775807]).
Proof.
  assert (Hn : (0 <= 9223372036854775807 < 2 ^ 63)%Z) by (split; [lia | reflexivity]).
  split; [reflexivity|]. split; [exact Hn|].
  exact (rest_reads_its_echo okEnv 9223372036854775807%Z authedSession eq_refl Hn).
Defined.

(** X19: The reply of SIZE on a file is 213 with a text that denotes the size of
    the file as a decimal numeral, whatever the size. *)
Theorem size_reply_denotes_size env arg s st :
  authed s = true ->
  env_Stat env (env_Path env (Dir (session s)) arg) = inr st ->
  IsDir st = false ->
  exists text,
    replies (trace_of (handle env (mkCommand "SIZE" arg) s)) = [(213%nat, text)]
    /\ decimalOf text = Some (Size st).
Proof.
  intros Ha Hst Hd. exists (FormatInt (Size st)).
  rewrite (handle_SIZE env arg s Ha). cbv zeta. rewrite Hst. simpl. rewrite Hd.
  split; [reflexivity | apply decimalOf_FormatInt].
Qed.

Lemma size_reply_denotes_size_witness :
  authed authedSession = true /\
  env_Stat okEnv "/notes.txt" = inr sampleFile /\
  IsDir sampleFile = false /\
  exists text,
    replies (trace_of (handle okEnv (mkCommand "SIZE" "notes.txt") authedSession)) =
      [(213%nat, text)]
    /\ decimalOf text = Some 1234%Z.
Proof.
  split; [reflexivity|]. split; [reflexivity|]. split; [reflexivity|].
  exact (size_reply_denotes_size okEnv "notes.txt" authedSession sampleFile
           eq_refl eq_refl eq_refl).
Defined.

(** ** Login without an Authorizer *)

(** X20: Without an Authorizer every login is accepted: in a session that is not
    logged in, USER with a non-empty name followed by PASS with any password
    logs the session in as that user with that password, without any call
    but the two replies, provided the replies are written. *)
Theorem login_without_authorizer env1 env2 user pass s :
  authed s = false ->
  hasAuthorizer (handler s) = false ->
  user <> "" ->
  env_Reply env1 331 "Please specify the password." = None ->
  env_Reply env2 230 "Login successful." = None ->
  Handle [mkTurn (inr (mkCommand "USER" user)) env1;
          mkTurn (inr (mkCommand "PASS" pass)) env2] s =
    (None,
     set_restart 0 (set_renaming "" (set_authed true (set_Password pass (set_User user s)))),
     [EvReply 331 "Please specify the password."; loginOk]).
Proof.
  intros Ha Hh Hu Hw1 Hw2.
  assert (H1 : handle env1 (mkCommand "USER" user) s =
               (None, set_User user s, [EvReply 331 "Please specify the password."])).
  { rewrite (handle_preauth _ _ _ Ha).
    unfold handlePreAuth; unfold_monad; simpl.
    rewrite Ha, (eqb_false_of_neq _ _ Hu), Hw1. reflexivity. }
  pose proof (iteration_handled _ _ _ _ _ H1) as I1. simpl in I1.
  unfold cleared in I1. simpl in I1.
  set (s1 := set_restart 0 (set_renaming "" (set_User user s))) in *.
  assert (H2 : handle env2 (mkCommand "PASS" pass) s1 =
               (None, set_authed true (set_Password pass s1), [loginOk])).
  { rewrite (handle_preauth _ _ _ (Ha : authed s1 = false)).
    unfold handlePreAuth; unfold_monad; simpl.
    rewrite Ha, (eqb_false_of_neq _ _ Hu), Hh, Hw2. reflexivity. }
  pose proof (iteration_handled _ _ _ _ _ H2) as I2. simpl in I2.
  rewrite (Handle_continues _ _ _ _ _ I1), (Handle_continues _ _ _ _ _ I2).
  reflexivity.
Qed.

Lemma login_without_authorizer_witness :
  authed openSession = false /\
  hasAuthorizer (handler openSession) = false /\
  authed (state_of (Handle [mkTurn (inr (mkCommand "USER" "anonymous")) okEnv;
                            mkTurn (inr (mkCommand "PASS" "guest")) rejectEnv]
                      openSession)) = true /\
  trace_of (Handle [mkTurn (inr (mkCommand "USER" "anonymous")) okEnv;
                    mkTurn (inr (mkCommand "PASS" "guest")) rejectEnv] openSession) =
    [EvReply 331 "Please specify the password."; loginOk].
Proof.
  assert (Hu : "anonymous" <> "") by discriminate.
  pose proof (login_without_authorizer okEnv rejectEnv "anonymous" "guest" openSession
                eq_refl eq_refl Hu eq_refl eq_refl) as H.
  split; [reflexivity|]. split; [reflexivity|]. rewrite H. split; reflexivity.
Defined.

(** ** STAT *)

(** Closes the exit paths of STAT once the answers are fixed. *)
Ltac stat_finish :=
  repeat split; intros;
  repeat match goal with
         | H1 : ?x = inr _, H2 : ?x = _ |- _ => rewrite H1 in H2
         | H1 : ?x = inl _, H2 : ?x = _ |- _ => rewrite H1 in H2
         | H : inl _ = inr _ |- _ => discriminate H
         | H : inr _ = inl _ |- _ => discriminate H
         | H : inr _ = inr _ |- _ => inversion H; clear H; subst
         | H : inl _ = inl _ |- _ => inversion H; clear H; subst
         end;
  try solve [eexists; reflexivity]; try reflexivity; try congruence.

(** X21: STAT without an argument is answered 211 and calls nothing else.  With
    an argument it leaves the session as it is and passes the argument to the
    file system as it is, without resolving it against the working
    directory: it stats it and, for a directory, opens it, reads its entries
    and closes it, whether or not the reading failed; it never uses the data
    channel.  The single reply is 213 with the listing when every call
    succeeded and a 550 as soon as one failed. *)
Theorem stat_command env arg s :
  authed s = true ->
  let r := handle env (mkCommand "STAT" arg) s in
  let listing l := EvReply 213 (Join (["Status:"] ++ env_listLines env l ++ ["End."]) newline) in
  (arg = "" ->
   r = (liftErr (env_Reply env 211 "Looks good to me."), s,
        [EvReply 211 "Looks good to me."]))
  /\
  (arg <> "" ->
   state_of r = s
   /\ (forall e, env_Stat env arg = inl e ->
       exists msg, trace_of r = [EvStat arg; EvReply 550 msg])
   /\ (forall st, env_Stat env arg = inr st -> IsDir st = false ->
       trace_of r = [EvStat arg; listing [st]])
   /\ (forall st, env_Stat env arg = inr st -> IsDir st = true ->
       (forall e, env_Open env arg = inl e ->
          exists msg, trace_of r = [EvStat arg; EvOpen arg; EvReply 550 msg])
       /\ (forall f, env_Open env arg = inr f ->
           (forall e, env_Readdir env f = inl e ->
              exists msg,
                trace_of r = [EvStat arg; EvOpen arg; EvReaddir f; EvClose f;
                              EvReply 550 msg])
           /\ (forall l, env_Readdir env f = inr l ->
               trace_of r = [EvStat arg; EvOpen arg; EvReaddir f; EvClose f;
                             listing l])))).
Proof.
  intros Ha. cbv zeta. rewrite (handle_postauth _ _ _ Ha). split.
  - intros ->. unfold handlePostAuth; unfold_monad. reflexivity.
  - intros Harg. unfold handlePostAuth, stat, state_of, trace_of; unfold_monad; simpl.
    rewrite (eqb_false_of_neq _ _ Harg).
    destruct (env_Stat env arg) as [[[] m]|st] eqn:Es; simpl; [stat_finish..|].
    destruct (IsDir st) eqn:Hd; simpl; [|stat_finish].
    destruct (env_Open env arg) as [[[] m]|f] eqn:Eo; simpl; [stat_finish..|].
    destruct (env_Readdir env f) as [[[] m]|l] eqn:Er; simpl; stat_finish.
Qed.

Lemma stat_command_witness :
  authed authedSession = true /\
  state_of (handle dirEnv (mkCommand "STAT" "pub") (set_Dir "/home" authedSession)) =
    set_Dir "/home" authedSession /\
  trace_of (handle dirEnv (mkCommand "STAT" "pub") (set_Dir "/home" authedSession)) =
    [EvStat "pub"; EvOpen "pub"; EvReaddir 3%nat; EvClose 3%nat;
     EvReply 213 (Join ["Status:"; "notes.txt"; "End."] newline)].
Proof.
  split; [reflexivity|].
  assert (Hne : "pub" <> "") by discriminate.
  pose proof (stat_command dirEnv "pub" (set_Dir "/home" authedSession) eq_refl) as H.
  cbv zeta in H. destruct H as [_ H]. destruct (H Hne) as (Hs & _ & _ & Hdir).
  split; [exact Hs|].
  destruct (Hdir sampleDir eq_refl eq_refl) as [_ Hopen].
  destruct (Hopen 3%nat eq_refl) as [_ Hread].
  exact (Hread [sampleFile] eq_refl).
Defined.

(** ** Nothing is prepared before login *)

(** X22: A client that is not logged in cannot prepare anything: whatever command
    it sends, the pending rename source, the restart offset, the passive-only
    lock, the working directory, the data channel and its protection are
    left as they were; only the user name, the password and the login itself
    can change. *)
Theorem nothing_prepared_before_login env c s :
  authed s = false ->
  let s' := state_of (handle env c s) in
  renaming s' = renaming s
  /\ restart s' = restart s
  /\ epsvOnly s' = epsvOnly s
  /\ Dir (session s') = Dir (session s)
  /\ Data (session s') = Data (session s)
  /\ TLS (session s') = TLS (session s).
Proof.
  intros Ha. cbv zeta. rewrite (handle_preauth _ _ _ Ha).
  unfold handlePreAuth, state_of; unfold_monad; simpl. rewrite Ha.
  destruct (Cmd c =? "USER").
  { destruct (Msg c =? ""); simpl; repeat split. }
  destruct (Cmd c =? "PASS").
  { destruct (User (session s) =? ""); [simpl; repeat split|].
    destruct (hasAuthorizer (handler s)); simpl; [|repeat split].
    destruct (env_Authorize env _ _) as [[|] [e|]]; simpl; repeat split. }
  destruct (Cmd c =? "FEAT"); [simpl; repeat split|].
  destruct (Cmd c =? "QUIT"); simpl; repeat split.
Qed.

Lemma nothing_prepared_before_login_witness :
  authed freshSession = false /\
  restart (state_of (handle okEnv (mkCommand "REST" "42") freshSession)) = 0%Z /\
  epsvOnly (state_of (handle okEnv (mkCommand "EPSV" "ALL") freshSession)) = false.
Proof.
  split; [reflexivity|].
  destruct (nothing_prepared_before_login okEnv (mkCommand "REST" "42") freshSession
              eq_refl) as (_ & Hr & _).
  destruct (nothing_prepared_before_login okEnv (mkCommand "EPSV" "ALL") freshSession
              eq_refl) as (_ & _ & Hl & _).
  split; [exact Hr | exact Hl].
Defined.

(** ** PWD *)

Lemma append_inv_tail (c : string) : forall a b, a ++ c = b ++ c -> a = b.
Proof.
  assert (Hlen : forall a b, a ++ c = b ++ c -> String.length a = String.length b).
  { intros a b H. apply (f_equal String.length) in H.
    rewrite !length_append in H. lia. }
  induction a as [|x a IH]; intros [|y b] H.
  - reflexivity.
  - apply Hlen in H. discriminate H.
  - apply Hlen in H. discriminate H.
  - simpl in H. injection H as -> H. f_equal. apply IH, H.
Qed.

(** X23: In an authenticated session PWD writes the single reply 257 with the
    quoted working directory, and changes nothing.  The reply determines the
    directory: two PWD replies are the same text only when the resolved
    directories are the same, whatever characters these contain. *)
Theorem pwd_reply env s :
  authed s = true ->
  let path := env_Path env (Dir (session s)) "" in
  handle env (mkCommand "PWD" "") s =
    (liftErr (env_Reply env 257 (quote path ++ " is the current directory.")), s,
     [EvReply 257 (quote path ++ " is the current directory.")])
  /\ forall env' s',
       authed s' = true ->
       trace_of (handle env' (mkCommand "PWD" "") s') =
         trace_of (handle env (mkCommand "PWD" "") s) ->
       env_Path env' (Dir (session s')) "" = path.
Proof.
  intros Ha path.
  assert (Hpwd : forall e x, authed x = true ->
            handle e (mkCommand "PWD" "") x =
              (liftErr (env_Reply e 257
                          (quote (env_Path e (Dir (session x)) "")
                             ++ " is the current directory.")), x,
               [EvReply 257 (quote (env_Path e (Dir (session x)) "")
                               ++ " is the current directory.")])).
  { intros e x Hx. rewrite (handle_postauth _ _ _ Hx).
    unfold handlePostAuth; unfold_monad. reflexivity. }
  split; [apply Hpwd, Ha|].
  intros env' s' Ha' Htr. rewrite (Hpwd env' s' Ha'), (Hpwd env s Ha) in Htr.
  unfold trace_of in Htr. simpl in Htr. injection Htr as Htr.
  apply append_inv_tail in Htr.
  apply doubleQuotes_inj, (append_inj_r _ _ dquote), Htr.
Qed.

Lemma pwd_reply_witness :
  authed authedSession = true /\
  handle okEnv (mkCommand "PWD" "") authedSession =
    (None, authedSession,
     [EvReply 257 (quote "/" ++ " is the current directory.")]).
Proof.
  split; [reflexivity|].
  exact (proj1 (pwd_reply okEnv authedSession eq_refl)).
Defined.
